(** * worker-sisprime: the SIFEN document lifecycle engine

    A shallow embedding of the worker that signs, submits, polls and cancels
    Paraguayan electronic fiscal documents:

    - [sifen_xml.py]  the QR token builder and the cancellation event builder,
    - [sifen_api.py]  the SOAP client,
    - [database.py]   the two tables and their field-level updates,
    - [handlers.py]   the delay-queue scheduler, the three handlers and the
                      dispatcher,
    - [publisher.py]  the upstream entry points.

    Python values are modelled as follows.

    - [str] is [string], one [ascii] per code point: the model covers the
      texts whose code points are below 256 (Latin-1).  [len], [strip],
      [lower], [isdigit], [replace] and [in] are written out for that range
      with Python's tables; [encode('utf-8')] is written out as well, so a
      code point from 128 up takes two bytes.
    - [bytes] is [list byte].
    - JSON values are the inductive [json]; numbers are integers (the message
      schema has no other), a [dict] is an association list.
    - an lxml element is the rose tree [xml].
    - exceptions are the [Exc] branch of [result]; handlers run in a state and
      exception monad over [world] (the two tables, the broker channel, the
      HTTP requests sent); a schedule of faults in the world says which
      database statements and channel calls raise.
    - libraries the repository calls but does not contain (lxml's parser and
      serializer, signxml, cryptography's PKCS#12 loader, requests, zipfile,
      the clock) are the fields of [Env]. *)

From Stdlib Require Import ZArith List Bool Lia PeanoNat.
From Stdlib.Strings Require Import Ascii String Byte.
From Stdlib Require Import DecimalString.
Import ListNotations.

Set Warnings "-register-all".

Local Open Scope list_scope.
Local Open Scope string_scope.

(* ================================================================== *)
(** * Python strings *)
(* ================================================================== *)

Module Py.

(** Code point of a character. *)
Definition ord (c : ascii) : N := N_of_ascii c.

(** [str.isspace] on one code point below 256: TAB..CR, FS..US, SPACE,
    NEL (0x85) and NBSP (0xA0). *)
Definition isspace (c : ascii) : bool :=
  let n := ord c in
  ((9 <=? n) && (n <=? 13) || (28 <=? n) && (n <=? 32)
   || (n =? 133) || (n =? 160))%N.

Fixpoint lstrip (s : string) : string :=
  match s with
  | String c s' => if isspace c then lstrip s' else s
  | EmptyString => EmptyString
  end.

(** [rstrip], right to left: a character is dropped when it is white and
    everything after it has been dropped. *)
Fixpoint rstrip (s : string) : string :=
  match s with
  | EmptyString => EmptyString
  | String c s' =>
      match rstrip s' with
      | EmptyString => if isspace c then EmptyString else String c EmptyString
      | r => String c r
      end
  end.

(** [s.strip()] *)
Definition strip (s : string) : string := rstrip (lstrip s).

(** Truthiness of a [str]. *)
Definition truthy (s : string) : bool :=
  match s with EmptyString => false | _ => true end.

(** [a or b] on strings. *)
Definition or_ (a b : string) : string := if truthy a then a else b.

(** [x or y] when [x] may be [None]. *)
Definition oor (a : option string) (b : option string) : option string :=
  match a with
  | Some s => if truthy s then a else b
  | None => b
  end.

(** [x or "literal"]: the chain always ends in a string. *)
Definition oor_str (a : option string) (b : string) : string :=
  match a with
  | Some s => if truthy s then s else b
  | None => b
  end.

(** [s.startswith(p)] *)
Fixpoint startswith (p s : string) : bool :=
  match p, s with
  | EmptyString, _ => true
  | String a p', String b s' => Ascii.eqb a b && startswith p' s'
  | String _ _, EmptyString => false
  end.

(** [sub in s] *)
Fixpoint contains (sub s : string) : bool :=
  startswith sub s ||
  match s with
  | EmptyString => false
  | String _ s' => contains sub s'
  end.

(** [s.replace(old, new)] for a non-empty [old]: leftmost, non-overlapping.
    [skip] counts the characters of a match still to be consumed. *)
Fixpoint replace_from (old new : string) (skip : nat) (s : string) : string :=
  match s with
  | EmptyString => EmptyString
  | String c s' =>
      match skip with
      | S k => replace_from old new k s'
      | O =>
          if startswith old s
          then new ++ replace_from old new (String.length old - 1) s'
          else String c (replace_from old new 0 s')
      end
  end.

(** With an empty [old] Python puts [new] before every character and at the
    end. *)
Fixpoint intersperse (new s : string) : string :=
  match s with
  | EmptyString => new
  | String c s' => new ++ String c (intersperse new s')
  end.

Definition replace (old new s : string) : string :=
  match old with
  | EmptyString => intersperse new s
  | _ => replace_from old new 0 s
  end.

(** [str.lower] on one code point below 256: A..Z and the Latin-1 capitals
    0xC0..0xDE except the multiplication sign 0xD7 move up by 32. *)
Definition lower_char (c : ascii) : ascii :=
  let n := ord c in
  if ((65 <=? n) && (n <=? 90)
      || (192 <=? n) && (n <=? 222) && negb (n =? 215))%N
  then ascii_of_N (n + 32) else c.

Fixpoint lower (s : string) : string :=
  match s with
  | EmptyString => EmptyString
  | String c s' => String (lower_char c) (lower s')
  end.

Definition is_ascii_digit (c : ascii) : bool :=
  let n := ord c in ((48 <=? n) && (n <=? 57))%N.

(** [str.isdigit] on one code point below 256: 0..9 and the superscripts
    two, three (0xB2, 0xB3) and one (0xB9). *)
Definition isdigit_char (c : ascii) : bool :=
  let n := ord c in
  (is_ascii_digit c || (n =? 178) || (n =? 179) || (n =? 185))%N.

Fixpoint all_chars (p : ascii -> bool) (s : string) : bool :=
  match s with
  | EmptyString => true
  | String c s' => p c && all_chars p s'
  end.

(** [s.isdigit()]: non-empty and every character a digit. *)
Definition isdigit (s : string) : bool := truthy s && all_chars isdigit_char s.

Fixpoint digits_value (acc : Z) (s : string) : Z :=
  match s with
  | EmptyString => acc
  | String c s' => digits_value (10 * acc + Z.of_N (ord c) - 48)%Z s'
  end.

(** [int(s)] for a string that passed [isdigit]: the superscript digits are
    refused ([ValueError]), here [None]. *)
Definition int_of_digits (s : string) : option Z :=
  if truthy s && all_chars is_ascii_digit s then Some (digits_value 0 s)
  else None.

(** [str(n)] for an integer. *)
Definition str_of_Z (z : Z) : string := NilZero.string_of_int (Z.to_int z).
Definition str_of_nat (n : nat) : string := str_of_Z (Z.of_nat n).

(** [s.encode('utf-8')]: one byte below 128, two bytes from 128 to 255. *)
Definition byte_of_N (n : N) : byte :=
  match Byte.of_N n with Some b => b | None => x00 end.

Definition encode_char (c : ascii) : list byte :=
  let n := ord c in
  if (n <? 128)%N then [byte_of_N n]
  else [byte_of_N (192 + N.shiftr n 6); byte_of_N (128 + N.land n 63)].

Fixpoint encode_utf8 (s : string) : list byte :=
  match s with
  | EmptyString => []
  | String c s' => (encode_char c ++ encode_utf8 s')%list
  end.

Definition hex_digit (n : N) : ascii :=
  if (n <? 10)%N then ascii_of_N (48 + n) else ascii_of_N (87 + n).

(** [bytes.hex()]: two lowercase digits per byte. *)
Fixpoint hex (bs : list byte) : string :=
  match bs with
  | [] => EmptyString
  | b :: bs' =>
      let n := Byte.to_N b in
      String (hex_digit (N.shiftr n 4)) (String (hex_digit (N.land n 15)) (hex bs'))
  end.

(** Formatting an optional string in an f-string: [None] prints as "None". *)
Definition fmt_opt (o : option string) : string :=
  match o with Some s => s | None => "None" end.

End Py.

(* ================================================================== *)
(** * hashlib.sha256 (FIPS 180-4) on 32-bit words held in [Z] *)
(* ================================================================== *)

Module Sha256.

Local Open Scope Z_scope.

Definition w32 (x : Z) : Z := x mod 4294967296.
Definition add32 (x y : Z) : Z := w32 (x + y).
Definition rotr (n x : Z) : Z :=
  Z.lor (Z.shiftr x n) (w32 (Z.shiftl x (32 - n))).
Definition not32 (x : Z) : Z := 4294967295 - x.

Definition Ch (x y z : Z) : Z := Z.lxor (Z.land x y) (Z.land (not32 x) z).
Definition Maj (x y z : Z) : Z :=
  Z.lxor (Z.lxor (Z.land x y) (Z.land x z)) (Z.land y z).
Definition Sigma0 (x : Z) : Z := Z.lxor (Z.lxor (rotr 2 x) (rotr 13 x)) (rotr 22 x).
Definition Sigma1 (x : Z) : Z := Z.lxor (Z.lxor (rotr 6 x) (rotr 11 x)) (rotr 25 x).
Definition sigma0 (x : Z) : Z := Z.lxor (Z.lxor (rotr 7 x) (rotr 18 x)) (Z.shiftr x 3).
Definition sigma1 (x : Z) : Z := Z.lxor (Z.lxor (rotr 17 x) (rotr 19 x)) (Z.shiftr x 10).

(** The round constants: the first 32 bits of the fractional parts of the
    cube roots of the first 64 primes. *)
Definition K : list Z :=
  [
    1116352408; 1899447441; 3049323471; 3921009573; 961987163; 1508970993;
    2453635748; 2870763221; 3624381080; 310598401; 607225278; 1426881987;
    1925078388; 2162078206; 2614888103; 3248222580; 3835390401; 4022224774;
    264347078; 604807628; 770255983; 1249150122; 1555081692; 1996064986;
    2554220882; 2821834349; 2952996808; 3210313671; 3336571891; 3584528711;
    113926993; 338241895; 666307205; 773529912; 1294757372; 1396182291;
    1695183700; 1986661051; 2177026350; 2456956037; 2730485921; 2820302411;
    3259730800; 3345764771; 3516065817; 3600352804; 4094571909; 275423344;
    430227734; 506948616; 659060556; 883997877; 958139571; 1322822218;
    1537002063; 1747873779; 1955562222; 2024104815; 2227730452; 2361852424;
    2428436474; 2756734187; 3204031479; 3329325298 ].

(** Padding: the byte 0x80, zeros up to 56 modulo 64, the bit length on
    eight bytes, big-endian. *)
Definition be_bytes (count : nat) (v : Z) : list Z :=
  map (fun i => (Z.shiftr v (8 * Z.of_nat (count - 1 - i))) mod 256) (seq 0 count).

Definition pad (msg : list Z) : list Z :=
  let len := Z.of_nat (List.length msg) in
  let zeros := Z.to_nat ((55 - len) mod 64) in
  (msg ++ [128] ++ repeat 0 zeros ++ be_bytes 8 (8 * len))%list.

Fixpoint words_of_bytes (bs : list Z) : list Z :=
  match bs with
  | a :: b :: c :: d :: rest =>
      (a * 16777216 + b * 65536 + c * 256 + d) :: words_of_bytes rest
  | _ => []
  end.

(** The message schedule, newest word first: [extend 48] of the sixteen block
    words reversed gives W63 .. W0. *)
Fixpoint extend (n : nat) (w : list Z) : list Z :=
  match n with
  | O => w
  | S n' =>
      let nw := add32 (add32 (sigma1 (nth 1 w 0)) (nth 6 w 0))
                      (add32 (sigma0 (nth 14 w 0)) (nth 15 w 0)) in
      extend n' (nw :: w)
  end.

Definition schedule (block : list Z) : list Z := rev (extend 48 (rev block)).

Record regs := Regs { ra : Z; rb : Z; rc : Z; rd : Z; re : Z; rf : Z; rg : Z; rh : Z }.

Definition round (s : regs) (kw : Z * Z) : regs :=
  let '(k, w) := kw in
  let t1 := add32 (add32 (add32 (rh s) (Sigma1 (re s))) (add32 (Ch (re s) (rf s) (rg s)) k)) w in
  let t2 := add32 (Sigma0 (ra s)) (Maj (ra s) (rb s) (rc s)) in
  Regs (add32 t1 t2) (ra s) (rb s) (rc s) (add32 (rd s) t1) (re s) (rf s) (rg s).

Definition compress (h : regs) (block : list Z) : regs :=
  let s := fold_left round (combine K (schedule block)) h in
  Regs (add32 (ra h) (ra s)) (add32 (rb h) (rb s)) (add32 (rc h) (rc s))
       (add32 (rd h) (rd s)) (add32 (re h) (re s)) (add32 (rf h) (rf s))
       (add32 (rg h) (rg s)) (add32 (rh h) (rh s)).

(** The blocks of sixteen words; [fuel] bounds their number. *)
Fixpoint blocks (fuel : nat) (ws : list Z) : list (list Z) :=
  match fuel with
  | O => []
  | S fuel' =>
      match ws with
      | [] => []
      | _ => firstn 16 ws :: blocks fuel' (skipn 16 ws)
      end
  end.

(** The initial hash value: the first 32 bits of the fractional parts of the
    square roots of the first 8 primes. *)
Definition init : regs :=
  Regs 1779033703 3144134277 1013904242 2773480762
       1359893119 2600822924 528734635 1541459225.

Definition digest_words (msg : list byte) : regs :=
  let ws := words_of_bytes (pad (map (fun b => Z.of_N (Byte.to_N b)) msg)) in
  fold_left compress (blocks (List.length ws) ws) init.

Definition word_bytes (w : Z) : list byte :=
  map (fun v => Py.byte_of_N (Z.to_N v)) (be_bytes 4 w).

(** [hashlib.sha256(msg).digest()] *)
Definition digest (msg : list byte) : list byte :=
  let r := digest_words msg in
  (word_bytes (ra r) ++ word_bytes (rb r) ++ word_bytes (rc r) ++ word_bytes (rd r)
   ++ word_bytes (re r) ++ word_bytes (rf r) ++ word_bytes (rg r) ++ word_bytes (rh r))%list.

(** [hashlib.sha256(msg).hexdigest()] *)
Definition hexdigest (msg : list byte) : string := Py.hex (digest msg).

End Sha256.

(* ================================================================== *)
(** * Exceptions *)
(* ================================================================== *)

Inductive exn : Type :=
| XMLSyntaxError
| ValueError
| TypeError
| AttributeError
| HTTPError (status_code : Z)
| RequestException
| CertificateError
| SignatureError
| DatabaseError
| ChannelError
| JSONDecodeError.

Inductive result (A : Type) : Type :=
| Ok (a : A)
| Exc (e : exn).
Arguments Ok {A} a.
Arguments Exc {A} e.

Definition rbind {A B} (r : result A) (k : A -> result B) : result B :=
  match r with
  | Ok a => k a
  | Exc e => Exc e
  end.

Declare Scope result_scope.
Delimit Scope result_scope with result.
Notation "'let?' x ':=' r 'in' k" := (rbind r (fun x => k))
  (at level 10, x pattern, r at level 100, k at level 200) : result_scope.

(* ================================================================== *)
(** * lxml elements *)
(* ================================================================== *)

(** An element: namespace URI (empty when the tag is unqualified), local
    name, the namespace map it declares, attributes, the text before its
    first child, and its children. *)
Inductive xml : Type :=
| Element (ns : string) (name : string) (nsmap : list (string * string))
          (attrib : list (string * string)) (text : option string)
          (children : list xml).

Definition el_ns (e : xml) : string := let 'Element n _ _ _ _ _ := e in n.
Definition el_name (e : xml) : string := let 'Element _ n _ _ _ _ := e in n.
Definition el_nsmap (e : xml) := let 'Element _ _ m _ _ _ := e in m.
Definition el_attrib (e : xml) := let 'Element _ _ _ a _ _ := e in a.
Definition el_text (e : xml) : option string := let 'Element _ _ _ _ t _ := e in t.
Definition el_children (e : xml) : list xml := let 'Element _ _ _ _ _ c := e in c.

(** [e.get(key)] *)
Fixpoint assoc {V} (key : string) (l : list (string * V)) : option V :=
  match l with
  | [] => None
  | (k, v) :: l' => if String.eqb k key then Some v else assoc key l'
  end.

Definition get_attr (key : string) (e : xml) : option string :=
  assoc key (el_attrib e).

(** [e.iterdescendants()]: the elements below [e] in document order, [e]
    itself excluded. *)
Fixpoint descendants (e : xml) : list xml :=
  match e with
  | Element _ _ _ _ _ cs =>
      (fix walk (l : list xml) : list xml :=
         match l with
         | [] => []
         | c :: r => c :: (descendants c ++ walk r)%list
         end) cs
  end.

(** The tag tests of an ElementPath step: [{*}name] (any namespace or none),
    [name] (no namespace) and [{uri}name]. *)
Inductive tag : Type :=
| AnyNs (name : string)
| NoNs (name : string)
| InNs (uri name : string).

Definition tag_matches (t : tag) (e : xml) : bool :=
  match t with
  | AnyNs n => String.eqb (el_name e) n
  | NoNs n => String.eqb (el_ns e) "" && String.eqb (el_name e) n
  | InNs u n => String.eqb (el_ns e) u && String.eqb (el_name e) n
  end.

(** [root.find('.//tag')] *)
Definition find (t : tag) (root : xml) : option xml :=
  List.find (tag_matches t) (descendants root).

(** [root.findall('.//tag')] *)
Definition findall (t : tag) (root : xml) : list xml :=
  List.filter (tag_matches t) (descendants root).

(** [root.findtext('.//tag')]: [None] when no element matches, the empty
    string when the element has no text. *)
Definition findtext (t : tag) (root : xml) : option string :=
  match find t root with
  | None => None
  | Some e => Some (match el_text e with Some s => s | None => "" end)
  end.

(** [root.findtext('.//tag', default)] *)
Definition findtext_default (t : tag) (default : string) (root : xml) : string :=
  match findtext t root with
  | None => default
  | Some s => s
  end.

(** [root.xpath(".//*[local-name() = 'name']")] *)
Definition xpath_local_name (n : string) (root : xml) : list xml :=
  List.filter (fun e => String.eqb (el_name e) n) (descendants root).

(** Replace the first descendant satisfying [p] by [f] of it (document
    order); [None] when there is none. *)
Fixpoint update_first (p : xml -> bool) (f : xml -> xml) (e : xml) : option xml :=
  match e with
  | Element ns n m a t cs =>
      match
        (fix walk (l : list xml) : option (list xml) :=
           match l with
           | [] => None
           | c :: r =>
               if p c then Some (f c :: r)
               else match update_first p f c with
                    | Some c' => Some (c' :: r)
                    | None => match walk r with
                              | Some r' => Some (c :: r')
                              | None => None
                              end
                    end
           end) cs
      with
      | Some cs' => Some (Element ns n m a t cs')
      | None => None
      end
  end.

(** [parent.insert(parent.index(x) + 1, new)] for the first descendant [x]
    satisfying [p]. *)
Fixpoint insert_after_first (p : xml -> bool) (new : xml) (e : xml) : option xml :=
  match e with
  | Element ns n m a t cs =>
      match
        (fix walk (l : list xml) : option (list xml) :=
           match l with
           | [] => None
           | c :: r =>
               if p c then Some (c :: new :: r)
               else match insert_after_first p new c with
                    | Some c' => Some (c' :: r)
                    | None => match walk r with
                              | Some r' => Some (c :: r')
                              | None => None
                              end
                    end
           end) cs
      with
      | Some cs' => Some (Element ns n m a t cs')
      | None => None
      end
  end.

Definition set_text (s : option string) (e : xml) : xml :=
  let 'Element ns n m a _ cs := e in Element ns n m a s cs.

(** lxml refuses a text with a control character other than TAB, LF, CR. *)
Definition xml_compatible (s : string) : bool :=
  Py.all_chars (fun c => let n := Py.ord c in
                         ((32 <=? n) || (n =? 9) || (n =? 10) || (n =? 13))%N) s.

(** Assigning a [str] to [element.text]. *)
Definition checked_text (s : string) : result string :=
  if xml_compatible s then Ok s else Exc ValueError.

(* ================================================================== *)
(** * config.py *)
(* ================================================================== *)

Definition SIFEN_NS : string := "http://ekuatia.set.gov.py/sifen/xsd".
Definition DS_NS : string := "http://www.w3.org/2000/09/xmldsig#".
Definition XSI_NS : string := "http://www.w3.org/2001/XMLSchema-instance".

Definition MAIN_QUEUE : string := "faturas_para_processar".
Definition DELAY_QUEUE : string := "faturas_wait_30s".
Definition MAX_TENTATIVAS_CONSULTA : Z := 10.
Definition CODIGO_STATUS_APROVADO : string := "0201".
Definition CODIGO_STATUS_REJEITADO : string := "0300".
Definition CODIGO_STATUS_EXCEDEU_TENTATIVAS : string := "998".
Definition CODIGO_STATUS_ENVIADO : string := "900".
Definition CODIGO_STATUS_CANCELADO : string := "600".
Definition CODIGOS_SUCESSO_CANCELAMENTO : list string := ["0500"; "0501"; "0600"].
Definition SIFEN_VERSION : string := "150".

(* ================================================================== *)
(** * sifen_xml.py: the QR token of [assinar_e_gerar_qr] *)
(* ================================================================== *)

Module Qr.

Local Open Scope result_scope.

(** Step 5: the text of [DigestValue], as written. *)
Definition digest_value_b64 (signed_root : xml) : result string :=
  match findtext (InNs DS_NS "DigestValue") signed_root with
  | Some d => if Py.truthy d then Ok d
              else Exc ValueError
  | None => Exc ValueError
  end.

(** [digest_value_b64.strip().encode(SIFEN_ENCODING).hex()] *)
Definition digest_value_hex (d : string) : string :=
  Py.hex (Py.encode_utf8 (Py.strip d)).

(** [signed_root.find(".//s:DE").get("Id")]: no [DE] is an [AttributeError]
    on [None]. *)
Definition id_de_signed (signed_root : xml) : result (option string) :=
  match find (InNs SIFEN_NS "DE") signed_root with
  | Some de => Ok (get_attr "Id" de)
  | None => Exc AttributeError
  end.

(** The local helper [get_xml_text(path, default="0")]. *)
Definition get_xml_text (signed_root : xml) (name : string) : string :=
  match findtext (InNs SIFEN_NS name) signed_root with
  | Some val => if Py.truthy val then Py.strip val else "0"
  | None => "0"
  end.

Definition dFeEmiDE_hex (signed_root : xml) : string :=
  Py.hex (Py.encode_utf8 (get_xml_text signed_root "dFeEmiDE")).

Definition cItems (signed_root : xml) : nat :=
  List.length (findall (InNs SIFEN_NS "gCamItem") signed_root).

(** Step 7: the base of the QR query. *)
Definition url_base_qr (signed_root : xml) (csc_id : string) : result string :=
  let? d := digest_value_b64 signed_root in
  let? id := id_de_signed signed_root in
  Ok ("nVersion=" ++ SIFEN_VERSION
      ++ "&Id=" ++ Py.fmt_opt id
      ++ "&dFeEmiDE=" ++ dFeEmiDE_hex signed_root
      ++ "&dRucRec=" ++ get_xml_text signed_root "dRucRec"
      ++ "&dTotGralOpe=" ++ get_xml_text signed_root "dTotGralOpe"
      ++ "&dTotIVA=" ++ get_xml_text signed_root "dTotIVA"
      ++ "&cItems=" ++ Py.str_of_nat (cItems signed_root)
      ++ "&DigestValue=" ++ digest_value_hex d
      ++ "&IdCSC=" ++ csc_id).

(** Step 8: [hashlib.sha256((url_base_qr + csc.strip()).encode()).hexdigest()] *)
Definition cHashQR (base csc : string) : string :=
  Sha256.hexdigest (Py.encode_utf8 (base ++ Py.strip csc)).

(** Step 9: the URL stored in [dCarQR]. *)
Definition url_final_qr (URL_SIFEN_QR : option string) (signed_root : xml)
    (csc csc_id : string) : result string :=
  let? base := url_base_qr signed_root csc_id in
  Ok (Py.fmt_opt URL_SIFEN_QR ++ base ++ "&cHashQR=" ++ cHashQR base csc).

(** Steps 10 and 11: [gCamFuFD/dCarQR] right after the first [Signature]. *)
Definition gCamFuFD_tag (url : string) : xml :=
  Element "" "gCamFuFD" [("", SIFEN_NS)] [] None
    [Element "" "dCarQR" [] [] (Some url) []].

Definition inserir_qr (signed_root : xml) (url_final : string) : result xml :=
  let? dCarQR_text := checked_text url_final in
  match insert_after_first (tag_matches (InNs DS_NS "Signature"))
                           (gCamFuFD_tag dCarQR_text) signed_root with
  | Some t => Ok t
  | None => Exc ValueError
  end.

(** Reading a produced URL back: what follows the configured prefix, up to
    the seal, and the seal itself (64 hexadecimal digits after the nine
    characters of "&cHashQR="). *)
Definition seal_of (url : string) : string :=
  String.substring (String.length url - 64) 64 url.

Definition base_of (prefix url : string) : string :=
  String.substring (String.length prefix)
                   (String.length url - String.length prefix - 73) url.

End Qr.

(* ================================================================== *)
(** * JSON values and broker messages *)
(* ================================================================== *)

Inductive json : Type :=
| JNull
| JBool (b : bool)
| JInt (z : Z)
| JStr (s : string)
| JList (l : list json)
| JDict (d : list (string * json)).

(** The payload of a broker message: UTF-8 JSON text, or bytes that
    [json.loads] refuses. *)
Inductive body : Type :=
| Json (j : json)
| Garbage.

(** [json.loads(body.decode(SIFEN_ENCODING))] *)
Definition json_loads (b : body) : result json :=
  match b with
  | Json j => Ok j
  | Garbage => Exc JSONDecodeError
  end.

(** [json.dumps(obj)] *)
Definition json_dumps (j : json) : body := Json j.

(** [dados.get(key, default)]: only a dict has [get]. *)
Definition dict_get (dados : json) (key : string) (default : json) : result json :=
  match dados with
  | JDict d => Ok (match assoc key d with Some v => v | None => default end)
  | _ => Exc AttributeError
  end.

(** [dados[key] = v]: a present key keeps its place. *)
Fixpoint assoc_set (key : string) (v : json) (d : list (string * json))
  : list (string * json) :=
  match d with
  | [] => [(key, v)]
  | (k, x) :: d' =>
      if String.eqb k key then (k, v) :: d' else (k, x) :: assoc_set key v d'
  end.

Definition dict_set (dados : json) (key : string) (v : json) : result json :=
  match dados with
  | JDict d => Ok (JDict (assoc_set key v d))
  | _ => Exc TypeError
  end.

(** Truthiness of a JSON value as a Python object. *)
Definition json_truthy (j : json) : bool :=
  match j with
  | JNull => false
  | JBool b => b
  | JInt z => negb (z =? 0)%Z
  | JStr s => Py.truthy s
  | JList l => match l with [] => false | _ => true end
  | JDict d => match d with [] => false | _ => true end
  end.

(** A Python integer: [bool] is a subclass of [int]. *)
Definition as_int (j : json) : option Z :=
  match j with
  | JInt z => Some z
  | JBool b => Some (if b then 1 else 0)%Z
  | _ => None
  end.

(** [tentativas < MAX_TENTATIVAS_CONSULTA]: ordering against an [int] is a
    [TypeError] for [None], [str], [list] and [dict]. *)
Definition lt_int (j : json) (n : Z) : result bool :=
  match as_int j with
  | Some z => Ok (z <? n)%Z
  | None => Exc TypeError
  end.

(** [tentativas + 1] *)
Definition add_one (j : json) : result json :=
  match as_int j with
  | Some z => Ok (JInt (z + 1))
  | None => Exc TypeError
  end.

(** [s.lower()] on a JSON value: only a [str] has it. *)
Definition json_lower (j : json) : result string :=
  match j with
  | JStr s => Ok (Py.lower s)
  | _ => Exc AttributeError
  end.

(* ================================================================== *)
(** * The world: tables, broker channel, HTTP requests *)
(* ================================================================== *)

(** A row of [tb_de_emissao]; [None] is NULL. *)
Record emissao_row : Type := {
  r_id : Z;
  r_id_docfis : Z;
  r_xml : option string;
  r_xml_retorno : option string;
  r_tipo : option string;
  r_cod_status : option string;
  r_desc_status : option string;
  r_caminho_certificado : option string;
  r_senha : option string;
  r_id_csc : option string;
  r_csc : option string;
  r_protocolo : option string;
  r_xml_assinado : option string;
  r_xml_cancelamento_envio : option string;
  r_xml_cancelamento_retorno : option string;
  r_tipo_docto : option string
}.

(** A row of [tb_de_documento]. *)
Record documento_row : Type := {
  d_id_doc : Z;
  d_cod_status : option Z;
  d_desc_status : option string
}.

Inductive chan_event : Type :=
| Publish (exchange routing_key : string) (b : body) (delivery_mode : Z)
| Ack (delivery_tag : Z)
| Nack (delivery_tag : Z) (requeue : bool).

(** [faults] says which input/output operations fail, by their rank [tick]
    in the run: a database statement or a channel call that fails raises. *)
Record world : Type := {
  tb_de_emissao : list emissao_row;
  tb_de_documento : list documento_row;
  channel : list chan_event;
  http_log : list (option string * list byte);
  faults : nat -> bool;
  tick : nat
}.

Definition set_emissao (t : list emissao_row) (w : world) : world :=
  {| tb_de_emissao := t; tb_de_documento := tb_de_documento w;
     channel := channel w; http_log := http_log w;
     faults := faults w; tick := tick w |}.

Definition set_documento (t : list documento_row) (w : world) : world :=
  {| tb_de_emissao := tb_de_emissao w; tb_de_documento := t;
     channel := channel w; http_log := http_log w;
     faults := faults w; tick := tick w |}.

Definition emit (e : chan_event) (w : world) : world :=
  {| tb_de_emissao := tb_de_emissao w; tb_de_documento := tb_de_documento w;
     channel := (channel w ++ [e])%list; http_log := http_log w;
     faults := faults w; tick := tick w |}.

Definition log_http (url : option string) (data : list byte) (w : world) : world :=
  {| tb_de_emissao := tb_de_emissao w; tb_de_documento := tb_de_documento w;
     channel := channel w; http_log := (http_log w ++ [(url, data)])%list;
     faults := faults w; tick := tick w |}.

Definition next_tick (w : world) : world :=
  {| tb_de_emissao := tb_de_emissao w; tb_de_documento := tb_de_documento w;
     channel := channel w; http_log := http_log w;
     faults := faults w; tick := S (tick w) |}.

(** ** The state and exception monad *)

Definition M (A : Type) : Type := world -> result A * world.

Definition ret {A} (a : A) : M A := fun w => (Ok a, w).
Definition raise {A} (e : exn) : M A := fun w => (Exc e, w).

Definition bind {A B} (m : M A) (k : A -> M B) : M B :=
  fun w => match m w with
           | (Ok a, w') => k a w'
           | (Exc e, w') => (Exc e, w')
           end.

(** [try: m except Exception: h] *)
Definition try_except {A} (m : M A) (h : exn -> M A) : M A :=
  fun w => match m w with
           | (Ok a, w') => (Ok a, w')
           | (Exc e, w') => h e w'
           end.

(** [try: x = m except Exception: h; return] and then [k x] *)
Definition try_or_return {A B} (m : M A) (h : exn -> M B) (k : A -> M B) : M B :=
  fun w => match m w with
           | (Ok a, w') => k a w'
           | (Exc e, w') => h e w'
           end.

Definition lift {A} (r : result A) : M A := fun w => (r, w).

Definition modify (f : world -> world) : M unit := fun w => (Ok tt, f w).

(** One input/output operation: it fails with [e] when the schedule says so. *)
Definition io (e : exn) : M unit :=
  fun w => if faults w (tick w) then (Exc e, next_tick w) else (Ok tt, next_tick w).

Declare Scope monad_scope.
Delimit Scope monad_scope with monad.
Notation "x <- m ;; k" := (bind m (fun x => k))
  (at level 61, m at next level, right associativity) : monad_scope.
Notation "m ;; k" := (bind m (fun _ => k))
  (at level 61, right associativity) : monad_scope.

(* ================================================================== *)
(** * database.py *)
(* ================================================================== *)

Module Db.

Local Open Scope monad_scope.

(** The dict [get_tb_de_emissao] returns: NULL text columns become the empty
    string ([result[i] or '']).  [xml_original] is the key ['xml']. *)
Record emissao : Type := {
  id : Z;
  id_docfis : Z;
  xml_original : string;
  xml_retorno : string;
  tipo : string;
  cod_status : string;
  desc_status : string;
  caminho_certificado : string;
  senha : string;
  id_csc : string;
  csc : string;
  protocolo : string;
  xml_assinado : string;
  xml_cancelamento_envio : string;
  xml_cancelamento_retorno : string;
  tipo_docto : option string
}.

(** The dict [get_tb_de_documento] returns. *)
Record documento : Type := {
  id_doc : Z;
  doc_cod_status : option Z;
  doc_desc_status : option string
}.

Definition or_empty (o : option string) : string := Py.oor_str o "".

Definition emissao_of_row (r : emissao_row) : emissao :=
  {| id := r_id r; id_docfis := r_id_docfis r;
     xml_original := or_empty (r_xml r);
     xml_retorno := or_empty (r_xml_retorno r);
     tipo := or_empty (r_tipo r);
     cod_status := or_empty (r_cod_status r);
     desc_status := or_empty (r_desc_status r);
     caminho_certificado := or_empty (r_caminho_certificado r);
     senha := or_empty (r_senha r);
     id_csc := or_empty (r_id_csc r);
     csc := or_empty (r_csc r);
     protocolo := or_empty (r_protocolo r);
     xml_assinado := or_empty (r_xml_assinado r);
     xml_cancelamento_envio := or_empty (r_xml_cancelamento_envio r);
     xml_cancelamento_retorno := or_empty (r_xml_cancelamento_retorno r);
     tipo_docto := r_tipo_docto r |}.

Definition documento_of_row (r : documento_row) : documento :=
  {| id_doc := d_id_doc r; doc_cod_status := d_cod_status r;
     doc_desc_status := d_desc_status r |}.

(** [WHERE id_docfis = :id_docfis ORDER BY id DESC], first row. *)
Fixpoint newest (k : Z) (rows : list emissao_row) : option emissao_row :=
  match rows with
  | [] => None
  | r :: rest =>
      if (r_id_docfis r =? k)%Z then
        match newest k rest with
        | Some r' => if (r_id r <? r_id r')%Z then Some r' else Some r
        | None => Some r
        end
      else newest k rest
  end.

Definition get_tb_de_emissao (k : Z) : M (option emissao) :=
  io DatabaseError ;;
  fun w => (Ok (option_map emissao_of_row (newest k (tb_de_emissao w))), w).

(** [WHERE id_doc = :id_docfis], first row. *)
Definition get_tb_de_documento (k : Z) : M (option documento) :=
  io DatabaseError ;;
  fun w => (Ok (option_map documento_of_row
                  (List.find (fun r => (d_id_doc r =? k)%Z) (tb_de_documento w))), w).

(** The keys of [column_map]: the columns a keyword argument of
    [update_tb_de_emissao] can name. *)
Inductive campo : Type :=
| xml_assinado_
| xml_retorno_
| xml_cancelamento_envio_
| xml_cancelamento_retorno_
| cod_status_
| desc_status_
| protocolo_.

Definition set_campo (r : emissao_row) (kv : campo * option string) : emissao_row :=
  let '(c, v) := kv in
  {| r_id := r_id r; r_id_docfis := r_id_docfis r; r_xml := r_xml r;
     r_xml_retorno := match c with xml_retorno_ => v | _ => r_xml_retorno r end;
     r_tipo := r_tipo r;
     r_cod_status := match c with cod_status_ => v | _ => r_cod_status r end;
     r_desc_status := match c with desc_status_ => v | _ => r_desc_status r end;
     r_caminho_certificado := r_caminho_certificado r;
     r_senha := r_senha r; r_id_csc := r_id_csc r; r_csc := r_csc r;
     r_protocolo := match c with protocolo_ => v | _ => r_protocolo r end;
     r_xml_assinado := match c with xml_assinado_ => v | _ => r_xml_assinado r end;
     r_xml_cancelamento_envio :=
       match c with xml_cancelamento_envio_ => v | _ => r_xml_cancelamento_envio r end;
     r_xml_cancelamento_retorno :=
       match c with xml_cancelamento_retorno_ => v | _ => r_xml_cancelamento_retorno r end;
     r_tipo_docto := r_tipo_docto r |}.

(** [UPDATE tb_de_emissao SET ... WHERE id_docfis = :id_docfis] on one row. *)
Definition update_row (k : Z) (kwargs : list (campo * option string))
    (r : emissao_row) : emissao_row :=
  if (r_id_docfis r =? k)%Z then fold_left set_campo kwargs r else r.

Definition rowcount_emissao (k : Z) (rows : list emissao_row) : Z :=
  Z.of_nat (List.length (filter (fun r => (r_id_docfis r =? k)%Z) rows)).

Definition update_tb_de_emissao (k : Z) (kwargs : list (campo * option string)) : M Z :=
  match kwargs with
  | [] => ret 0%Z
  | _ =>
      io DatabaseError ;;
      fun w => (Ok (rowcount_emissao k (tb_de_emissao w)),
                set_emissao (map (update_row k kwargs) (tb_de_emissao w)) w)
  end.

Definition update_doc_row (k : Z) (cod : option Z) (desc : option string)
    (r : documento_row) : documento_row :=
  if (d_id_doc r =? k)%Z then
    {| d_id_doc := d_id_doc r;
       d_cod_status := match cod with Some c => Some c | None => d_cod_status r end;
       d_desc_status := match desc with Some s => Some s | None => d_desc_status r end |}
  else r.

Definition update_tb_de_documento (k : Z) (cod : option Z) (desc : option string) : M Z :=
  match cod, desc with
  | None, None => ret 0%Z
  | _, _ =>
      io DatabaseError ;;
      fun w => (Ok (Z.of_nat (List.length
                      (filter (fun r => (d_id_doc r =? k)%Z) (tb_de_documento w)))),
                set_documento (map (update_doc_row k cod desc) (tb_de_documento w)) w)
  end.

End Db.

(* ================================================================== *)
(** * pika channel *)
(* ================================================================== *)

Module Channel.

Local Open Scope monad_scope.

Definition basic_publish (exchange routing_key : string) (b : body)
    (delivery_mode : Z) : M unit :=
  io ChannelError ;; modify (emit (Publish exchange routing_key b delivery_mode)).

Definition basic_ack (delivery_tag : Z) : M unit :=
  io ChannelError ;; modify (emit (Ack delivery_tag)).

Definition basic_nack (delivery_tag : Z) (requeue : bool) : M unit :=
  io ChannelError ;; modify (emit (Nack delivery_tag requeue)).

End Channel.

(* ================================================================== *)
(** * The libraries around the repository *)
(* ================================================================== *)

(** What [requests.post] returns. *)
Record response : Type := {
  status_code : Z;
  text : string
}.

(** [Response.raise_for_status] of requests: an [HTTPError] for a status
    from 400 to 599. *)
Definition raise_for_status (r : response) : result unit :=
  if ((400 <=? status_code r) && (status_code r <? 600))%Z
  then Exc (HTTPError (status_code r)) else Ok tt.

(** [Response.ok] of requests: whether [raise_for_status] passes. *)
Definition ok (r : response) : bool :=
  match raise_for_status r with
  | Ok _ => true
  | Exc _ => false
  end.

(** The settings read from the process environment and the library calls
    whose code is not the repository's. *)
Record Env : Type := {
  URL_SIFEN_CONSULTA_LOTE : option string;
  URL_SIFEN_RECEBE_LOTE : option string;
  URL_SIFEN_QR : option string;
  URL_SIFEN_EVENTO : option string;
  (** [etree.fromstring(data)] *)
  fromstring : list byte -> result xml;
  (** [etree.fromstring(data, parser=XMLParser(remove_blank_text=True,
      ns_clean=True))] *)
  fromstring_clean : list byte -> result xml;
  (** [etree.tostring(e, encoding='utf-8', xml_declaration=b).decode()] *)
  tostring : bool -> xml -> string;
  (** reading the PKCS#12 file at a path with a passphrase: the private key
      and the certificate, both in PEM *)
  pfx_to_pem : string -> string -> result (string * string);
  (** [XMLSigner(rsa-sha256, sha256, exc-c14n).sign(root, key, cert,
      reference_uri)]; the flag says that the reference asks for Canonical
      XML 1.0 *)
  xml_sign : xml -> string -> string -> string -> bool -> result xml;
  (** [requests.post(url, data, headers, cert)] *)
  requests_post : option string -> list byte -> string -> string -> result response;
  (** [int(time.time() * 1000)] *)
  time_ms : Z;
  (** [datetime.now().strftime("%Y-%m-%dT%H:%M:%S")] *)
  now : string;
  (** the ZIP archive with one deflated entry of the given name, in base64 *)
  zip_b64 : string -> list byte -> string
}.

(** The double quote and the line feed, for the envelope templates. *)
Definition dq : string := String (ascii_of_nat 34) EmptyString.
Definition nl : string := String (ascii_of_nat 10) EmptyString.
(** Latin small letter a with tilde, one code point. *)
Definition a_til : string := String (ascii_of_nat 227) EmptyString.

Definition XML_HEADER : string := "<?xml version='1.0' encoding='utf-8'?>".

(* ================================================================== *)
(** * sifen_api.py *)
(* ================================================================== *)

Section SifenApi.

Variable E : Env.

Local Open Scope monad_scope.

(** [tem_xml_valido] *)
Definition tem_xml_valido (response_text : string) : bool :=
  Py.truthy response_text &&
  (Py.contains "<?xml" response_text || Py.contains "<env:Envelope" response_text
   || Py.contains "<soap:Envelope" response_text || Py.contains "<Envelope" response_text).

(** What [_make_sifen_request] does with the response it got. *)
Definition tratar_resposta (r : response) : result string :=
  let response_text := text r in
  if negb (ok r) then
    if tem_xml_valido response_text then Ok response_text
    else rbind (raise_for_status r) (fun _ => Ok response_text)
  else Ok response_text.

(** [_make_sifen_request(url, data, cert_path, cert_pass)].  The two
    temporary PEM files are written before the request and removed after it
    on every path; they carry the key pair to [requests] and nothing else. *)
Definition _make_sifen_request (url : option string) (data cert_path cert_pass : string)
  : M string :=
  pems <- lift (pfx_to_pem E cert_path cert_pass) ;;
  let '(key_pem, cert_pem) := pems in
  modify (log_http url (Py.encode_utf8 data)) ;;
  r <- lift (requests_post E url (Py.encode_utf8 data) cert_pem key_pem) ;;
  lift (tratar_resposta r).

Definition envelope_lote (id_requisicao payload_base64 : string) : string :=
  "<soap:Envelope xmlns:soap=" ++ dq ++ "http://www.w3.org/2003/05/soap-envelope" ++ dq
  ++ " xmlns:xsd=" ++ dq ++ "http://ekuatia.set.gov.py/sifen/xsd" ++ dq ++ ">"
  ++ "<soap:Header/>"
  ++ "<soap:Body>"
  ++ "<xsd:rEnvioLote>"
  ++ "<xsd:dId>" ++ id_requisicao ++ "</xsd:dId>"
  ++ "<xsd:xDE>" ++ payload_base64 ++ "</xsd:xDE>"
  ++ "</xsd:rEnvioLote>"
  ++ "</soap:Body>"
  ++ "</soap:Envelope>".

Definition enviar_lote_sifen (payload_base64 cert_path cert_pass : string) : M string :=
  let id_requisicao := Py.str_of_Z (time_ms E) in
  _make_sifen_request (URL_SIFEN_RECEBE_LOTE E)
    (envelope_lote id_requisicao payload_base64) cert_path cert_pass.

Definition envelope_consulta (id_requisicao protocolo : string) : string :=
  "<soap:Envelope xmlns:soap=" ++ dq ++ "http://www.w3.org/2003/05/soap-envelope" ++ dq
  ++ " xmlns:xsd=" ++ dq ++ "http://ekuatia.set.gov.py/sifen/xsd" ++ dq ++ ">"
  ++ "<soap:Header/>"
  ++ "<soap:Body>"
  ++ "<xsd:rEnviConsLoteDe>"
  ++ "<xsd:dId>" ++ id_requisicao ++ "</xsd:dId>"
  ++ "<xsd:dProtConsLote>" ++ protocolo ++ "</xsd:dProtConsLote>"
  ++ "</xsd:rEnviConsLoteDe>"
  ++ "</soap:Body>"
  ++ "</soap:Envelope>".

Definition consultar_lote_sifen (protocolo cert_path cert_pass : string) : M string :=
  let id_requisicao := Py.str_of_Z (time_ms E) in
  _make_sifen_request (URL_SIFEN_CONSULTA_LOTE E)
    (envelope_consulta id_requisicao protocolo) cert_path cert_pass.

Definition envelope_evento (id_requisicao xml_limpo : string) : string :=
  "<?xml version=" ++ dq ++ "1.0" ++ dq ++ " encoding=" ++ dq ++ "utf-8" ++ dq ++ "?>" ++ nl
  ++ "<env:Envelope xmlns:env=" ++ dq ++ "http://www.w3.org/2003/05/soap-envelope" ++ dq ++ ">" ++ nl
  ++ "    <env:Body>" ++ nl
  ++ "        <rEnviEventoDe xmlns=" ++ dq ++ "http://ekuatia.set.gov.py/sifen/xsd" ++ dq
  ++ " xmlns:xsi=" ++ dq ++ "http://www.w3.org/2001/XMLSchema-instance" ++ dq ++ ">" ++ nl
  ++ "            <dId>" ++ id_requisicao ++ "</dId>" ++ nl
  ++ "            <dEvReg>" ++ nl
  ++ "                " ++ xml_limpo ++ nl
  ++ "            </dEvReg>" ++ nl
  ++ "        </rEnviEventoDe>" ++ nl
  ++ "    </env:Body>" ++ nl
  ++ "</env:Envelope>".

Definition enviar_evento_cancelamento (xml_conteudo id_evento cert_path cert_pass : string)
  : M string :=
  let id_requisicao := Py.str_of_Z (time_ms E) in
  let xml_limpo := Py.strip (Py.replace XML_HEADER "" xml_conteudo) in
  _make_sifen_request (URL_SIFEN_EVENTO E)
    (envelope_evento id_requisicao xml_limpo) cert_path cert_pass.

End SifenApi.

(** The body carries one of the four markers. *)
Definition has_marker (response_text : string) : Prop :=
  exists m, In m ["<?xml"; "<env:Envelope"; "<soap:Envelope"; "<Envelope"]
            /\ exists a b, response_text = a ++ m ++ b.

(* ================================================================== *)
(** * sifen_xml.py *)
(* ================================================================== *)

Section SifenXml.

Variable E : Env.

Local Open Scope result_scope.

(** [extrair_cdc_do_xml(xml_assinado)]: every exception is logged and turned
    into [None]. *)
Definition extrair_cdc_do_xml (xml_assinado : string) : option string :=
  let xml_limpo := Py.strip (Py.replace XML_HEADER "" xml_assinado) in
  match fromstring E (Py.encode_utf8 xml_limpo) with
  | Exc _ => None
  | Ok root =>
      match xpath_local_name "DE" root with
      | de :: _ => get_attr "Id" de
      | [] => None
      end
  end.

(** [preparar_payload_sifen(xml_preparado)] *)
Definition preparar_payload_sifen (xml_preparado : string) : string :=
  zip_b64 E "documento.xml" (Py.encode_utf8 xml_preparado).

(** [assinar_e_gerar_qr(xml_original, cert_pfx_path, cert_pass, csc, csc_id)].
    The check of [gTransp] for a document of type 7 only logs. *)
Definition assinar_e_gerar_qr (xml_original cert_pfx_path cert_pass csc csc_id : string)
  : result string :=
  let? pems := pfx_to_pem E cert_pfx_path cert_pass in
  let '(key_pem, cert_pem) := pems in
  let? root := fromstring_clean E (Py.encode_utf8 xml_original) in
  let? root :=
    match find (InNs SIFEN_NS "dFecFirma") root with
    | Some _ =>
        let? data_assinatura := checked_text (now E) in
        match update_first (tag_matches (InNs SIFEN_NS "dFecFirma"))
                           (set_text (Some data_assinatura)) root with
        | Some root' => Ok root'
        | None => Ok root
        end
    | None => Ok root
    end in
  let? de_id :=
    match find (InNs SIFEN_NS "DE") root with
    | Some de_element => Ok (get_attr "Id" de_element)
    | None => Exc ValueError
    end in
  let? signed_root := xml_sign E root key_pem cert_pem ("#" ++ Py.fmt_opt de_id) true in
  let? url_final := Qr.url_final_qr (URL_SIFEN_QR E) signed_root csc csc_id in
  let? signed_root' := Qr.inserir_qr signed_root url_final in
  Ok (tostring E true signed_root').

(** Taking the first [Signature] descendant out of its parent with
    [signed_rEve.remove]: it has to be a child of [signed_rEve] itself. *)
Fixpoint detach (p : xml -> bool) (cs : list xml) : result (option (xml * list xml)) :=
  match cs with
  | [] => Ok None
  | c :: r =>
      if p c then Ok (Some (c, r))
      else if existsb p (descendants c) then Exc ValueError
      else match detach p r with
           | Ok (Some (s, r')) => Ok (Some (s, c :: r'))
           | other => other
           end
  end.

(** The text of [mOtEve]: a [str], or [None] for a JSON null. *)
Definition motivo_text (motivo : json) : result (option string) :=
  match motivo with
  | JStr s => let? t := checked_text s in Ok (Some t)
  | JNull => Ok None
  | _ => Exc TypeError
  end.

Definition nsmap_full : list (string * string) := [("", SIFEN_NS); ("xsi", XSI_NS)].
Definition schema_loc_attr : string := "{" ++ XSI_NS ++ "}schemaLocation".
Definition schema_loc_val : string :=
  "http://ekuatia.set.gov.py/sifen/xsd siRecepEvento_v150.xsd".

(** The [rEve] element to be signed. *)
Definition rEve (data_assinatura cdc_nota : string) (motivo : option string) : xml :=
  Element "" "rEve" nsmap_full [("Id", "1")] None
    [ Element "" "dFecFirma" [] [] (Some data_assinatura) [];
      Element "" "dVerFor" [] [] (Some SIFEN_VERSION) [];
      Element "" "gGroupTiEvt" [] [] None
        [ Element "" "rGeVeCan" [] [] None
            [ Element "" "Id" [] [] (Some cdc_nota) [];
              Element "" "mOtEve" [] [] motivo [] ] ] ].

(** [gerar_evento_assinado_wsdl(cdc_nota, motivo, cert_path, cert_pass)] *)
Definition gerar_evento_assinado_wsdl (cdc_nota : string) (motivo : json)
    (cert_path cert_pass : string) : result string :=
  let id_evento := "1" in
  let? pems := pfx_to_pem E cert_path cert_pass in
  let '(key_pem, cert_pem) := pems in
  let? data_assinatura := checked_text (now E) in
  let? cdc_text := checked_text cdc_nota in
  let? motivo_t := motivo_text motivo in
  let? signed_rEve :=
    xml_sign E (rEve data_assinatura cdc_text motivo_t)
             key_pem cert_pem ("#" ++ id_evento) false in
  let 'Element ns n m a t cs := signed_rEve in
  let? found := detach (tag_matches (InNs DS_NS "Signature")) cs in
  let rGesEve_children :=
    match found with
    | Some (signature_element, rest) => [Element ns n m a t rest; signature_element]
    | None => [signed_rEve]
    end in
  let rGesEve :=
    Element "" "rGesEve" nsmap_full [(schema_loc_attr, schema_loc_val)] None
            rGesEve_children in
  let gGroupGesEve :=
    Element "" "gGroupGesEve" nsmap_full [(schema_loc_attr, schema_loc_val)] None
            [rGesEve] in
  Ok (tostring E false gGroupGesEve).

End SifenXml.

(* ================================================================== *)
(** * handlers.py *)
(* ================================================================== *)

Section Handlers.

Variable E : Env.

Local Open Scope monad_scope.

(** [agendar_consulta(channel, id_fatura, dados_originais)] *)
Definition agendar_consulta (id_fatura : Z) (dados_originais : json) : M unit :=
  tentativas <- lift (dict_get dados_originais "tentativas" (JInt 1)) ;;
  let mensagem_consulta :=
    JDict [("id_fatura", JInt id_fatura); ("acao", JStr "consultar");
           ("tentativas", tentativas)] in
  Channel.basic_publish "" DELAY_QUEUE (json_dumps mensagem_consulta) 2.

(** [int(c) if c.isdigit() else other] *)
Definition int_if_digit (c : string) (other : option Z) : result (option Z) :=
  if Py.isdigit c then
    match Py.int_of_digits c with
    | Some z => Ok (Some z)
    | None => Exc ValueError
    end
  else Ok other.

(** [int(CODIGO)] for the status constants of [config.py]. *)
Definition int_const (c : string) : Z := Py.digits_value 0 c.

(** The reading of [dProtConsLote] in [handle_enviar]. *)
Definition ler_protocolo (retorno_root : xml) : string :=
  Py.oor_str (Py.oor (findtext (AnyNs "dProtConsLote") retorno_root)
                     (findtext (NoNs "dProtConsLote") retorno_root)) "".

(** The wrapper sent to SIFEN and stored in [XML_ASSINADO]. *)
Definition xml_final (xml_assinado_com_qr : string) : string :=
  "<rLoteDE>" ++ Py.strip (Py.replace XML_HEADER "" xml_assinado_com_qr) ++ "</rLoteDE>".

Definition DESC_ENVIADO : string := "Lote recebido. Aguardando consulta de status.".

(** The [try] block of [handle_enviar]. *)
Definition handle_enviar_try (delivery_tag : Z) (emissao : Db.emissao) : M unit :=
  let id_docfis := Db.id_docfis emissao in
  xml_assinado_com_qr <-
    lift (assinar_e_gerar_qr E (Db.xml_original emissao) (Db.caminho_certificado emissao)
            (Db.senha emissao) (Db.csc emissao) (Db.id_csc emissao)) ;;
  let xml_final := xml_final xml_assinado_com_qr in
  let payload_b64 := preparar_payload_sifen E xml_final in
  retorno_sifen <-
    enviar_lote_sifen E payload_b64 (Db.caminho_certificado emissao) (Db.senha emissao) ;;
  retorno_root <- lift (fromstring E (Py.encode_utf8 retorno_sifen)) ;;
  let protocolo := ler_protocolo retorno_root in
  (if negb (Py.truthy protocolo) || String.eqb protocolo "0" then
     let msg_res :=
       Py.oor_str (Py.oor (findtext (AnyNs "dMsgRes") retorno_root)
                          (findtext (NoNs "dMsgRes") retorno_root))
                  ("Erro n" ++ a_til ++ "o especificado") in
     let codigo_res :=
       Py.oor_str (Py.oor (findtext (AnyNs "dCodRes") retorno_root)
                          (findtext (NoNs "dCodRes") retorno_root)) "999" in
     Db.update_tb_de_emissao id_docfis
       [(Db.xml_assinado_, Some xml_final); (Db.xml_retorno_, Some retorno_sifen);
        (Db.cod_status_, Some codigo_res);
        (Db.desc_status_, Some ("Falha no envio: " ++ msg_res))] ;;
     cod <- lift (int_if_digit codigo_res None) ;;
     Db.update_tb_de_documento id_docfis cod (Some ("Falha no envio: " ++ msg_res)) ;;
     ret tt
   else
     Db.update_tb_de_emissao id_docfis
       [(Db.xml_assinado_, Some xml_final); (Db.xml_retorno_, Some retorno_sifen);
        (Db.protocolo_, Some protocolo);
        (Db.cod_status_, Some CODIGO_STATUS_ENVIADO);
        (Db.desc_status_, Some DESC_ENVIADO)] ;;
     Db.update_tb_de_documento id_docfis (Some (int_const CODIGO_STATUS_ENVIADO))
       (Some DESC_ENVIADO) ;;
     agendar_consulta id_docfis (JDict [("tentativas", JInt 1)])) ;;
  Channel.basic_ack delivery_tag.

(** [handle_enviar(ch, method, emissao, documento)] *)
Definition handle_enviar (delivery_tag : Z) (emissao : Db.emissao)
    (documento : Db.documento) : M unit :=
  try_except (handle_enviar_try delivery_tag emissao)
             (fun _ => Channel.basic_nack delivery_tag false).

(** The four readings at the head of [handle_consultar]. *)
Definition status_documento (retorno_root : xml) : string :=
  Py.strip (Py.oor_str (Py.oor (findtext (AnyNs "dEstRes") retorno_root)
                               (findtext (NoNs "dEstRes") retorno_root)) "").

Definition msg_res_consulta (retorno_root : xml) : string :=
  Py.strip (Py.oor_str (Py.oor (findtext (AnyNs "dMsgRes") retorno_root)
                               (findtext (NoNs "dMsgRes") retorno_root)) "").

Definition msg_lote (retorno_root : xml) : string :=
  let msg_lote :=
    Py.strip (Py.oor_str (Py.oor (findtext (AnyNs "dMsgResLot") retorno_root)
                                 (findtext (NoNs "dMsgResLot") retorno_root)) "") in
  let msg_res := msg_res_consulta retorno_root in
  if negb (Py.truthy msg_lote) && Py.truthy msg_res then msg_res else msg_lote.

(** [dCodRes or dCodResLot], with and without namespace. *)
Definition cod_chain (retorno_root : xml) : option string :=
  Py.oor (Py.oor (Py.oor (findtext (AnyNs "dCodRes") retorno_root)
                         (findtext (AnyNs "dCodResLot") retorno_root))
                 (findtext (NoNs "dCodRes") retorno_root))
         (findtext (NoNs "dCodResLot") retorno_root).

Definition codigo_resposta (retorno_root : xml) : string :=
  Py.strip (Py.oor_str (cod_chain retorno_root) "").

(** The test of the transient answer. *)
Definition is_0160 (retorno_root : xml) : bool :=
  String.eqb (codigo_resposta retorno_root) "0160"
  && String.eqb (Py.strip (msg_lote retorno_root)) "XML Mal Formado.".

Definition is_aprovado (retorno_root : xml) : bool :=
  String.eqb (status_documento retorno_root) "Aprobado".

Definition is_rejeitado (retorno_root : xml) : bool :=
  String.eqb (status_documento retorno_root) "Rechazado"
  || Py.contains "Cancelado" (msg_lote retorno_root)
  || Py.contains "Rechazado" (msg_lote retorno_root).

Definition DESC_REPROCESSANDO : string := "Reprocessando consulta".
Definition DESC_EXCEDEU_0160 : string :=
  "Excedeu o limite de tentativas de consulta (erro 0160).".
Definition DESC_EXCEDEU : string := "Excedeu o limite de tentativas de consulta.".

(** The [try] block of [handle_consultar]. *)
Definition handle_consultar_try (delivery_tag : Z) (emissao : Db.emissao)
    (original_body : body) : M unit :=
  let id_docfis := Db.id_docfis emissao in
  retorno_consulta <-
    consultar_lote_sifen E (Db.protocolo emissao) (Db.caminho_certificado emissao)
      (Db.senha emissao) ;;
  retorno_root <- lift (fromstring E (Py.encode_utf8 retorno_consulta)) ;;
  if is_0160 retorno_root then
    dados <- lift (json_loads original_body) ;;
    tentativas <- lift (dict_get dados "tentativas" (JInt 1)) ;;
    menor <- lift (lt_int tentativas MAX_TENTATIVAS_CONSULTA) ;;
    (if menor : bool then
       mais_um <- lift (add_one tentativas) ;;
       dados' <- lift (dict_set dados "tentativas" mais_um) ;;
       agendar_consulta id_docfis dados' ;;
       Db.update_tb_de_emissao id_docfis
         [(Db.xml_retorno_, Some retorno_consulta); (Db.cod_status_, Some "900");
          (Db.desc_status_, Some DESC_REPROCESSANDO)] ;;
       Db.update_tb_de_documento id_docfis (Some 900%Z) (Some DESC_REPROCESSANDO) ;;
       ret tt
     else
       Db.update_tb_de_emissao id_docfis
         [(Db.xml_retorno_, Some retorno_consulta);
          (Db.cod_status_, Some CODIGO_STATUS_EXCEDEU_TENTATIVAS);
          (Db.desc_status_, Some DESC_EXCEDEU_0160)] ;;
       Db.update_tb_de_documento id_docfis
         (Some (int_const CODIGO_STATUS_EXCEDEU_TENTATIVAS)) (Some DESC_EXCEDEU_0160) ;;
       ret tt) ;;
    Channel.basic_ack delivery_tag
  else
    (if is_aprovado retorno_root then
       let cod_status := findtext_default (AnyNs "dCodRes") CODIGO_STATUS_APROVADO
                                          retorno_root in
       Db.update_tb_de_emissao id_docfis
         [(Db.xml_retorno_, Some retorno_consulta); (Db.cod_status_, Some cod_status);
          (Db.desc_status_, Some "Aprobado exitosamente.")] ;;
       cod <- lift (int_if_digit cod_status (Some (int_const CODIGO_STATUS_APROVADO))) ;;
       Db.update_tb_de_documento id_docfis cod (Some "Aprobado exitosamente.") ;;
       ret tt
     else if is_rejeitado retorno_root then
       let codigo_rejeicao :=
         Py.oor_str (cod_chain retorno_root) CODIGO_STATUS_REJEITADO in
       let motivo_rejeicao :=
         Py.or_ (msg_lote retorno_root)
           (Py.or_ (msg_res_consulta retorno_root)
              (Py.oor_str (Py.oor (findtext (AnyNs "dMsgRes") retorno_root)
                                  (findtext (NoNs "dMsgRes") retorno_root))
                          ("Motivo n" ++ a_til ++ "o especificado."))) in
       Db.update_tb_de_emissao id_docfis
         [(Db.xml_retorno_, Some retorno_consulta); (Db.cod_status_, Some codigo_rejeicao);
          (Db.desc_status_, Some ("Rejeitado: " ++ motivo_rejeicao))] ;;
       cod <- lift (int_if_digit codigo_rejeicao
                      (Some (int_const CODIGO_STATUS_REJEITADO))) ;;
       Db.update_tb_de_documento id_docfis cod (Some ("Rejeitado: " ++ motivo_rejeicao)) ;;
       ret tt
     else
       dados <- lift (json_loads original_body) ;;
       tentativas <- lift (dict_get dados "tentativas" (JInt 1)) ;;
       menor <- lift (lt_int tentativas MAX_TENTATIVAS_CONSULTA) ;;
       if menor : bool then
         mais_um <- lift (add_one tentativas) ;;
         dados' <- lift (dict_set dados "tentativas" mais_um) ;;
         agendar_consulta id_docfis dados'
       else
         Db.update_tb_de_emissao id_docfis
           [(Db.xml_retorno_, Some retorno_consulta);
            (Db.cod_status_, Some CODIGO_STATUS_EXCEDEU_TENTATIVAS);
            (Db.desc_status_, Some DESC_EXCEDEU)] ;;
         Db.update_tb_de_documento id_docfis
           (Some (int_const CODIGO_STATUS_EXCEDEU_TENTATIVAS)) (Some DESC_EXCEDEU) ;;
         ret tt) ;;
    Channel.basic_ack delivery_tag.

(** [handle_consultar(ch, method, emissao, documento, original_body)] *)
Definition handle_consultar (delivery_tag : Z) (emissao : Db.emissao)
    (documento : Db.documento) (original_body : body) : M unit :=
  try_except (handle_consultar_try delivery_tag emissao original_body)
             (fun _ => Channel.basic_nack delivery_tag false).

(** Step 4 of [handle_cancelar]: the three readings of the answer, with the
    values of the [except] branch when it does not parse. *)
Definition ler_retorno_cancelamento (retorno : string)
  : option string * string * string :=
  match fromstring E (Py.encode_utf8 retorno) with
  | Ok root_ret =>
      (findtext (AnyNs "dCodRes") root_ret,
       Py.oor_str (findtext (AnyNs "dMsgRes") root_ret) "Sem mensagem",
       Py.oor_str (findtext (AnyNs "dEstRes") root_ret) "")
  | Exc _ => (Some "ERRO_PARSE", "Erro ao ler XML de retorno", "")
  end.

(** [cod_res in CODIGOS_SUCESSO_CANCELAMENTO] *)
Definition em_codigos_sucesso (cod_res : option string) : bool :=
  match cod_res with
  | Some c => existsb (String.eqb c) CODIGOS_SUCESSO_CANCELAMENTO
  | None => false
  end.

(** What [handle_cancelar] does once the event is built and sent. *)
Definition processar_retorno_cancelamento (delivery_tag id_docfis : Z)
    (xml_evento_assinado retorno : string) : M unit :=
  let '(cod_res, msg_res, est_res) := ler_retorno_cancelamento retorno in
  (if em_codigos_sucesso cod_res then
     Db.update_tb_de_emissao id_docfis
       [(Db.xml_cancelamento_envio_, Some xml_evento_assinado);
        (Db.xml_cancelamento_retorno_, Some retorno);
        (Db.cod_status_, cod_res);
        (Db.desc_status_, Some ("Cancelado: " ++ msg_res))] ;;
     Db.update_tb_de_documento id_docfis (Some (int_const CODIGO_STATUS_CANCELADO))
       (Some "Nota Cancelada") ;;
     ret tt
   else if String.eqb est_res "Aprobado" then
     Db.update_tb_de_emissao id_docfis
       [(Db.xml_cancelamento_envio_, Some xml_evento_assinado);
        (Db.xml_cancelamento_retorno_, Some retorno);
        (Db.cod_status_, cod_res);
        (Db.desc_status_, Some ("Cancelado: " ++ msg_res))] ;;
     Db.update_tb_de_documento id_docfis (Some (int_const CODIGO_STATUS_CANCELADO))
       (Some "Nota Cancelada") ;;
     ret tt
   else
     Db.update_tb_de_emissao id_docfis
       [(Db.xml_cancelamento_envio_, Some xml_evento_assinado);
        (Db.xml_cancelamento_retorno_, Some retorno);
        (Db.cod_status_, cod_res);
        (Db.desc_status_, Some ("Erro no cancelamento: " ++ msg_res))] ;;
     ret tt) ;;
  Channel.basic_ack delivery_tag.

(** The [try] block of [handle_cancelar]. *)
Definition handle_cancelar_try (delivery_tag : Z) (emissao : Db.emissao)
    (dados : json) : M unit :=
  let id_docfis := Db.id_docfis emissao in
  match extrair_cdc_do_xml E (Db.xml_assinado emissao) with
  | None => Channel.basic_nack delivery_tag false
  | Some cdc =>
      if negb (Py.truthy cdc) then Channel.basic_nack delivery_tag false
      else
        motivo <- lift (dict_get dados "motivo" (JStr "Solicitud de cancelacion")) ;;
        try_or_return
          (lift (gerar_evento_assinado_wsdl E cdc motivo (Db.caminho_certificado emissao)
                   (Db.senha emissao)))
          (fun _ => Channel.basic_nack delivery_tag false)
          (fun xml_evento_assinado =>
             try_or_return
               (enviar_evento_cancelamento E xml_evento_assinado "WSDL-GEN"
                  (Db.caminho_certificado emissao) (Db.senha emissao))
               (fun _ => Channel.basic_nack delivery_tag false)
               (fun retorno =>
                  processar_retorno_cancelamento delivery_tag id_docfis
                    xml_evento_assinado retorno))
  end.

(** [handle_cancelar(ch, method, emissao, documento, dados)] *)
Definition handle_cancelar (delivery_tag : Z) (emissao : Db.emissao)
    (documento : Db.documento) (dados : json) : M unit :=
  try_except (handle_cancelar_try delivery_tag emissao dados)
             (fun _ => Channel.basic_nack delivery_tag false).

(** The key bound to [:id_docfis]: the model covers integer keys; another
    truthy value is refused by the statement. *)
Definition bind_id (id_fatura : json) : result Z :=
  match id_fatura with
  | JInt z => Ok z
  | _ => Exc DatabaseError
  end.

(** The [try] block of [on_message_received]. *)
Definition on_message_received_try (delivery_tag : Z) (b : body) : M unit :=
  dados <- lift (json_loads b) ;;
  id_fatura <- lift (dict_get dados "id_fatura" JNull) ;;
  acao_bruta <- lift (dict_get dados "acao" (JStr "enviar")) ;;
  acao <- lift (json_lower acao_bruta) ;;
  if negb (json_truthy id_fatura) then Channel.basic_ack delivery_tag
  else
    k <- lift (bind_id id_fatura) ;;
    emissao <- Db.get_tb_de_emissao k ;;
    documento <- Db.get_tb_de_documento k ;;
    match emissao, documento with
    | Some emissao, Some documento =>
        if String.eqb acao "enviar" then handle_enviar delivery_tag emissao documento
        else if String.eqb acao "consultar" then
          handle_consultar delivery_tag emissao documento b
        else if String.eqb acao "cancelar" then
          handle_cancelar delivery_tag emissao documento dados
        else Channel.basic_ack delivery_tag
    | _, _ => Channel.basic_ack delivery_tag
    end.

(** [on_message_received(ch, method, properties, body)] *)
Definition on_message_received (delivery_tag : Z) (b : body) : M unit :=
  try_except (on_message_received_try delivery_tag b)
             (fun _ => Channel.basic_nack delivery_tag false).

End Handlers.

(** The message [agendar_consulta] publishes for [tentativas = n]. *)
Definition poll_message (id_fatura n : Z) : chan_event :=
  Publish "" "faturas_wait_30s"
    (Json (JDict [("id_fatura", JInt id_fatura); ("acao", JStr "consultar");
                  ("tentativas", JInt n)])) 2.

(* ================================================================== *)
(** * publisher.py *)
(* ================================================================== *)

Module Publisher.

Local Open Scope monad_scope.

(** Opening the connection and the channel, declaring the durable queue. *)
Definition abrir_canal : M unit := io ChannelError.

(** [processa_fatura(id_fatura)] *)
Definition processa_fatura (id_fatura : Z) : M unit :=
  abrir_canal ;;
  Channel.basic_publish "" MAIN_QUEUE (json_dumps (JDict [("id_fatura", JInt id_fatura)])) 2.

(** [processa_cancelamento(id_fatura, motivo)]; [None] is a missing reason. *)
Definition processa_cancelamento (id_fatura : Z) (motivo : option string) : M unit :=
  match motivo with
  | None => raise ValueError
  | Some m =>
      if negb (Py.truthy m) || (String.length m <? 5)%nat then raise ValueError
      else
        abrir_canal ;;
        Channel.basic_publish "" MAIN_QUEUE
          (json_dumps (JDict [("id_fatura", JInt id_fatura); ("acao", JStr "cancelar");
                              ("motivo", JStr m)])) 2
  end.

(** [processa_consulta(id_fatura)] *)
Definition processa_consulta (id_fatura : Z) : M unit :=
  abrir_canal ;;
  Channel.basic_publish "" MAIN_QUEUE
    (json_dumps (JDict [("id_fatura", JInt id_fatura); ("acao", JStr "consultar");
                        ("tentativas", JInt 1)])) 2.

End Publisher.

(* ================================================================== *)
(** * The wording of the specification, for comparison *)
(* ================================================================== *)

Module Spec.

(** The raw text of a field, "0" when it is missing. *)
Definition texto_bruto (signed_root : xml) (name : string) : string :=
  match findtext (InNs SIFEN_NS name) signed_root with
  | Some val => if Py.truthy val then val else "0"
  | None => "0"
  end.

(** The nine fields in order, joined by ampersands, [dFeEmiDE] being the
    hexadecimal form of the raw text of that element. *)
Definition url_base_qr (signed_root : xml) (csc_id : string) : result string :=
  rbind (Qr.digest_value_b64 signed_root) (fun d =>
  rbind (Qr.id_de_signed signed_root) (fun id =>
  Ok (String.concat "&"
        [ "nVersion=150";
          "Id=" ++ Py.fmt_opt id;
          "dFeEmiDE=" ++ Py.hex (Py.encode_utf8 (texto_bruto signed_root "dFeEmiDE"));
          "dRucRec=" ++ Qr.get_xml_text signed_root "dRucRec";
          "dTotGralOpe=" ++ Qr.get_xml_text signed_root "dTotGralOpe";
          "dTotIVA=" ++ Qr.get_xml_text signed_root "dTotIVA";
          "cItems=" ++ Py.str_of_nat (Qr.cItems signed_root);
          "DigestValue=" ++ Qr.digest_value_hex d;
          "IdCSC=" ++ csc_id ]))).

(** [base64.b64decode]: the bytes a base64 text stands for. *)
Definition b64_value (c : ascii) : option N :=
  let n := Py.ord c in
  if ((65 <=? n) && (n <=? 90))%N then Some (n - 65)%N
  else if ((97 <=? n) && (n <=? 122))%N then Some (n - 71)%N
  else if ((48 <=? n) && (n <=? 57))%N then Some (n + 4)%N
  else if (n =? 43)%N then Some 62%N
  else if (n =? 47)%N then Some 63%N
  else None.

Fixpoint sextets (s : string) : list N :=
  match s with
  | EmptyString => []
  | String c s' =>
      match b64_value c with
      | Some v => v :: sextets s'
      | None => sextets s'
      end
  end.

Fixpoint octets (l : list N) : list byte :=
  match l with
  | a :: b :: c :: d :: r =>
      Py.byte_of_N (a * 4 + N.shiftr b 4)
      :: Py.byte_of_N (N.land b 15 * 16 + N.shiftr c 2)
      :: Py.byte_of_N (N.land c 3 * 64 + d) :: octets r
  | [a; b; c] =>
      [Py.byte_of_N (a * 4 + N.shiftr b 4);
       Py.byte_of_N (N.land b 15 * 16 + N.shiftr c 2)]
  | [a; b] => [Py.byte_of_N (a * 4 + N.shiftr b 4)]
  | _ => []
  end.

Definition b64decode (s : string) : list byte := octets (sextets s).

(** The hexadecimal form of the decoded digest, which the QR does not use. *)
Definition decoded_digest_hex (d : string) : string := Py.hex (b64decode d).

(** The SOAP client as the specification words it: outside 200..299 the
    body comes back exactly when it carries a marker; inside, always. *)
Definition retorna_corpo (r : response) : bool :=
  if ((200 <=? status_code r) && (status_code r <? 300))%Z then true
  else tem_xml_valido (text r).

End Spec.

(* ================================================================== *)
(** * Sample data *)
(* ================================================================== *)

Module Exemplo.

(** A signed document with two items, whose [dFeEmiDE] carries blanks around
    the date. *)
Definition signed_root : xml :=
  Element SIFEN_NS "rDE" [] [] None
    [ Element SIFEN_NS "DE" [] [("Id", "01800123456001001000000122024010211234567895")] None
        [ Element SIFEN_NS "gDatGralOpe" [] [] None
            [ Element SIFEN_NS "dFeEmiDE" [] [] (Some " 2024-01-02T10:11:12 ") [];
              Element SIFEN_NS "gDatRec" [] [] None
                [ Element SIFEN_NS "dRucRec" [] [] (Some "80012345") [] ] ];
          Element SIFEN_NS "gDtipDE" [] [] None
            [ Element SIFEN_NS "gCamItem" [] [] None [];
              Element SIFEN_NS "gCamItem" [] [] None [] ];
          Element SIFEN_NS "gTotSub" [] [] None
            [ Element SIFEN_NS "dTotGralOpe" [] [] (Some "110000") [] ] ];
      Element DS_NS "Signature" [] [] None
        [ Element DS_NS "SignedInfo" [] [] None
            [ Element DS_NS "Reference" [] [("URI", "#0180")] None
                [ Element DS_NS "DigestValue" [] []
                    (Some "47DEQpj8HBSa+/TImW+5JCeuQeRkm5NMpJWZG3hSuFU=") [] ] ] ] ].

Definition url_qr : option string := Some "https://ekuatia.set.gov.py/consultas/qr?".
Definition csc : string := " ABCD0000000000000000000000000000 ".
Definition csc_id : string := "0001".

Definition url_final : string :=
  "https://ekuatia.set.gov.py/consultas/qr?nVersion=150&Id=01800123456001001000000122024010211234567895&dFeEmiDE=323032342d30312d30325431303a31313a3132&dRucRec=80012345&dTotGralOpe=110000&dTotIVA=0&cItems=2&DigestValue=3437444551706a38484253612b2f54496d572b354a4365755165526b6d354e4d704a575a473368537546553d&IdCSC=0001&cHashQR=b363dcec61945329c1f635dc8977c2dcf270bb81071b75593596f64f66b269ca".

End Exemplo.

(* ================================================================== *)
(** * A small stand-in for the libraries, to run the model *)
(* ================================================================== *)

Module Toy.

(** A plain serializer: tags, attributes, text and children; namespaces are
    not printed. *)
Fixpoint attrs_text (a : list (string * string)) : string :=
  match a with
  | [] => ""
  | (k, v) :: a' => " " ++ k ++ "=" ++ dq ++ v ++ dq ++ attrs_text a'
  end.

Fixpoint serialize (e : xml) : string :=
  match e with
  | Element _ n _ a t cs =>
      "<" ++ n ++ attrs_text a ++ ">"
      ++ match t with Some s => s | None => "" end
      ++ (fix each (l : list xml) : string :=
            match l with
            | [] => ""
            | c :: r => serialize c ++ each r
            end) cs
      ++ "</" ++ n ++ ">"
  end.

Fixpoint bytes_eqb (a b : list byte) : bool :=
  match a, b with
  | [], [] => true
  | x :: a', y :: b' => Byte.eqb x y && bytes_eqb a' b'
  | _, _ => false
  end.

(** The enveloped signature the stand-in signer appends to the root. *)
Definition signature (uri : string) : xml :=
  Element DS_NS "Signature" [("", DS_NS)] [] None
    [ Element DS_NS "SignedInfo" [] [] None
        [ Element DS_NS "Reference" [] [("URI", uri)] None
            [ Element DS_NS "DigestValue" [] []
                (Some "47DEQpj8HBSa+/TImW+5JCeuQeRkm5NMpJWZG3hSuFU=") [] ] ] ].

Definition sign (root : xml) (uri : string) : xml :=
  let 'Element ns n m a t cs := root in
  Element ns n m a t (cs ++ [signature uri])%list.

(** The unsigned document every row of the sample table holds. *)
Definition documento_original : xml :=
  Element SIFEN_NS "rDE" [] [] None
    [ Element SIFEN_NS "dFecFirma" [] [] (Some "2000-01-01T00:00:00") [];
      Element SIFEN_NS "DE" [] [("Id", "01800123456001001000000122024010211234567895")] None
        [ Element SIFEN_NS "dFeEmiDE" [] [] (Some "2024-01-02T10:11:12") [];
          Element SIFEN_NS "dRucRec" [] [] (Some "80012345") [];
          Element SIFEN_NS "gCamItem" [] [] None [];
          Element SIFEN_NS "dTotGralOpe" [] [] (Some "110000") [];
          Element SIFEN_NS "dTotIVA" [] [] (Some "10000") [] ] ].

(** The stand-in: SIFEN answers every request with [resposta]; the parser
    reads that answer as [arvore] and any other text as the signed sample
    document wrapped in a batch. *)
Definition env (resposta : response) (arvore : result xml) : Env :=
  {| URL_SIFEN_CONSULTA_LOTE := Some "https://sifen.test/consulta-lote";
     URL_SIFEN_RECEBE_LOTE := Some "https://sifen.test/recibe-lote";
     URL_SIFEN_QR := Some "https://sifen.test/qr?";
     URL_SIFEN_EVENTO := Some "https://sifen.test/evento";
     fromstring := fun bs =>
       if bytes_eqb bs (Py.encode_utf8 (text resposta)) then arvore
       else Ok (Element "" "rLoteDE" [] [] None [sign documento_original "#0180"]);
     fromstring_clean := fun _ => Ok documento_original;
     tostring := fun decl e =>
       (if decl then XML_HEADER ++ nl else "") ++ serialize e;
     pfx_to_pem := fun _ _ => Ok ("KEY", "CERT");
     xml_sign := fun root _ _ uri _ => Ok (sign root uri);
     requests_post := fun _ _ _ _ => Ok resposta;
     time_ms := 1704190272000;
     now := "2024-01-02T10:11:12";
     zip_b64 := fun _ _ => "UEsDBBQAAAAIAA==" |}.

Definition row7 : emissao_row :=
  {| r_id := 1; r_id_docfis := 7; r_xml := Some "<rDE/>"; r_xml_retorno := None;
     r_tipo := None; r_cod_status := None; r_desc_status := None;
     r_caminho_certificado := Some "/certs/a.pfx"; r_senha := Some "segredo";
     r_id_csc := Some "0001"; r_csc := Some "ABCD0000000000000000000000000000";
     r_protocolo := Some "ABC123"; r_xml_assinado := Some "<rLoteDE/>";
     r_xml_cancelamento_envio := None; r_xml_cancelamento_retorno := None;
     r_tipo_docto := None |}.

Definition row8 : emissao_row :=
  {| r_id := 2; r_id_docfis := 8; r_xml := Some "<rDE/>"; r_xml_retorno := None;
     r_tipo := None; r_cod_status := Some "0260"; r_desc_status := None;
     r_caminho_certificado := Some "/certs/b.pfx"; r_senha := Some "outro";
     r_id_csc := Some "0001"; r_csc := Some "EFGH0000000000000000000000000000";
     r_protocolo := None; r_xml_assinado := None;
     r_xml_cancelamento_envio := None; r_xml_cancelamento_retorno := None;
     r_tipo_docto := None |}.

Definition doc7 : documento_row :=
  {| d_id_doc := 7; d_cod_status := None; d_desc_status := None |}.
Definition doc8 : documento_row :=
  {| d_id_doc := 8; d_cod_status := Some 260%Z; d_desc_status := Some "Aprobado exitosamente." |}.

(** Two documents, an idle channel, no fault. *)
Definition w0 : world :=
  {| tb_de_emissao := [row7; row8]; tb_de_documento := [doc7; doc8];
     channel := []; http_log := []; faults := fun _ => false; tick := 0 |}.

Definition emissao7 : Db.emissao := Db.emissao_of_row row7.
Definition documento7 : Db.documento := Db.documento_of_row doc7.

(** A SOAP answer wrapping [filhos]. *)
Definition envelope (filhos : list xml) : xml :=
  Element "http://www.w3.org/2003/05/soap-envelope" "Envelope" [] [] None
    [ Element "http://www.w3.org/2003/05/soap-envelope" "Body" [] [] None filhos ].

Definition campo (n t : string) : xml := Element SIFEN_NS n [] [] (Some t) [].

(** Submit accepted with protocol ABC123. *)
Definition resposta_envio : response :=
  {| status_code := 200; text := "<?xml version='1.0'?><env:Envelope>ABC123</env:Envelope>" |}.
Definition arvore_envio : xml :=
  envelope [Element SIFEN_NS "rResEnviLoteDe" [] [] None
              [campo "dCodRes" "0300"; campo "dProtConsLote" "ABC123"]].
Definition env_envio : Env := env resposta_envio (Ok arvore_envio).

(** Poll answered "still in process". *)
Definition resposta_pendente : response :=
  {| status_code := 200; text := "<env:Envelope>0361</env:Envelope>" |}.
Definition arvore_pendente : xml :=
  envelope [Element SIFEN_NS "rResEnviConsLoteDe" [] [] None
              [campo "dCodResLot" "0361"; campo "dMsgResLot" "Lote en procesamiento"]].
Definition env_pendente : Env := env resposta_pendente (Ok arvore_pendente).

(** Poll answered with the transient 0160. *)
Definition resposta_0160 : response :=
  {| status_code := 400; text := "<env:Envelope>0160</env:Envelope>" |}.
Definition arvore_0160 : xml :=
  envelope [Element SIFEN_NS "rRetEnviDe" [] [] None
              [campo "dCodRes" "0160"; campo "dMsgRes" "XML Mal Formado."]].
Definition env_0160 : Env := env resposta_0160 (Ok arvore_0160).

(** Cancellation approved, and refused. *)
Definition resposta_cancelado : response :=
  {| status_code := 200; text := "<env:Envelope>0600</env:Envelope>" |}.
Definition arvore_cancelado : xml :=
  envelope [Element SIFEN_NS "rRetEnviEventoDe" [] [] None
              [campo "dEstRes" "Aprobado"; campo "dCodRes" "0600";
               campo "dMsgRes" "Evento registrado correctamente"]].
Definition env_cancelado : Env := env resposta_cancelado (Ok arvore_cancelado).

Definition resposta_recusado : response :=
  {| status_code := 200; text := "<env:Envelope>4002</env:Envelope>" |}.
Definition arvore_recusado : xml :=
  envelope [Element SIFEN_NS "rRetEnviEventoDe" [] [] None
              [campo "dEstRes" "Rechazado"; campo "dCodRes" "4002";
               campo "dMsgRes" "CDC inexistente"]].
Definition env_recusado : Env := env resposta_recusado (Ok arvore_recusado).

(** A poll message on its third attempt, and on its tenth. *)
Definition poll (n : Z) : body :=
  Json (JDict [("id_fatura", JInt 7); ("acao", JStr "consultar"); ("tentativas", JInt n)]).

(** A cancel message whose reason has three characters. *)
Definition cancelar_foo : json :=
  JDict [("id_fatura", JInt 7); ("acao", JStr "cancelar"); ("motivo", JStr "foo")].

End Toy.

(** What the stand-in signer and SIFEN give for document 7. *)
Module Corrida.

Definition xml_q : string :=
  match assinar_e_gerar_qr Toy.env_envio (Db.xml_original Toy.emissao7)
          (Db.caminho_certificado Toy.emissao7) (Db.senha Toy.emissao7)
          (Db.csc Toy.emissao7) (Db.id_csc Toy.emissao7) with
  | Ok s => s
  | Exc _ => ""
  end.

(** The world once the batch has been posted. *)
Definition w_envio : world :=
  snd (enviar_lote_sifen Toy.env_envio
         (preparar_payload_sifen Toy.env_envio (xml_final xml_q))
         (Db.caminho_certificado Toy.emissao7) (Db.senha Toy.emissao7) Toy.w0).

(** The world once the status query has been posted. *)
Definition w_consulta (E : Env) : world :=
  snd (consultar_lote_sifen E (Db.protocolo Toy.emissao7)
         (Db.caminho_certificado Toy.emissao7) (Db.senha Toy.emissao7) Toy.w0).

End Corrida.

(** The cancellation run of document 7 on the stand-in. *)
Module Cancelamento.

Definition cdc : string := "01800123456001001000000122024010211234567895".

(** The event built for a reason. *)
Definition evento (motivo : string) : string :=
  match gerar_evento_assinado_wsdl Toy.env_cancelado cdc (JStr motivo)
          (Db.caminho_certificado Toy.emissao7) (Db.senha Toy.emissao7) with
  | Ok s => s
  | Exc _ => ""
  end.

(** The world once the event has been posted. *)
Definition w_evento (E : Env) (motivo : string) : world :=
  snd (enviar_evento_cancelamento E (evento motivo) "WSDL-GEN"
         (Db.caminho_certificado Toy.emissao7) (Db.senha Toy.emissao7) Toy.w0).

Definition cancelar (motivo : string) : json :=
  JDict [("id_fatura", JInt 7); ("acao", JStr "cancelar"); ("motivo", JStr motivo)].

End Cancelamento.

(* ================================================================== *)
(** * What a run may add to a log, and what it keeps of the tables *)
(* ================================================================== *)

(** A run of [m] appends at most [n] entries to the log [proj], each
    satisfying [P], and nothing else happens to that log. *)
Definition appends {X A : Type} (proj : world -> list X) (P : X -> Prop) (n : nat)
    (m : M A) : Prop :=
  forall w r w', m w = (r, w') ->
  exists l, proj w' = (proj w ++ l)%list /\ Forall P l /\ List.length l <= n.

(** A persistent message for the delay queue, through the default exchange. *)
Definition is_poll (e : chan_event) : Prop :=
  exists b, e = Publish "" DELAY_QUEUE b 2.

(** The two ways a handler answers a delivery. *)
Definition settled (tag : Z) (e : chan_event) : Prop :=
  e = Ack tag \/ e = Nack tag false.

(** A run of [m] publishes at most [n] polls and then, when it returns,
    answers the delivery [tag] once, as its last channel call; when it
    raises it has not answered. *)
Definition settles (n : nat) (tag : Z) (m : M unit) : Prop :=
  forall w r w', m w = (r, w') ->
  exists pubs, Forall is_poll pubs /\ List.length pubs <= n /\
    match r with
    | Ok _ => exists s, settled tag s /\ channel w' = (channel w ++ pubs ++ [s])%list
    | Exc _ => channel w' = (channel w ++ pubs)%list
    end.

(** [R] relates the world before and after every run of [m]. *)
Definition preserves {A : Type} (R : world -> world -> Prop) (m : M A) : Prop :=
  forall w r w', m w = (r, w') -> R w w'.

(** The columns of an emission row no statement of the repository sets. *)
Definition frozen (r : emissao_row) :=
  (r_id r, r_id_docfis r, r_xml r, r_tipo r, r_caminho_certificado r, r_senha r,
   r_id_csc r, r_csc r, r_tipo_docto r).

(** The rows of document [j]. *)
Definition rows_of (j : Z) (rows : list emissao_row) : list emissao_row :=
  filter (fun r => (r_id_docfis r =? j)%Z) rows.

Definition docs_of (j : Z) (rows : list documento_row) : list documento_row :=
  filter (fun r => (d_id_doc r =? j)%Z) rows.

(** No row is added or removed, no frozen column changes, and the rows of
    document [j] are what they were. *)
Definition keeps_tables (j : Z) (w w' : world) : Prop :=
  map frozen (tb_de_emissao w') = map frozen (tb_de_emissao w)
  /\ map d_id_doc (tb_de_documento w') = map d_id_doc (tb_de_documento w)
  /\ rows_of j (tb_de_emissao w') = rows_of j (tb_de_emissao w)
  /\ docs_of j (tb_de_documento w') = docs_of j (tb_de_documento w).

(** The document a message names, when it names one by an integer. *)
Definition message_id (b : body) : option Z :=
  match b with
  | Json (JDict d) =>
      match assoc "id_fatura" d with
      | Some (JInt k) => Some k
      | _ => None
      end
  | _ => None
  end.

(** A request to one of the three SIFEN endpoints of the settings. *)
Definition sifen_request (E : Env) (rq : option string * list byte) : Prop :=
  fst rq = URL_SIFEN_RECEBE_LOTE E \/ fst rq = URL_SIFEN_CONSULTA_LOTE E
  \/ fst rq = URL_SIFEN_EVENTO E.


(** More answers of SIFEN for the stand-in. *)
Module Cenario.

(** Submit refused: protocol "0", code 160. *)
Definition resposta_envio_recusado : response :=
  {| status_code := 200; text := "<env:Envelope>160</env:Envelope>" |}.
Definition arvore_envio_recusado : xml :=
  Toy.envelope [Element SIFEN_NS "rResEnviLoteDe" [] [] None
                  [Toy.campo "dProtConsLote" "0"; Toy.campo "dCodRes" "160";
                   Toy.campo "dMsgRes" "bad signature"]].
Definition env_envio_recusado : Env :=
  Toy.env resposta_envio_recusado (Ok arvore_envio_recusado).

(** Poll answered "Aprobado" with code 0260, and without a code. *)
Definition resposta_aprovado : response :=
  {| status_code := 200; text := "<env:Envelope>0260</env:Envelope>" |}.
Definition arvore_aprovado : xml :=
  Toy.envelope [Element SIFEN_NS "rResEnviConsLoteDe" [] [] None
                  [Toy.campo "dEstRes" "Aprobado"; Toy.campo "dCodRes" "0260"]].
Definition env_aprovado : Env := Toy.env resposta_aprovado (Ok arvore_aprovado).

Definition arvore_aprovado_sem_codigo : xml :=
  Toy.envelope [Element SIFEN_NS "rResEnviConsLoteDe" [] [] None
                  [Toy.campo "dEstRes" "Aprobado"]].
Definition env_aprovado_sem_codigo : Env :=
  Toy.env resposta_aprovado (Ok arvore_aprovado_sem_codigo).

(** Poll answered "Rechazado". *)
Definition resposta_rejeitado : response :=
  {| status_code := 200; text := "<env:Envelope>1001</env:Envelope>" |}.
Definition arvore_rejeitado : xml :=
  Toy.envelope [Element SIFEN_NS "rResEnviConsLoteDe" [] [] None
                  [Toy.campo "dEstRes" "Rechazado"; Toy.campo "dCodRes" "1001";
                   Toy.campo "dMsgRes" "CDC duplicado"]].
Definition env_rejeitado : Env := Toy.env resposta_rejeitado (Ok arvore_rejeitado).

(** A stand-in whose certificate cannot be read. *)
Definition env_sem_certificado : Env :=
  {| URL_SIFEN_CONSULTA_LOTE := URL_SIFEN_CONSULTA_LOTE Toy.env_envio;
     URL_SIFEN_RECEBE_LOTE := URL_SIFEN_RECEBE_LOTE Toy.env_envio;
     URL_SIFEN_QR := URL_SIFEN_QR Toy.env_envio;
     URL_SIFEN_EVENTO := URL_SIFEN_EVENTO Toy.env_envio;
     fromstring := fromstring Toy.env_envio;
     fromstring_clean := fromstring_clean Toy.env_envio;
     tostring := tostring Toy.env_envio;
     pfx_to_pem := fun _ _ => Exc CertificateError;
     xml_sign := xml_sign Toy.env_envio;
     requests_post := requests_post Toy.env_envio;
     time_ms := time_ms Toy.env_envio;
     now := now Toy.env_envio;
     zip_b64 := zip_b64 Toy.env_envio |}.

(** The world once the batch has been posted to the refusing SIFEN. *)
Definition w_envio_recusado : world :=
  snd (enviar_lote_sifen env_envio_recusado
         (preparar_payload_sifen env_envio_recusado (xml_final Corrida.xml_q))
         (Db.caminho_certificado Toy.emissao7) (Db.senha Toy.emissao7) Toy.w0).

End Cenario.

(* ================================================================== *)
(** * Reading the columns an update can set *)
(* ================================================================== *)

(** The value a row holds in a column of [column_map]. *)
Definition coluna (c : Db.campo) (r : emissao_row) : option string :=
  match c with
  | Db.xml_assinado_ => r_xml_assinado r
  | Db.xml_retorno_ => r_xml_retorno r
  | Db.xml_cancelamento_envio_ => r_xml_cancelamento_envio r
  | Db.xml_cancelamento_retorno_ => r_xml_cancelamento_retorno r
  | Db.cod_status_ => r_cod_status r
  | Db.desc_status_ => r_desc_status r
  | Db.protocolo_ => r_protocolo r
  end.

Definition campo_eqb (a b : Db.campo) : bool :=
  match a, b with
  | Db.xml_assinado_, Db.xml_assinado_
  | Db.xml_retorno_, Db.xml_retorno_
  | Db.xml_cancelamento_envio_, Db.xml_cancelamento_envio_
  | Db.xml_cancelamento_retorno_, Db.xml_cancelamento_retorno_
  | Db.cod_status_, Db.cod_status_
  | Db.desc_status_, Db.desc_status_
  | Db.protocolo_, Db.protocolo_ => true
  | _, _ => false
  end.


(** A lowercase hexadecimal digit. *)
Definition is_hex_lower (c : ascii) : bool :=
  let n := Py.ord c in
  ((48 <=? n) && (n <=? 57) || (97 <=? n) && (n <=? 102))%N.


(* ================================================================== *)
(** * The shape of a tree, for the insertions of sifen_xml.py *)
(* ================================================================== *)

(** An element without its children. *)
Definition shallow (e : xml) : xml :=
  let 'Element ns n m a t _ := e in Element ns n m a t [].

(** The elements of a tree in document order, the root first, each with its
    depth and without its children: two trees with the same outline are the
    same tree. *)
Fixpoint outline (d : nat) (e : xml) : list (nat * xml) :=
  match e with
  | Element ns n m a t cs =>
      (d, Element ns n m a t [])
      :: (fix walk (l : list xml) : list (nat * xml) :=
            match l with
            | [] => []
            | c :: r => (outline (S d) c ++ walk r)%list
            end) cs
  end.

(** The walk of [insert_after_first] over a list of children. *)
Fixpoint insert_in (p : xml -> bool) (new : xml) (l : list xml) : option (list xml) :=
  match l with
  | [] => None
  | c :: r =>
      if p c then Some (c :: new :: r)
      else match insert_after_first p new c with
           | Some c' => Some (c' :: r)
           | None => match insert_in p new r with
                     | Some r' => Some (c :: r')
                     | None => None
                     end
           end
  end.

(** The elements below a list of siblings, in document order. *)
Definition below (cs : list xml) : list xml :=
  flat_map (fun c => c :: descendants c) cs.


(** What an insertion after the first match does to the siblings [cs] at
    depth [d]: the outline is cut at the first element [s] satisfying [p],
    and the outline of the new element, at the depth of [s], follows the
    outline of [s]. *)
Definition inserted (p : xml -> bool) (new : xml) (d : nat) (cs cs' : list xml) : Prop :=
  exists l1 s l2 k,
    flat_map (outline d) cs = (l1 ++ outline k s ++ l2)%list
    /\ Forall (fun x => p (snd x) = false) l1
    /\ p s = true
    /\ List.find p (below cs) = Some s
    /\ flat_map (outline d) cs' = (l1 ++ outline k s ++ outline k new ++ l2)%list.

(** No element among the siblings [cs] or below them satisfies [p]. *)
Definition unmatched (p : xml -> bool) (d : nat) (cs : list xml) : Prop :=
  Forall (fun x => p (snd x) = false) (flat_map (outline d) cs)
  /\ List.find p (below cs) = None.


(** What [insert_after_first] and its walk do, at every depth. *)
Definition tree_spec (p : xml -> bool) (new : xml) (e : xml) : Prop :=
  forall d,
    match insert_after_first p new e with
    | Some e' => shallow e' = shallow e
                 /\ inserted p new (S d) (el_children e) (el_children e')
    | None => unmatched p (S d) (el_children e)
    end.

Definition list_spec (p : xml -> bool) (new : xml) (cs : list xml) : Prop :=
  forall d,
    match insert_in p new cs with
    | Some cs' => inserted p new d cs cs'
    | None => unmatched p d cs
    end.


(* ================================================================== *)
(** * config.py and database.py: the settings and the connection *)
(* ================================================================== *)

Module Config.

(** The settings of the process environment that [validar_configuracoes]
    and [OracleConnection.connect] read; [None] is an unset variable. *)
Record settings : Type := {
  ORACLE_USER : option string;
  ORACLE_PASSWORD : option string;
  ORACLE_DSN : option string;
  ORACLE_CONNECTION_STRING : option string;
  RABBITMQ_USER : option string;
  RABBITMQ_PASS : option string
}.

(** Truthiness of an [Optional[str]]. *)
Definition truthy_opt (o : option string) : bool :=
  match o with
  | Some s => Py.truthy s
  | None => false
  end.

(** The entries of [erros], in the order they are appended; the one about
    the URLs lists the names of the missing ones. *)
Inductive erro : Type :=
| ErroOracle
| ErroRabbitMQ
| ErroUrls (urls_faltando : list string).

Definition urls_obrigatorias (E : Env) : list (string * option string) :=
  [ ("URL_SIFEN_CONSULTA_LOTE", URL_SIFEN_CONSULTA_LOTE E);
    ("URL_SIFEN_RECEBE_LOTE", URL_SIFEN_RECEBE_LOTE E);
    ("URL_SIFEN_QR", URL_SIFEN_QR E);
    ("URL_SIFEN_EVENTO", URL_SIFEN_EVENTO E) ].

Definition urls_faltando (E : Env) : list string :=
  map fst (filter (fun nu => negb (truthy_opt (snd nu))) (urls_obrigatorias E)).

Definition erros (c : settings) (E : Env) : list erro :=
  ((if negb (truthy_opt (ORACLE_CONNECTION_STRING c))
       && negb (forallb truthy_opt [ORACLE_USER c; ORACLE_PASSWORD c; ORACLE_DSN c])
    then [ErroOracle] else [])
   ++ (if negb (truthy_opt (RABBITMQ_USER c)) || negb (truthy_opt (RABBITMQ_PASS c))
       then [ErroRabbitMQ] else [])
   ++ (match urls_faltando E with
       | [] => []
       | faltando => [ErroUrls faltando]
       end))%list.

(** [validar_configuracoes()] *)
Definition validar_configuracoes (c : settings) (E : Env) : result unit :=
  match erros c E with
  | [] => Ok tt
  | _ => Exc ValueError
  end.

(** [s.split(sep)] for a separator of one character. *)
Fixpoint split_char (sep : ascii) (s : string) : list string :=
  match s with
  | EmptyString => [EmptyString]
  | String c s' =>
      if Ascii.eqb c sep then EmptyString :: split_char sep s'
      else let l := split_char sep s' in String c (hd EmptyString l) :: tl l
  end.

(** The call [OracleConnection.connect] makes once the client library is
    initialised. *)
Inductive chamada : Type :=
| ConnectString (connection_string : string)
| ConnectDsn (user password host : string) (port : Z) (service_name : string).

Definition colon : ascii := ascii_of_nat 58.
Definition slash : ascii := ascii_of_nat 47.

(** The branch of [connect] taken and the arguments it computes from
    [ORACLE_DSN]. *)
Definition connect (c : settings) : result chamada :=
  if truthy_opt (ORACLE_CONNECTION_STRING c) then
    Ok (ConnectString (Py.fmt_opt (ORACLE_CONNECTION_STRING c)))
  else if truthy_opt (ORACLE_USER c) && truthy_opt (ORACLE_PASSWORD c)
          && truthy_opt (ORACLE_DSN c) then
    let dsn := Py.fmt_opt (ORACLE_DSN c) in
    let host := if Py.contains ":" dsn then nth 0 (split_char colon dsn) "" else dsn in
    let port_str :=
      if Py.contains ":" dsn
      then nth 0 (split_char slash (nth 1 (split_char colon dsn) "")) ""
      else "1521" in
    rbind (if Py.isdigit port_str
           then match Py.int_of_digits port_str with
                | Some z => Ok z
                | None => Exc ValueError
                end
           else Ok 1521%Z) (fun port =>
    let service :=
      if Py.contains "/" dsn then last (split_char slash dsn) "" else dsn in
    Ok (ConnectDsn (Py.fmt_opt (ORACLE_USER c)) (Py.fmt_opt (ORACLE_PASSWORD c))
                   host port service))
  else Exc ValueError.

End Config.

(** Settings with the three Oracle components and no connection string. *)
Definition configuracao_dsn : Config.settings :=
  {| Config.ORACLE_USER := Some "sifen";
     Config.ORACLE_PASSWORD := Some "segredo";
     Config.ORACLE_DSN := Some "db.local:1522/XEPDB1";
     Config.ORACLE_CONNECTION_STRING := None;
     Config.RABBITMQ_USER := Some "guest";
     Config.RABBITMQ_PASS := Some "guest" |}.


(* ================================================================== *)
(** * worker.py: a parked poll comes back *)
(* ================================================================== *)

(** [connect_rabbitmq] declares the delay queue with a time to live and with
    [DLX_EXCHANGE] and [DELAY_ROUTING_KEY] as the target of its expired
    messages, and binds the main queue to that exchange with that key:
    a message published to the delay queue is delivered to
    [on_message_received] again.  [parked w w'] is the body parked in the
    delay queue by a delivery that took the world from [w] to [w']. *)
Fixpoint first_parked (l : list chan_event) : option body :=
  match l with
  | [] => None
  | Publish ex rk b _ :: r =>
      if String.eqb ex "" && String.eqb rk DELAY_QUEUE then Some b else first_parked r
  | _ :: r => first_parked r
  end.

Definition parked (w w' : world) : option body :=
  first_parked (skipn (List.length (channel w)) (channel w')).

(** The deliveries that follow from one message: the message, then what each
    delivery parks, until a delivery parks nothing.  The result is the number
    of deliveries made and the world they leave. *)
Fixpoint deliveries (E : Env) (fuel : nat) (tag : Z) (b : body) (w : world)
  : nat * world :=
  match fuel with
  | O => (O, w)
  | S fuel' =>
      let w' := snd (on_message_received E tag b w) in
      match parked w w' with
      | Some b' =>
          let '(n, w'') := deliveries E fuel' (tag + 1) b' w' in (S n, w'')
      | None => (1, w')
      end
  end.

(** The body of the status query posted for an emission. *)
Definition pedido_consulta (E : Env) (emissao : Db.emissao) : list byte :=
  Py.encode_utf8 (envelope_consulta (Py.str_of_Z (time_ms E)) (Db.protocolo emissao)).

(** No input/output operation fails. *)
Definition calm (w : world) : Prop := forall t, faults w t = false.

(** The body of a poll of document [j] at attempt [n]. *)
Definition poll_body (j n : Z) : body :=
  Json (JDict [("id_fatura", JInt j); ("acao", JStr "consultar");
               ("tentativas", JInt n)]).


(* ================================================================== *)
(** * Properties *)
(* ================================================================== *)

(** ** Strings *)

Lemma length_append (s t : string) :
  String.length (s ++ t) = String.length s + String.length t.
Proof. induction s as [|c s IH]; simpl; [reflexivity | now rewrite IH]. Qed.

Lemma append_assoc (a b c : string) : (a ++ b) ++ c = a ++ (b ++ c).
Proof. induction a as [|x a IH]; simpl; [reflexivity | now rewrite IH]. Qed.

Lemma substring_drop (a s : string) (n : nat) :
  String.substring (String.length a) n (a ++ s) = String.substring 0 n s.
Proof. induction a as [|x a IH]; simpl; [reflexivity | exact IH]. Qed.

Lemma substring_take (b c : string) :
  String.substring 0 (String.length b) (b ++ c) = b.
Proof.
  induction b as [|x b IH]; simpl.
  - now destruct c.
  - now rewrite IH.
Qed.

Lemma substring_all (s : string) : String.substring 0 (String.length s) s = s.
Proof. induction s as [|x s IH]; simpl; [reflexivity | now rewrite IH]. Qed.

Lemma length_hex (bs : list byte) : String.length (Py.hex bs) = 2 * List.length bs.
Proof. induction bs as [|b bs IH]; simpl; [reflexivity | rewrite IH; lia]. Qed.

Lemma length_word_bytes (w : Z) : List.length (Sha256.word_bytes w) = 4.
Proof. reflexivity. Qed.

Lemma length_digest (msg : list byte) : List.length (Sha256.digest msg) = 32.
Proof.
  unfold Sha256.digest. repeat rewrite List.length_app.
  repeat rewrite length_word_bytes. reflexivity.
Qed.

Lemma length_hexdigest (msg : list byte) : String.length (Sha256.hexdigest msg) = 64.
Proof. unfold Sha256.hexdigest. rewrite length_hex, length_digest. reflexivity. Qed.

(** The digest of the three-letter message of FIPS 180-4, of the empty
    message, and of a message of two blocks. *)
Example sha256_abc :
  Sha256.hexdigest (Py.encode_utf8 "abc")
  = "ba7816bf8f01cfea414140de5dae2223b00361a396177a9cb410ff61f20015ad".
Proof. vm_compute. reflexivity. Qed.

Example sha256_empty :
  Sha256.hexdigest []
  = "e3b0c44298fc1c149afbf4c8996fb92427ae41e4649b934ca495991b7852b855".
Proof. vm_compute. reflexivity. Qed.

Example sha256_two_blocks :
  Sha256.hexdigest
    (Py.encode_utf8 "abcdbcdecdefdefgefghfghighijhijkijkljklmklmnlmnomnopnopq")
  = "248d6a61d20638b8e5c026930c3e6039a33ce45964ff2167f6ecedd419db06c1".
Proof. vm_compute. reflexivity. Qed.

Example strip_example : Py.strip "  a b  " = "a b".
Proof. reflexivity. Qed.

Example replace_example : Py.replace "ab" "X" "cababa" = "cXXa".
Proof. reflexivity. Qed.

(** ** The result monad *)

Lemma rbind_ok {A B} (r : result A) (k : A -> result B) (b : B) :
  rbind r k = Ok b -> exists a, r = Ok a /\ k a = Ok b.
Proof. destruct r as [a|e]; simpl; intros H; [eauto | discriminate]. Qed.

(** ** The QR token *)

Lemma seal_cut (A H : string) :
  String.length H = 64 ->
  String.substring (String.length (A ++ H) - 64) 64 (A ++ H) = H.
Proof.
  intros HH. rewrite length_append, HH.
  replace (String.length A + 64 - 64) with (String.length A) by lia.
  rewrite substring_drop, <- HH. apply substring_all.
Qed.

Lemma base_cut (P b R : string) (n : nat) :
  n = String.length R ->
  String.substring (String.length P)
    (String.length (P ++ b ++ R) - String.length P - n) (P ++ b ++ R) = b.
Proof.
  intros ->. repeat rewrite length_append.
  replace (String.length P + (String.length b + String.length R)
           - String.length P - String.length R) with (String.length b) by lia.
  rewrite substring_drop. apply substring_take.
Qed.

Lemma cut_url (P base H : string) :
  String.length H = 64 ->
  Qr.base_of P (P ++ base ++ "&cHashQR=" ++ H) = base
  /\ Qr.seal_of (P ++ base ++ "&cHashQR=" ++ H) = H.
Proof.
  intros HH. unfold Qr.base_of, Qr.seal_of. split.
  - apply base_cut. rewrite length_append, HH. reflexivity.
  - rewrite <- (append_assoc base), <- (append_assoc P).
    apply seal_cut, HH.
Qed.

Lemma url_final_qr_ok (URL : option string) (signed_root : xml)
    (csc csc_id url : string) :
  Qr.url_final_qr URL signed_root csc csc_id = Ok url ->
  exists base,
    Qr.url_base_qr signed_root csc_id = Ok base
    /\ url = Py.fmt_opt URL ++ base ++ "&cHashQR=" ++ Qr.cHashQR base csc.
Proof.
  unfold Qr.url_final_qr. intros H.
  apply rbind_ok in H as (base & Hb & H). injection H as <-. eauto.
Qed.

Lemma url_final_qr_cut (URL : option string) (signed_root : xml)
    (csc csc_id url : string) :
  Qr.url_final_qr URL signed_root csc csc_id = Ok url ->
  exists base,
    Qr.url_base_qr signed_root csc_id = Ok base
    /\ url = Py.fmt_opt URL ++ base ++ "&cHashQR=" ++ Qr.cHashQR base csc
    /\ Qr.base_of (Py.fmt_opt URL) url = base
    /\ Qr.seal_of url = Qr.cHashQR base csc.
Proof.
  intros H. apply url_final_qr_ok in H as (base & Hb & ->).
  exists base. split; [exact Hb|]. split; [reflexivity|].
  apply cut_url, length_hexdigest.
Qed.

(** What a successful run of the signer returns: the serialization of the
    signed tree with the QR element put after the signature, the QR text
    being the URL of [Qr.url_final_qr] on that signed tree. *)
Lemma assinar_e_gerar_qr_ok (E : Env)
    (xml_original cert_pfx_path cert_pass csc csc_id out : string) :
  assinar_e_gerar_qr E xml_original cert_pfx_path cert_pass csc csc_id = Ok out ->
  exists signed_root url signed_root',
    Qr.url_final_qr (URL_SIFEN_QR E) signed_root csc csc_id = Ok url
    /\ Qr.inserir_qr signed_root url = Ok signed_root'
    /\ out = tostring E true signed_root'.
Proof.
  unfold assinar_e_gerar_qr. intros H.
  apply rbind_ok in H as ([key cert] & _ & H).
  apply rbind_ok in H as (root & _ & H).
  apply rbind_ok in H as (root1 & _ & H).
  apply rbind_ok in H as (de_id & _ & H).
  apply rbind_ok in H as (signed_root & _ & H).
  apply rbind_ok in H as (url & Hu & H).
  apply rbind_ok in H as (t & Ht & H).
  injection H as <-. exists signed_root, url, t. auto.
Qed.

(** C3. For every QR URL the signer produces, cutting the URL back into the
    configured prefix, the base query and the 64 digits that follow
    "&cHashQR=" and hashing the base query followed by the stripped CSC with
    SHA-256 gives those digits again, in lowercase hexadecimal. *)
Theorem qr_seal_recomputed (URL : option string) (signed_root : xml)
    (csc csc_id url : string) :
  Qr.url_final_qr URL signed_root csc csc_id = Ok url ->
  url = Py.fmt_opt URL ++ Qr.base_of (Py.fmt_opt URL) url ++ "&cHashQR=" ++ Qr.seal_of url
  /\ Qr.url_base_qr signed_root csc_id = Ok (Qr.base_of (Py.fmt_opt URL) url)
  /\ Qr.seal_of url
     = Sha256.hexdigest
         (Py.encode_utf8 (Qr.base_of (Py.fmt_opt URL) url ++ Py.strip csc)).
Proof.
  intros H. apply url_final_qr_cut in H as (base & Hb & Hu & -> & ->).
  split; [exact Hu | split; [exact Hb | reflexivity]].
Qed.

Lemma qr_seal_recomputed_witness :
  Qr.seal_of Exemplo.url_final
  = Sha256.hexdigest
      (Py.encode_utf8 (Qr.base_of (Py.fmt_opt Exemplo.url_qr) Exemplo.url_final
                       ++ Py.strip Exemplo.csc)).
Proof.
  apply (qr_seal_recomputed Exemplo.url_qr Exemplo.signed_root Exemplo.csc Exemplo.csc_id).
  vm_compute. reflexivity.
Defined.

Lemma url_base_qr_ok (signed_root : xml) (csc_id base : string) :
  Qr.url_base_qr signed_root csc_id = Ok base ->
  exists d id,
    Qr.digest_value_b64 signed_root = Ok d
    /\ Qr.id_de_signed signed_root = Ok id
    /\ base = "nVersion=" ++ SIFEN_VERSION
              ++ "&Id=" ++ Py.fmt_opt id
              ++ "&dFeEmiDE=" ++ Qr.dFeEmiDE_hex signed_root
              ++ "&dRucRec=" ++ Qr.get_xml_text signed_root "dRucRec"
              ++ "&dTotGralOpe=" ++ Qr.get_xml_text signed_root "dTotGralOpe"
              ++ "&dTotIVA=" ++ Qr.get_xml_text signed_root "dTotIVA"
              ++ "&cItems=" ++ Py.str_of_nat (Qr.cItems signed_root)
              ++ "&DigestValue=" ++ Qr.digest_value_hex d
              ++ "&IdCSC=" ++ csc_id.
Proof.
  unfold Qr.url_base_qr. intros H.
  apply rbind_ok in H as (d & Hd & H).
  apply rbind_ok in H as (id & Hid & H).
  injection H as <-. exists d, id. auto.
Qed.

Lemma digest_value_b64_ok (signed_root : xml) (d : string) :
  Qr.digest_value_b64 signed_root = Ok d ->
  findtext (InNs DS_NS "DigestValue") signed_root = Some d /\ d <> "".
Proof.
  unfold Qr.digest_value_b64.
  destruct (findtext _ signed_root) as [t|]; [|discriminate].
  destruct t; simpl; [discriminate|].
  intros H. injection H as <-. split; [reflexivity | discriminate].
Qed.

(** C4. In every QR URL the signer produces, the field [DigestValue], which
    stands right before [IdCSC] and the seal, is the lowercase hexadecimal
    form of the UTF-8 bytes of the stripped text of the [DigestValue]
    element of the signed tree: two digits for each character of the base64
    text as written. *)
Theorem qr_digest_field_is_hex_of_base64_text (URL : option string)
    (signed_root : xml) (csc csc_id url : string) :
  Qr.url_final_qr URL signed_root csc csc_id = Ok url ->
  exists d before,
    findtext (InNs DS_NS "DigestValue") signed_root = Some d
    /\ d <> ""
    /\ url = before
             ++ "&DigestValue=" ++ Py.hex (Py.encode_utf8 (Py.strip d))
             ++ "&IdCSC=" ++ csc_id
             ++ "&cHashQR=" ++ Qr.seal_of url
    /\ String.length (Py.hex (Py.encode_utf8 (Py.strip d)))
       = 2 * List.length (Py.encode_utf8 (Py.strip d)).
Proof.
  intros H.
  apply url_final_qr_cut in H as (base & Hbase & Hurl & _ & Hseal).
  apply url_base_qr_ok in Hbase as (d & id & Hd & _ & Hb).
  apply digest_value_b64_ok in Hd as [Hd Hne].
  exists d.
  exists (Py.fmt_opt URL ++ "nVersion=" ++ SIFEN_VERSION
          ++ "&Id=" ++ Py.fmt_opt id
          ++ "&dFeEmiDE=" ++ Qr.dFeEmiDE_hex signed_root
          ++ "&dRucRec=" ++ Qr.get_xml_text signed_root "dRucRec"
          ++ "&dTotGralOpe=" ++ Qr.get_xml_text signed_root "dTotGralOpe"
          ++ "&dTotIVA=" ++ Qr.get_xml_text signed_root "dTotIVA"
          ++ "&cItems=" ++ Py.str_of_nat (Qr.cItems signed_root)).
  split; [exact Hd|]. split; [exact Hne|]. split; [|apply length_hex].
  rewrite Hseal. rewrite Hurl at 1. rewrite Hb. unfold Qr.digest_value_hex.
  repeat rewrite append_assoc. reflexivity.
Qed.

Lemma qr_digest_field_is_hex_of_base64_text_witness :
  exists d before,
    findtext (InNs DS_NS "DigestValue") Exemplo.signed_root = Some d
    /\ d <> ""
    /\ Exemplo.url_final
       = before ++ "&DigestValue=" ++ Py.hex (Py.encode_utf8 (Py.strip d))
         ++ "&IdCSC=" ++ Exemplo.csc_id ++ "&cHashQR=" ++ Qr.seal_of Exemplo.url_final
    /\ String.length (Py.hex (Py.encode_utf8 (Py.strip d)))
       = 2 * List.length (Py.encode_utf8 (Py.strip d)).
Proof.
  apply (qr_digest_field_is_hex_of_base64_text Exemplo.url_qr Exemplo.signed_root
           Exemplo.csc Exemplo.csc_id).
  vm_compute. reflexivity.
Defined.

(** On the sample document the field is the 88 digits of the 44 characters
    of the base64 text. *)
Example digest_field_exemplo :
  Qr.digest_value_b64 Exemplo.signed_root
  = Ok "47DEQpj8HBSa+/TImW+5JCeuQeRkm5NMpJWZG3hSuFU="
  /\ Qr.digest_value_hex "47DEQpj8HBSa+/TImW+5JCeuQeRkm5NMpJWZG3hSuFU="
     = "3437444551706a38484253612b2f54496d572b354a4365755165526b6d354e4d704a575a473368537546553d".
Proof. split; reflexivity. Qed.

(** The digest behind that text is the SHA-256 of the empty message; its own
    64 digits are not what the QR carries. *)
Example digest_field_not_decoded :
  Spec.decoded_digest_hex "47DEQpj8HBSa+/TImW+5JCeuQeRkm5NMpJWZG3hSuFU="
  = "e3b0c44298fc1c149afbf4c8996fb92427ae41e4649b934ca495991b7852b855"
  /\ Qr.digest_value_hex "47DEQpj8HBSa+/TImW+5JCeuQeRkm5NMpJWZG3hSuFU="
     <> Spec.decoded_digest_hex "47DEQpj8HBSa+/TImW+5JCeuQeRkm5NMpJWZG3hSuFU=".
Proof. split; [reflexivity | vm_compute; intros H; discriminate H]. Qed.

(** C5, as the code has it. The base of the QR query is the nine fields
    nVersion, Id, dFeEmiDE, dRucRec, dTotGralOpe, dTotIVA, cItems,
    DigestValue, IdCSC in that order, joined by ampersands, nothing encoded;
    nVersion is "150"; a text field is the stripped text of its element, or
    "0" when the element is missing or its text empty; dFeEmiDE is the
    hexadecimal form of the UTF-8 bytes of that stripped text; cItems counts
    the [gCamItem] descendants. *)
Theorem qr_base_query_fields (signed_root : xml) (csc_id base : string) :
  Qr.url_base_qr signed_root csc_id = Ok base ->
  let campo name :=
    match findtext (InNs SIFEN_NS name) signed_root with
    | Some t => if String.eqb t "" then "0" else Py.strip t
    | None => "0"
    end in
  exists d id,
    Qr.digest_value_b64 signed_root = Ok d
    /\ Qr.id_de_signed signed_root = Ok id
    /\ base = String.concat "&"
         [ "nVersion=150";
           "Id=" ++ Py.fmt_opt id;
           "dFeEmiDE=" ++ Py.hex (Py.encode_utf8 (campo "dFeEmiDE"));
           "dRucRec=" ++ campo "dRucRec";
           "dTotGralOpe=" ++ campo "dTotGralOpe";
           "dTotIVA=" ++ campo "dTotIVA";
           "cItems=" ++ Py.str_of_nat
              (List.length (List.filter (tag_matches (InNs SIFEN_NS "gCamItem"))
                                        (descendants signed_root)));
           "DigestValue=" ++ Py.hex (Py.encode_utf8 (Py.strip d));
           "IdCSC=" ++ csc_id ].
Proof.
  intros H campo.
  assert (Hc : forall name, Qr.get_xml_text signed_root name = campo name).
  { intros name. unfold Qr.get_xml_text, campo.
    destruct (findtext _ signed_root) as [t|]; [|reflexivity]. now destruct t. }
  apply url_base_qr_ok in H as (d & id & Hd & Hid & ->).
  exists d, id. split; [exact Hd|]. split; [exact Hid|].
  unfold Qr.dFeEmiDE_hex, Qr.digest_value_hex, Qr.cItems, findall.
  repeat rewrite Hc. cbn [String.concat].
  repeat rewrite append_assoc. reflexivity.
Qed.

Lemma qr_base_query_fields_witness :
  exists d id,
    Qr.digest_value_b64 Exemplo.signed_root = Ok d
    /\ Qr.id_de_signed Exemplo.signed_root = Ok id
    /\ Qr.base_of (Py.fmt_opt Exemplo.url_qr) Exemplo.url_final
       = String.concat "&"
           [ "nVersion=150";
             "Id=" ++ Py.fmt_opt id;
             "dFeEmiDE=" ++ "323032342d30312d30325431303a31313a3132";
             "dRucRec=" ++ "80012345";
             "dTotGralOpe=" ++ "110000";
             "dTotIVA=" ++ "0";
             "cItems=" ++ "2";
             "DigestValue=" ++ Py.hex (Py.encode_utf8 (Py.strip d));
             "IdCSC=" ++ Exemplo.csc_id ].
Proof.
  apply (qr_base_query_fields Exemplo.signed_root Exemplo.csc_id).
  vm_compute. reflexivity.
Defined.

(** C5, as the specification words it, fails on the sample document: its
    [dFeEmiDE] is written with a blank on each side, the code encodes the
    nineteen characters of the date and the raw text has twenty-one. *)
Lemma qr_base_raw_text_counterexample :
  Qr.dFeEmiDE_hex Exemplo.signed_root = "323032342d30312d30325431303a31313a3132"
  /\ Py.hex (Py.encode_utf8 (Spec.texto_bruto Exemplo.signed_root "dFeEmiDE"))
     = "20323032342d30312d30325431303a31313a313220"
  /\ Qr.url_base_qr Exemplo.signed_root Exemplo.csc_id
     <> Spec.url_base_qr Exemplo.signed_root Exemplo.csc_id.
Proof.
  split; [reflexivity|]. split; [reflexivity|].
  vm_compute. intros H. discriminate H.
Qed.

(** ** Substrings *)

Lemma startswith_spec (p s : string) :
  Py.startswith p s = true <-> exists b, s = p ++ b.
Proof.
  revert s. induction p as [|x p IH]; intros s; simpl.
  - split; [intros _; now exists s | reflexivity].
  - destruct s as [|y s].
    + split; [discriminate | intros [b Hb]; discriminate].
    + rewrite andb_true_iff, Ascii.eqb_eq, IH. split.
      * intros [-> [b ->]]. now exists b.
      * intros [b Hb]. injection Hb as -> ->. split; [reflexivity | now exists b].
Qed.

Lemma contains_spec (sub s : string) :
  Py.contains sub s = true <-> exists a b, s = a ++ sub ++ b.
Proof.
  induction s as [|c s IH].
  - cbn [Py.contains]. rewrite orb_false_r, startswith_spec. split.
    + intros [b Hb]. now exists "", b.
    + intros (a & b & H). destruct a; [now exists b | discriminate].
  - cbn [Py.contains]. rewrite orb_true_iff, startswith_spec, IH. split.
    + intros [[b Hb] | (a & b & ->)].
      * now exists "", b.
      * now exists (String c a), b.
    + intros (a & b & H). destruct a as [|x a].
      * left. now exists b.
      * right. injection H as -> ->. now exists a, b.
Qed.

(** ** The SOAP client *)

Lemma tem_xml_valido_spec (response_text : string) :
  tem_xml_valido response_text = true <-> has_marker response_text.
Proof.
  unfold tem_xml_valido, has_marker. split.
  - rewrite andb_true_iff. intros [_ H].
    repeat rewrite orb_true_iff in H.
    destruct H as [[[H|H]|H]|H]; apply contains_spec in H;
      eexists; (split; [|exact H]); simpl; auto.
  - intros (m & Hin & Hc). apply contains_spec in Hc.
    assert (Ht : Py.truthy response_text = true).
    { destruct response_text; [|reflexivity].
      simpl in Hin. destruct Hin as [<-|[<-|[<-|[<-|[]]]]]; discriminate Hc. }
    rewrite Ht. simpl in Hin.
    destruct Hin as [<-|[<-|[<-|[<-|[]]]]]; rewrite Hc; simpl;
      repeat rewrite orb_true_r; reflexivity.
Qed.

Lemma ok_spec (r : response) :
  ok r = false <-> (400 <= status_code r < 600)%Z.
Proof.
  unfold ok, raise_for_status.
  destruct ((400 <=? status_code r) && (status_code r <? 600))%Z eqn:Hs.
  - apply andb_true_iff in Hs as [H1 H2]. split; [lia | reflexivity].
  - apply andb_false_iff in Hs. split; [discriminate | lia].
Qed.

Lemma make_sifen_request_run (E : Env) (url : option string)
    (data cert_path cert_pass key_pem cert_pem : string) (r : response) (w : world) :
  pfx_to_pem E cert_path cert_pass = Ok (key_pem, cert_pem) ->
  requests_post E url (Py.encode_utf8 data) cert_pem key_pem = Ok r ->
  _make_sifen_request E url data cert_path cert_pass w
  = (tratar_resposta r, log_http url (Py.encode_utf8 data) w).
Proof.
  intros Hp Hr. unfold _make_sifen_request, bind, lift, modify.
  rewrite Hp. simpl. rewrite Hr. reflexivity.
Qed.

(** C7, as the specification words it, fails: a response with status 302
    and the body "Found" is outside 200..299 and carries no marker, and the
    client returns its body. *)
Lemma soap_non_2xx_counterexample :
  let r := {| status_code := 302; text := "Found" |} in
  Spec.retorna_corpo r = false
  /\ tem_xml_valido (text r) = false
  /\ fst (_make_sifen_request (Toy.env r (Exc XMLSyntaxError))
            (Some "https://sifen.test/recibe-lote") "<soap:Envelope/>"
            "/certs/a.pfx" "segredo" Toy.w0)
     = Ok "Found".
Proof. repeat split. Qed.

(** C7, as the code has it. When the POST yields a response whose status is
    an HTTP error for the client library (400 to 599), the body is returned
    exactly when it contains one of "<?xml", "<env:Envelope",
    "<soap:Envelope", "<Envelope", and an HTTP error is raised otherwise; a
    response with any other status, 2xx included, has its body returned. *)
Theorem soap_error_body_returned_iff_marker (E : Env) (url : option string)
    (data cert_path cert_pass key_pem cert_pem : string) (r : response) (w : world) :
  pfx_to_pem E cert_path cert_pass = Ok (key_pem, cert_pem) ->
  requests_post E url (Py.encode_utf8 data) cert_pem key_pem = Ok r ->
  let out := fst (_make_sifen_request E url data cert_path cert_pass w) in
  ((400 <= status_code r < 600)%Z ->
     (out = Ok (text r) <-> has_marker (text r))
     /\ (~ has_marker (text r) -> out = Exc (HTTPError (status_code r))))
  /\ (~ (400 <= status_code r < 600)%Z -> out = Ok (text r)).
Proof.
  intros Hp Hr out. subst out.
  rewrite (make_sifen_request_run _ _ _ _ _ _ _ _ _ Hp Hr). simpl fst.
  unfold tratar_resposta. split.
  - intros Hs. pose proof (proj2 (ok_spec r) Hs) as Hok. rewrite Hok. simpl negb. cbv iota.
    assert (Hraise : raise_for_status r = Exc (HTTPError (status_code r))).
    { unfold raise_for_status.
      replace ((400 <=? status_code r) && (status_code r <? 600))%Z with true; [reflexivity|].
      symmetry. apply andb_true_iff. split; lia. }
    destruct (tem_xml_valido (text r)) eqn:Hm.
    + apply tem_xml_valido_spec in Hm. split; [tauto | intros Hn; contradiction].
    + assert (Hn : ~ has_marker (text r)).
      { intros H. apply tem_xml_valido_spec in H. congruence. }
      rewrite Hraise. simpl. split; [split; [discriminate | contradiction] | reflexivity].
  - intros Hs. destruct (ok r) eqn:Hok; [reflexivity|].
    apply ok_spec in Hok. contradiction.
Qed.

Lemma soap_error_body_returned_iff_marker_witness :
  fst (_make_sifen_request Toy.env_0160 (Some "https://sifen.test/consulta-lote")
         "<soap:Envelope/>" "/certs/a.pfx" "segredo" Toy.w0)
  = Ok (text Toy.resposta_0160)
  <-> has_marker (text Toy.resposta_0160).
Proof.
  refine (proj1 (proj1 (soap_error_body_returned_iff_marker Toy.env_0160
           (Some "https://sifen.test/consulta-lote") "<soap:Envelope/>"
           "/certs/a.pfx" "segredo" "KEY" "CERT" Toy.resposta_0160 Toy.w0 _ _) _)).
  - reflexivity.
  - reflexivity.
  - simpl. lia.
Defined.

(** ** Running the monad *)

Lemma bind_Ok {A B} (m : M A) (k : A -> M B) (w w' : world) (b : B) :
  bind m k w = (Ok b, w') ->
  exists a w1, m w = (Ok a, w1) /\ k a w1 = (Ok b, w').
Proof.
  unfold bind. destruct (m w) as [[a|e] w1]; intros H; [eauto | discriminate].
Qed.

Lemma lift_Ok {A} (r : result A) (w w' : world) (a : A) :
  lift r w = (Ok a, w') -> r = Ok a /\ w' = w.
Proof. unfold lift. intros H. injection H as -> ->. auto. Qed.

Lemma ret_Ok {A} (x a : A) (w w' : world) :
  ret x w = (Ok a, w') -> a = x /\ w' = w.
Proof. unfold ret. intros H. injection H as -> ->. auto. Qed.

Lemma io_Ok (e : exn) (w w' : world) (u : unit) :
  io e w = (Ok u, w') -> faults w (tick w) = false /\ w' = next_tick w.
Proof.
  unfold io. destruct (faults w (tick w)); intros H; [discriminate|].
  injection H as _ <-. auto.
Qed.

Lemma basic_publish_Ok (x rk : string) (b : body) (dm : Z) (w w' : world) (u : unit) :
  Channel.basic_publish x rk b dm w = (Ok u, w') ->
  w' = emit (Publish x rk b dm) (next_tick w).
Proof.
  unfold Channel.basic_publish. intros H.
  apply bind_Ok in H as (? & w1 & H1 & H2). apply io_Ok in H1 as [_ ->].
  unfold modify in H2. now injection H2 as <-.
Qed.

Lemma basic_ack_Ok (tag : Z) (w w' : world) (u : unit) :
  Channel.basic_ack tag w = (Ok u, w') -> w' = emit (Ack tag) (next_tick w).
Proof.
  unfold Channel.basic_ack. intros H.
  apply bind_Ok in H as (? & w1 & H1 & H2). apply io_Ok in H1 as [_ ->].
  unfold modify in H2. now injection H2 as <-.
Qed.

Lemma update_tb_de_emissao_Ok (k : Z) (kv : Db.campo * option string)
    (kwargs : list (Db.campo * option string)) (w w' : world) (n : Z) :
  Db.update_tb_de_emissao k (kv :: kwargs) w = (Ok n, w') ->
  w' = set_emissao (map (Db.update_row k (kv :: kwargs)) (tb_de_emissao w)) (next_tick w).
Proof.
  unfold Db.update_tb_de_emissao. intros H.
  apply bind_Ok in H as (? & w1 & H1 & H2). apply io_Ok in H1 as [_ ->].
  now injection H2 as _ <-.
Qed.

Lemma update_tb_de_documento_Ok (k c : Z) (desc : option string) (w w' : world) (n : Z) :
  Db.update_tb_de_documento k (Some c) desc w = (Ok n, w') ->
  w' = set_documento (map (Db.update_doc_row k (Some c) desc) (tb_de_documento w))
         (next_tick w).
Proof.
  unfold Db.update_tb_de_documento. intros H.
  apply bind_Ok in H as (? & w1 & H1 & H2). apply io_Ok in H1 as [_ ->].
  now injection H2 as _ <-.
Qed.

Lemma agendar_consulta_Ok (id_fatura : Z) (dados t : json) (w w' : world) (u : unit) :
  dict_get dados "tentativas" (JInt 1) = Ok t ->
  agendar_consulta id_fatura dados w = (Ok u, w') ->
  w' = emit (Publish "" DELAY_QUEUE
               (Json (JDict [("id_fatura", JInt id_fatura); ("acao", JStr "consultar");
                             ("tentativas", t)])) 2) (next_tick w).
Proof.
  intros Ht H. unfold agendar_consulta in H.
  apply bind_Ok in H as (t' & w1 & H1 & H2).
  apply lift_Ok in H1 as [H1 ->]. rewrite Ht in H1. injection H1 as <-.
  now apply basic_publish_Ok in H2.
Qed.

(** Peeling the steps of a run that completed. *)
Ltac step H :=
  let a := fresh "a" in
  let w1 := fresh "w" in
  let H1 := fresh "Hstep" in
  apply bind_Ok in H as (a & w1 & H1 & H).

(** ** Rows after an update *)

Lemma in_update_row (k : Z) (kwargs : list (Db.campo * option string))
    (rows : list emissao_row) (r' : emissao_row) :
  In r' (map (Db.update_row k kwargs) rows) -> r_id_docfis r' = k ->
  exists r, In r rows /\ r_id_docfis r = k /\ r' = fold_left Db.set_campo kwargs r.
Proof.
  intros Hin Hk. apply in_map_iff in Hin as (r & <- & Hr).
  unfold Db.update_row in *.
  destruct (r_id_docfis r =? k)%Z eqn:Hrk.
  - exists r. apply Z.eqb_eq in Hrk. auto.
  - apply Z.eqb_neq in Hrk. contradiction.
Qed.

Lemma other_rows_kept (k : Z) (kwargs : list (Db.campo * option string))
    (rows : list emissao_row) (r : emissao_row) :
  In r rows -> r_id_docfis r <> k -> In r (map (Db.update_row k kwargs) rows).
Proof.
  intros Hin Hk. apply in_map_iff. exists r. split; [|exact Hin].
  unfold Db.update_row. apply Z.eqb_neq in Hk. now rewrite Hk.
Qed.

Lemma in_update_doc_row (k c : Z) (desc : string)
    (rows : list documento_row) (d' : documento_row) :
  In d' (map (Db.update_doc_row k (Some c) (Some desc)) rows) -> d_id_doc d' = k ->
  d_cod_status d' = Some c /\ d_desc_status d' = Some desc.
Proof.
  intros Hin Hk. apply in_map_iff in Hin as (d & <- & Hd).
  unfold Db.update_doc_row in *.
  destruct (d_id_doc d =? k)%Z eqn:Hdk; [simpl; auto|].
  apply Z.eqb_neq in Hdk. contradiction.
Qed.

Lemma assoc_set_get (key : string) (v : json) (d : list (string * json)) :
  assoc key (assoc_set key v d) = Some v.
Proof.
  induction d as [|[k x] d IH]; simpl.
  - now rewrite String.eqb_refl.
  - destruct (String.eqb k key) eqn:Hk; simpl; rewrite Hk; [reflexivity | exact IH].
Qed.

(** ** The handlers *)

Lemma make_sifen_request_frame (E : Env) (url : option string)
    (data cert_path cert_pass : string) (w w1 : world) (r : result string) :
  _make_sifen_request E url data cert_path cert_pass w = (r, w1) ->
  tb_de_emissao w1 = tb_de_emissao w /\ tb_de_documento w1 = tb_de_documento w
  /\ channel w1 = channel w.
Proof.
  unfold _make_sifen_request, bind, lift, modify.
  destruct (pfx_to_pem E cert_path cert_pass) as [[key cert]|e]; simpl.
  - destruct (requests_post E url (Py.encode_utf8 data) cert key) as [resp|e]; simpl;
      intros H; injection H as _ <-; auto.
  - intros H; injection H as _ <-; auto.
Qed.

Lemma protocolo_valido (p : string) :
  p <> "" -> p <> "0" -> negb (Py.truthy p) || String.eqb p "0" = false.
Proof.
  intros H1 H2. apply String.eqb_neq in H2. rewrite H2.
  destruct p; [contradiction | reflexivity].
Qed.

(** The protocol read is the text of the first [dProtConsLote] of the
    answer, in any namespace, when that text is not empty. *)
Lemma ler_protocolo_first (retorno_root : xml) (t : string) :
  findtext (AnyNs "dProtConsLote") retorno_root = Some t ->
  t <> "" ->
  ler_protocolo retorno_root = t.
Proof.
  intros H Hne. unfold ler_protocolo. rewrite H.
  destruct t; [contradiction | reflexivity].
Qed.



Lemma lt_int_as (t : json) (n : Z) :
  as_int t = Some n -> lt_int t MAX_TENTATIVAS_CONSULTA = Ok (n <? 10)%Z.
Proof. intros H. unfold lt_int. now rewrite H. Qed.

Lemma reagendar_Ok (id_fatura : Z) (dados t : json) (n : Z) (w w' : world) (u : unit) :
  dict_get dados "tentativas" (JInt 1) = Ok t ->
  as_int t = Some n ->
  bind (lift (add_one t)) (fun mais_um =>
    bind (lift (dict_set dados "tentativas" mais_um)) (fun dados' =>
      agendar_consulta id_fatura dados')) w = (Ok u, w') ->
  w' = emit (poll_message id_fatura (n + 1)) (next_tick w).
Proof.
  intros Hget Hn H.
  step H. apply lift_Ok in Hstep as [Ha ->].
  unfold add_one in Ha. rewrite Hn in Ha. injection Ha as <-.
  step H. apply lift_Ok in Hstep as [Hs ->].
  destruct dados as [| | | | |d]; try discriminate Hget.
  simpl in Hs. injection Hs as <-.
  apply (agendar_consulta_Ok _ _ (JInt (n + 1))) in H; [exact H|].
  simpl. now rewrite assoc_set_get.
Qed.

(** The world a poll leaves after the transient answer. *)
Lemma consultar_0160_run (E : Env) (tag : Z) (emissao : Db.emissao) (b : body)
    (w w1 w' : world) (retorno : string) (retorno_root : xml) (dados t : json) (n : Z) :
  consultar_lote_sifen E (Db.protocolo emissao) (Db.caminho_certificado emissao)
    (Db.senha emissao) w = (Ok retorno, w1) ->
  fromstring E (Py.encode_utf8 retorno) = Ok retorno_root ->
  is_0160 retorno_root = true ->
  json_loads b = Ok dados ->
  dict_get dados "tentativas" (JInt 1) = Ok t ->
  as_int t = Some n ->
  handle_consultar_try E tag emissao b w = (Ok tt, w') ->
  let id := Db.id_docfis emissao in
  w' =
  if (n <? 10)%Z then
    emit (Ack tag) (next_tick
      (set_documento
         (map (Db.update_doc_row id (Some 900%Z) (Some "Reprocessando consulta"))
              (tb_de_documento w1))
         (next_tick
            (set_emissao
               (map (Db.update_row id
                       [(Db.xml_retorno_, Some retorno); (Db.cod_status_, Some "900");
                        (Db.desc_status_, Some "Reprocessando consulta")])
                    (tb_de_emissao w1))
               (next_tick (emit (poll_message id (n + 1)) (next_tick w1)))))))
  else
    emit (Ack tag) (next_tick
      (set_documento
         (map (Db.update_doc_row id (Some 998%Z)
                 (Some "Excedeu o limite de tentativas de consulta (erro 0160)."))
              (tb_de_documento w1))
         (next_tick
            (set_emissao
               (map (Db.update_row id
                       [(Db.xml_retorno_, Some retorno); (Db.cod_status_, Some "998");
                        (Db.desc_status_,
                         Some "Excedeu o limite de tentativas de consulta (erro 0160).")])
                    (tb_de_emissao w1))
               (next_tick w1))))).
Proof.
  intros Hsend Hparse H0160 Hloads Hget Hn Hrun id. subst id.
  unfold handle_consultar_try in Hrun.
  step Hrun. rewrite Hsend in Hstep. injection Hstep as <- <-.
  step Hrun. apply lift_Ok in Hstep as [Hr ->]. rewrite Hparse in Hr. injection Hr as <-.
  rewrite H0160 in Hrun.
  step Hrun. apply lift_Ok in Hstep as [Hl ->]. rewrite Hloads in Hl. injection Hl as <-.
  step Hrun. apply lift_Ok in Hstep as [Hg ->]. rewrite Hget in Hg. injection Hg as <-.
  step Hrun. apply lift_Ok in Hstep as [Hlt ->].
  rewrite (lt_int_as _ _ Hn) in Hlt. injection Hlt as <-.
  step Hrun. apply basic_ack_Ok in Hrun. subst w'.
  destruct (n <? 10)%Z.
  - apply bind_Ok in Hstep as (mais_um & wa & Ha & Hstep).
    apply bind_Ok in Hstep as (dados' & wb & Hb & Hstep).
    apply bind_Ok in Hstep as (u & wc & Hc & Hstep).
    assert (Hpub : wc = emit (poll_message (Db.id_docfis emissao) (n + 1)) (next_tick w1)).
    { apply (reagendar_Ok _ dados t n _ _ u Hget Hn).
      unfold bind. rewrite Ha, Hb. exact Hc. }
    step Hstep. apply update_tb_de_emissao_Ok in Hstep0.
    step Hstep. apply update_tb_de_documento_Ok in Hstep1.
    apply ret_Ok in Hstep as [_ ->]. subst. reflexivity.
  - step Hstep. apply update_tb_de_emissao_Ok in Hstep0.
    step Hstep. apply update_tb_de_documento_Ok in Hstep1.
    apply ret_Ok in Hstep as [_ ->]. subst. reflexivity.
Qed.

(** The world a poll leaves after an answer that is neither the transient
    one, nor approved, nor rejected. *)
Lemma consultar_pendente_run (E : Env) (tag : Z) (emissao : Db.emissao) (b : body)
    (w w1 w' : world) (retorno : string) (retorno_root : xml) (dados t : json) (n : Z) :
  consultar_lote_sifen E (Db.protocolo emissao) (Db.caminho_certificado emissao)
    (Db.senha emissao) w = (Ok retorno, w1) ->
  fromstring E (Py.encode_utf8 retorno) = Ok retorno_root ->
  is_0160 retorno_root = false ->
  is_aprovado retorno_root = false ->
  is_rejeitado retorno_root = false ->
  json_loads b = Ok dados ->
  dict_get dados "tentativas" (JInt 1) = Ok t ->
  as_int t = Some n ->
  handle_consultar_try E tag emissao b w = (Ok tt, w') ->
  let id := Db.id_docfis emissao in
  w' =
  if (n <? 10)%Z then
    emit (Ack tag) (next_tick (emit (poll_message id (n + 1)) (next_tick w1)))
  else
    emit (Ack tag) (next_tick
      (set_documento
         (map (Db.update_doc_row id (Some 998%Z)
                 (Some "Excedeu o limite de tentativas de consulta."))
              (tb_de_documento w1))
         (next_tick
            (set_emissao
               (map (Db.update_row id
                       [(Db.xml_retorno_, Some retorno); (Db.cod_status_, Some "998");
                        (Db.desc_status_,
                         Some "Excedeu o limite de tentativas de consulta.")])
                    (tb_de_emissao w1))
               (next_tick w1))))).
Proof.
  intros Hsend Hparse H0160 Hap Hrej Hloads Hget Hn Hrun id. subst id.
  unfold handle_consultar_try in Hrun.
  step Hrun. rewrite Hsend in Hstep. injection Hstep as <- <-.
  step Hrun. apply lift_Ok in Hstep as [Hr ->]. rewrite Hparse in Hr. injection Hr as <-.
  rewrite H0160 in Hrun.
  step Hrun. apply basic_ack_Ok in Hrun. subst w'.
  rewrite Hap, Hrej in Hstep.
  step Hstep. apply lift_Ok in Hstep0 as [Hl ->]. rewrite Hloads in Hl. injection Hl as <-.
  step Hstep. apply lift_Ok in Hstep0 as [Hg ->]. rewrite Hget in Hg. injection Hg as <-.
  step Hstep. apply lift_Ok in Hstep0 as [Hlt ->].
  rewrite (lt_int_as _ _ Hn) in Hlt. injection Hlt as <-.
  destruct (n <? 10)%Z.
  - apply (reagendar_Ok _ dados t n _ _ _ Hget Hn) in Hstep. subst. reflexivity.
  - step Hstep. apply update_tb_de_emissao_Ok in Hstep0.
    step Hstep. apply update_tb_de_documento_Ok in Hstep1.
    apply ret_Ok in Hstep as [_ ->]. subst. reflexivity.
Qed.

Lemma consulta_frame (E : Env) (protocolo cert_path cert_pass : string)
    (w w1 : world) (r : result string) :
  consultar_lote_sifen E protocolo cert_path cert_pass w = (r, w1) ->
  tb_de_emissao w1 = tb_de_emissao w /\ tb_de_documento w1 = tb_de_documento w
  /\ channel w1 = channel w.
Proof. apply make_sifen_request_frame. Qed.

Lemma handle_consultar_total (E : Env) (tag : Z) (emissao : Db.emissao)
    (documento : Db.documento) (b : body) (w w' : world) :
  handle_consultar_try E tag emissao b w = (Ok tt, w') ->
  handle_consultar E tag emissao documento b w = (Ok tt, w').
Proof. intros H. unfold handle_consultar, try_except. now rewrite H. Qed.

(** C2. When the poll handler runs to the end of its [try] block on an
    answer that is still pending (the transient 0160, or neither approved
    nor rejected) and the message carries the integer [n] as [tentativas]
    (1 when the field is absent): if [n < 10] the channel received exactly
    one message for the delay queue, a poll with [tentativas = n + 1]; if
    [10 <= n] every emission row and every header row of the document
    holds the code 998 with the exceeded-retries description and nothing
    was published; in both cases the message was acked. *)
Theorem poll_pending_reschedules_until_limit (E : Env) (tag : Z)
    (emissao : Db.emissao) (documento : Db.documento) (b : body)
    (w w1 w' : world) (retorno : string) (retorno_root : xml) (dados t : json) (n : Z) :
  consultar_lote_sifen E (Db.protocolo emissao) (Db.caminho_certificado emissao)
    (Db.senha emissao) w = (Ok retorno, w1) ->
  fromstring E (Py.encode_utf8 retorno) = Ok retorno_root ->
  is_0160 retorno_root = true
  \/ (is_aprovado retorno_root = false /\ is_rejeitado retorno_root = false) ->
  json_loads b = Ok dados ->
  dict_get dados "tentativas" (JInt 1) = Ok t ->
  as_int t = Some n ->
  handle_consultar_try E tag emissao b w = (Ok tt, w') ->
  let id := Db.id_docfis emissao in
  let excedeu :=
    if is_0160 retorno_root
    then "Excedeu o limite de tentativas de consulta (erro 0160)."
    else "Excedeu o limite de tentativas de consulta." in
  ((n < 10)%Z ->
     channel w'
     = (channel w
        ++ [ Publish "" "faturas_wait_30s"
               (Json (JDict [("id_fatura", JInt id); ("acao", JStr "consultar");
                             ("tentativas", JInt (n + 1))])) 2;
             Ack tag ])%list)
  /\ ((10 <= n)%Z ->
        (forall r, In r (tb_de_emissao w') -> r_id_docfis r = id ->
           r_cod_status r = Some "998" /\ r_desc_status r = Some excedeu)
        /\ (forall d, In d (tb_de_documento w') -> d_id_doc d = id ->
              d_cod_status d = Some 998%Z /\ d_desc_status d = Some excedeu)
        /\ channel w' = (channel w ++ [Ack tag])%list)
  /\ handle_consultar E tag emissao documento b w = (Ok tt, w').
Proof.
  intros Hsend Hparse Hpend Hloads Hget Hn Hrun id excedeu.
  pose proof (handle_consultar_total E tag emissao documento b w w' Hrun) as Hall.
  pose proof (consulta_frame _ _ _ _ _ _ _ Hsend) as (_ & _ & Hc).
  destruct (is_0160 retorno_root) eqn:H0160.
  - pose proof (consultar_0160_run E tag emissao b w w1 w' retorno retorno_root
                  dados t n Hsend Hparse H0160 Hloads Hget Hn Hrun) as Hw.
    cbv zeta in Hw. split; [|split; [|exact Hall]].
    + intros Hlt. apply Z.ltb_lt in Hlt. rewrite Hlt in Hw. subst w'.
      simpl. rewrite Hc, <- List.app_assoc. reflexivity.
    + intros Hge. apply Z.ltb_ge in Hge. rewrite Hge in Hw. subst w'.
      simpl. split; [|split].
      * intros r Hin Hid. apply in_update_row in Hin as (r0 & _ & _ & ->); [|exact Hid].
        simpl. auto.
      * intros d Hin Hid. apply (in_update_doc_row _ _ _ _ _ Hin Hid).
      * now rewrite Hc.
  - destruct Hpend as [Hp | [Hap Hrej]]; [discriminate Hp|].
    pose proof (consultar_pendente_run E tag emissao b w w1 w' retorno retorno_root
                  dados t n Hsend Hparse H0160 Hap Hrej Hloads Hget Hn Hrun) as Hw.
    cbv zeta in Hw. split; [|split; [|exact Hall]].
    + intros Hlt. apply Z.ltb_lt in Hlt. rewrite Hlt in Hw. subst w'.
      simpl. rewrite Hc, <- List.app_assoc. reflexivity.
    + intros Hge. apply Z.ltb_ge in Hge. rewrite Hge in Hw. subst w'.
      simpl. split; [|split].
      * intros r Hin Hid. apply in_update_row in Hin as (r0 & _ & _ & ->); [|exact Hid].
        simpl. auto.
      * intros d Hin Hid. apply (in_update_doc_row _ _ _ _ _ Hin Hid).
      * now rewrite Hc.
Qed.

Lemma poll_pending_reschedules_until_limit_witness :
  channel (snd (handle_consultar_try Toy.env_pendente 11 Toy.emissao7 (Toy.poll 3) Toy.w0))
  = [ Publish "" "faturas_wait_30s"
        (Json (JDict [("id_fatura", JInt 7); ("acao", JStr "consultar");
                      ("tentativas", JInt 4)])) 2;
      Ack 11 ].
Proof.
  refine (proj1
    (poll_pending_reschedules_until_limit Toy.env_pendente 11 Toy.emissao7 Toy.documento7
       (Toy.poll 3) Toy.w0 (Corrida.w_consulta Toy.env_pendente)
       (snd (handle_consultar_try Toy.env_pendente 11 Toy.emissao7 (Toy.poll 3) Toy.w0))
       (text Toy.resposta_pendente) Toy.arvore_pendente
       (JDict [("id_fatura", JInt 7); ("acao", JStr "consultar"); ("tentativas", JInt 3)])
       (JInt 3) 3 _ _ _ _ _ _ _) _).
  - vm_compute. reflexivity.
  - vm_compute. reflexivity.
  - right. split; vm_compute; reflexivity.
  - reflexivity.
  - reflexivity.
  - reflexivity.
  - vm_compute. reflexivity.
  - lia.
Defined.

(** C6. When the poll handler runs to the end of its [try] block on an
    answer whose code is "0160" and whose message is exactly
    "XML Mal Formado.", whatever else the answer says: if the attempts [n]
    of the message are below the limit of 10, every emission row of the
    document holds the raw answer, the code "900" and the reprocessing
    description, every header row holds 900 and that description, and one
    poll with [tentativas = n + 1] went to the delay queue before the ack;
    from 10 attempts on nothing is published and the code is 998. *)
Theorem poll_0160_reparks_within_limit (E : Env) (tag : Z)
    (emissao : Db.emissao) (b : body)
    (w w1 w' : world) (retorno : string) (retorno_root : xml) (dados t : json) (n : Z) :
  consultar_lote_sifen E (Db.protocolo emissao) (Db.caminho_certificado emissao)
    (Db.senha emissao) w = (Ok retorno, w1) ->
  fromstring E (Py.encode_utf8 retorno) = Ok retorno_root ->
  codigo_resposta retorno_root = "0160" ->
  Py.strip (msg_lote retorno_root) = "XML Mal Formado." ->
  json_loads b = Ok dados ->
  dict_get dados "tentativas" (JInt 1) = Ok t ->
  as_int t = Some n ->
  handle_consultar_try E tag emissao b w = (Ok tt, w') ->
  let id := Db.id_docfis emissao in
  ((n < MAX_TENTATIVAS_CONSULTA)%Z ->
     (forall r, In r (tb_de_emissao w') -> r_id_docfis r = id ->
        r_xml_retorno r = Some retorno
        /\ r_cod_status r = Some "900"
        /\ r_desc_status r = Some "Reprocessando consulta")
     /\ (forall d, In d (tb_de_documento w') -> d_id_doc d = id ->
           d_cod_status d = Some 900%Z
           /\ d_desc_status d = Some "Reprocessando consulta")
     /\ channel w'
        = (channel w
           ++ [ Publish "" "faturas_wait_30s"
                  (Json (JDict [("id_fatura", JInt id); ("acao", JStr "consultar");
                                ("tentativas", JInt (n + 1))])) 2;
                Ack tag ])%list)
  /\ ((MAX_TENTATIVAS_CONSULTA <= n)%Z ->
        (forall r, In r (tb_de_emissao w') -> r_id_docfis r = id ->
           r_cod_status r = Some "998")
        /\ (forall d, In d (tb_de_documento w') -> d_id_doc d = id ->
              d_cod_status d = Some 998%Z)
        /\ channel w' = (channel w ++ [Ack tag])%list).
Proof.
  intros Hsend Hparse Hcod Hmsg Hloads Hget Hn Hrun id.
  assert (H0160 : is_0160 retorno_root = true).
  { unfold is_0160. rewrite Hcod, Hmsg. reflexivity. }
  pose proof (consulta_frame _ _ _ _ _ _ _ Hsend) as (_ & _ & Hc).
  pose proof (consultar_0160_run E tag emissao b w w1 w' retorno retorno_root
                dados t n Hsend Hparse H0160 Hloads Hget Hn Hrun) as Hw.
  cbv zeta in Hw. unfold MAX_TENTATIVAS_CONSULTA. split.
  - intros Hlt. apply Z.ltb_lt in Hlt. rewrite Hlt in Hw. subst w'.
    simpl. split; [|split].
    + intros r Hin Hid. apply in_update_row in Hin as (r0 & _ & _ & ->); [|exact Hid].
      simpl. auto.
    + intros d Hin Hid. apply (in_update_doc_row _ _ _ _ _ Hin Hid).
    + rewrite Hc, <- List.app_assoc. reflexivity.
  - intros Hge. apply Z.ltb_ge in Hge. rewrite Hge in Hw. subst w'.
    simpl. split; [|split].
    + intros r Hin Hid. apply in_update_row in Hin as (r0 & _ & _ & ->); [|exact Hid].
      simpl. auto.
    + intros d Hin Hid. apply (in_update_doc_row _ _ _ _ _ Hin Hid).
    + now rewrite Hc.
Qed.

Lemma poll_0160_reparks_within_limit_witness :
  channel (snd (handle_consultar_try Toy.env_0160 11 Toy.emissao7 (Toy.poll 3) Toy.w0))
  = [ Publish "" "faturas_wait_30s"
        (Json (JDict [("id_fatura", JInt 7); ("acao", JStr "consultar");
                      ("tentativas", JInt 4)])) 2;
      Ack 11 ].
Proof.
  refine (proj2 (proj2 (proj1
    (poll_0160_reparks_within_limit Toy.env_0160 11 Toy.emissao7
       (Toy.poll 3) Toy.w0 (Corrida.w_consulta Toy.env_0160)
       (snd (handle_consultar_try Toy.env_0160 11 Toy.emissao7 (Toy.poll 3) Toy.w0))
       (text Toy.resposta_0160) Toy.arvore_0160
       (JDict [("id_fatura", JInt 7); ("acao", JStr "consultar"); ("tentativas", JInt 3)])
       (JInt 3) 3 _ _ _ _ _ _ _ _) _))).
  - vm_compute. reflexivity.
  - vm_compute. reflexivity.
  - vm_compute. reflexivity.
  - vm_compute. reflexivity.
  - reflexivity.
  - reflexivity.
  - reflexivity.
  - vm_compute. reflexivity.
  - reflexivity.
Defined.

(** The third scenario of the specification on the stand-in: at ten
    attempts the transient answer ends the chain with 998 and no message. *)
Example poll_0160_exhausted_exemplo :
  let w' := snd (handle_consultar Toy.env_0160 11 Toy.emissao7 Toy.documento7
                   (Toy.poll 10) Toy.w0) in
  map r_cod_status (tb_de_emissao w') = [Some "998"; Some "0260"]
  /\ map d_cod_status (tb_de_documento w') = [Some 998%Z; Some 260%Z]
  /\ channel w' = [Ack 11].
Proof. vm_compute. repeat split. Qed.

(** An answer that says both "Rechazado" and the transient 0160 is parked
    again, not recorded as a rejection. *)
Example poll_0160_rechazado_exemplo :
  let arvore :=
    Toy.envelope [Element SIFEN_NS "rRetEnviDe" [] [] None
                    [Toy.campo "dEstRes" "Rechazado"; Toy.campo "dCodRes" "0160";
                     Toy.campo "dMsgRes" "XML Mal Formado."]] in
  let w' := snd (handle_consultar (Toy.env Toy.resposta_0160 (Ok arvore)) 11
                   Toy.emissao7 Toy.documento7 (Toy.poll 3) Toy.w0) in
  is_rejeitado arvore = true
  /\ map r_cod_status (tb_de_emissao w') = [Some "900"; Some "0260"]
  /\ channel w'
     = [ Publish "" "faturas_wait_30s"
           (Json (JDict [("id_fatura", JInt 7); ("acao", JStr "consultar");
                         ("tentativas", JInt 4)])) 2;
         Ack 11 ].
Proof. vm_compute. repeat split. Qed.

Lemma em_codigos_sucesso_spec (cod_res : option string) :
  em_codigos_sucesso cod_res = true
  <-> exists c, cod_res = Some c /\ In c ["0500"; "0501"; "0600"].
Proof.
  unfold em_codigos_sucesso. destruct cod_res as [c|].
  - unfold CODIGOS_SUCESSO_CANCELAMENTO. rewrite existsb_exists. split.
    + intros (x & Hin & Hx). apply String.eqb_eq in Hx. subst x. now exists c.
    + intros (x & Hx & Hin). injection Hx as <-. exists c. split; [exact Hin|].
      apply String.eqb_refl.
  - split; [discriminate | intros (c & Hc & _); discriminate].
Qed.

(** Once the event is built and posted, the [try] block of the cancel
    handler is the processing of the answer. *)
Lemma handle_cancelar_reaches (E : Env) (tag : Z) (emissao : Db.emissao)
    (dados motivo : json) (w w1 : world) (cdc ev retorno : string) :
  extrair_cdc_do_xml E (Db.xml_assinado emissao) = Some cdc ->
  cdc <> "" ->
  dict_get dados "motivo" (JStr "Solicitud de cancelacion") = Ok motivo ->
  gerar_evento_assinado_wsdl E cdc motivo (Db.caminho_certificado emissao)
    (Db.senha emissao) = Ok ev ->
  enviar_evento_cancelamento E ev "WSDL-GEN" (Db.caminho_certificado emissao)
    (Db.senha emissao) w = (Ok retorno, w1) ->
  handle_cancelar_try E tag emissao dados w
  = processar_retorno_cancelamento E tag (Db.id_docfis emissao) ev retorno w1.
Proof.
  intros Hcdc Hne Hmot Hev Hsend. unfold handle_cancelar_try.
  rewrite Hcdc. destruct cdc; [contradiction|]. cbn [Py.truthy negb].
  unfold bind at 1. unfold lift at 1. rewrite Hmot.
  unfold try_or_return at 1. unfold lift at 1. rewrite Hev.
  unfold try_or_return. now rewrite Hsend.
Qed.

(** C8. When the cancel handler has built and posted the event, the answer
    parses and the [try] block runs to its end: if [dCodRes] is one of
    "0500", "0501", "0600" or [dEstRes] is "Aprobado", every emission row of
    the document holds the event sent, the answer, [dCodRes] and the
    cancelled description, and every header row holds 600 and
    "Nota Cancelada"; otherwise the emission rows hold the event, the
    answer, [dCodRes] and the error description, and the header table is
    what it was; in both cases the only channel call is the ack, and
    emission rows of other documents are kept. *)
Theorem cancel_updates_header_only_on_success (E : Env) (tag : Z)
    (emissao : Db.emissao) (documento : Db.documento) (dados motivo : json)
    (w w1 w' : world) (cdc ev retorno : string) (root_ret : xml) :
  extrair_cdc_do_xml E (Db.xml_assinado emissao) = Some cdc ->
  cdc <> "" ->
  dict_get dados "motivo" (JStr "Solicitud de cancelacion") = Ok motivo ->
  gerar_evento_assinado_wsdl E cdc motivo (Db.caminho_certificado emissao)
    (Db.senha emissao) = Ok ev ->
  enviar_evento_cancelamento E ev "WSDL-GEN" (Db.caminho_certificado emissao)
    (Db.senha emissao) w = (Ok retorno, w1) ->
  fromstring E (Py.encode_utf8 retorno) = Ok root_ret ->
  handle_cancelar_try E tag emissao dados w = (Ok tt, w') ->
  let id := Db.id_docfis emissao in
  let cod_res := findtext (AnyNs "dCodRes") root_ret in
  let msg_res := Py.oor_str (findtext (AnyNs "dMsgRes") root_ret) "Sem mensagem" in
  let est_res := Py.oor_str (findtext (AnyNs "dEstRes") root_ret) "" in
  let sucesso :=
    (exists c, cod_res = Some c /\ In c ["0500"; "0501"; "0600"])
    \/ est_res = "Aprobado" in
  (sucesso ->
     (forall r, In r (tb_de_emissao w') -> r_id_docfis r = id ->
        r_xml_cancelamento_envio r = Some ev
        /\ r_xml_cancelamento_retorno r = Some retorno
        /\ r_cod_status r = cod_res
        /\ r_desc_status r = Some ("Cancelado: " ++ msg_res))
     /\ (forall d, In d (tb_de_documento w') -> d_id_doc d = id ->
           d_cod_status d = Some 600%Z /\ d_desc_status d = Some "Nota Cancelada"))
  /\ (~ sucesso ->
        (forall r, In r (tb_de_emissao w') -> r_id_docfis r = id ->
           r_xml_cancelamento_envio r = Some ev
           /\ r_xml_cancelamento_retorno r = Some retorno
           /\ r_cod_status r = cod_res
           /\ r_desc_status r = Some ("Erro no cancelamento: " ++ msg_res))
        /\ tb_de_documento w' = tb_de_documento w)
  /\ (forall r, In r (tb_de_emissao w) -> r_id_docfis r <> id -> In r (tb_de_emissao w'))
  /\ channel w' = (channel w ++ [Ack tag])%list
  /\ handle_cancelar E tag emissao documento dados w = (Ok tt, w').
Proof.
  intros Hcdc Hne Hmot Hev Hsend Hparse Hrun id cod_res msg_res est_res sucesso.
  assert (Hall : handle_cancelar E tag emissao documento dados w = (Ok tt, w')).
  { unfold handle_cancelar, try_except. now rewrite Hrun. }
  rewrite (handle_cancelar_reaches E tag emissao dados motivo w w1 cdc ev retorno
             Hcdc Hne Hmot Hev Hsend) in Hrun.
  apply make_sifen_request_frame in Hsend as (He & Hd & Hc).
  unfold processar_retorno_cancelamento, ler_retorno_cancelamento in Hrun.
  rewrite Hparse in Hrun. fold cod_res msg_res est_res in Hrun.
  step Hrun. apply basic_ack_Ok in Hrun. subst w'.
  assert (Hs : sucesso <-> em_codigos_sucesso cod_res = true
                           \/ String.eqb est_res "Aprobado" = true).
  { unfold sucesso. now rewrite em_codigos_sucesso_spec, String.eqb_eq. }
  destruct (em_codigos_sucesso cod_res) eqn:Hcod;
    [|destruct (String.eqb est_res "Aprobado") eqn:Hest].
  - step Hstep. apply update_tb_de_emissao_Ok in Hstep0.
    step Hstep. apply update_tb_de_documento_Ok in Hstep1.
    apply ret_Ok in Hstep as [_ ->]. subst. simpl.
    split; [|split; [|split; [|split]]].
    + intros _. split.
      * intros r Hin Hid. apply in_update_row in Hin as (r0 & _ & _ & ->); [|exact Hid].
        simpl. auto.
      * intros d Hin Hid. apply (in_update_doc_row _ _ _ _ _ Hin Hid).
    + intros Hn. exfalso. apply Hn, Hs. now left.
    + intros r Hin Hid. apply other_rows_kept; [now rewrite He | exact Hid].
    + now rewrite Hc.
    + exact Hall.
  - step Hstep. apply update_tb_de_emissao_Ok in Hstep0.
    step Hstep. apply update_tb_de_documento_Ok in Hstep1.
    apply ret_Ok in Hstep as [_ ->]. subst. simpl.
    split; [|split; [|split; [|split]]].
    + intros _. split.
      * intros r Hin Hid. apply in_update_row in Hin as (r0 & _ & _ & ->); [|exact Hid].
        simpl. auto.
      * intros d Hin Hid. apply (in_update_doc_row _ _ _ _ _ Hin Hid).
    + intros Hn. exfalso. apply Hn, Hs. now right.
    + intros r Hin Hid. apply other_rows_kept; [now rewrite He | exact Hid].
    + now rewrite Hc.
    + exact Hall.
  - step Hstep. apply update_tb_de_emissao_Ok in Hstep0.
    apply ret_Ok in Hstep as [_ ->]. subst. simpl.
    split; [|split; [|split; [|split]]].
    + intros Hyes. apply Hs in Hyes as [Hyes|Hyes]; discriminate Hyes.
    + intros _. split.
      * intros r Hin Hid. apply in_update_row in Hin as (r0 & _ & _ & ->); [|exact Hid].
        simpl. auto.
      * exact Hd.
    + intros r Hin Hid. apply other_rows_kept; [now rewrite He | exact Hid].
    + now rewrite Hc.
    + exact Hall.
Qed.

Lemma cancel_updates_header_only_on_success_witness :
  let d := nth 0 (tb_de_documento
                    (snd (handle_cancelar_try Toy.env_cancelado 11 Toy.emissao7
                            (Cancelamento.cancelar "Duplicado en sistema") Toy.w0)))
               Toy.doc8 in
  d_cod_status d = Some 600%Z /\ d_desc_status d = Some "Nota Cancelada".
Proof.
  refine (proj2 (proj1
    (cancel_updates_header_only_on_success Toy.env_cancelado 11 Toy.emissao7
       Toy.documento7 (Cancelamento.cancelar "Duplicado en sistema")
       (JStr "Duplicado en sistema") Toy.w0
       (Cancelamento.w_evento Toy.env_cancelado "Duplicado en sistema")
       (snd (handle_cancelar_try Toy.env_cancelado 11 Toy.emissao7
               (Cancelamento.cancelar "Duplicado en sistema") Toy.w0))
       Cancelamento.cdc (Cancelamento.evento "Duplicado en sistema")
       (text Toy.resposta_cancelado) Toy.arvore_cancelado _ _ _ _ _ _ _) _) _ _ _).
  - vm_compute. reflexivity.
  - discriminate.
  - reflexivity.
  - vm_compute. reflexivity.
  - vm_compute. reflexivity.
  - vm_compute. reflexivity.
  - vm_compute. reflexivity.
  - right. reflexivity.
  - vm_compute. left. reflexivity.
  - vm_compute. reflexivity.
Defined.

(** On the stand-in, a refused cancellation leaves the header table alone. *)
Example cancel_refused_exemplo :
  let w' := snd (handle_cancelar Toy.env_recusado 11 Toy.emissao7 Toy.documento7
                   (Cancelamento.cancelar "Duplicado en sistema") Toy.w0) in
  tb_de_documento w' = tb_de_documento Toy.w0
  /\ map r_cod_status (tb_de_emissao w') = [Some "4002"; Some "0260"]
  /\ map r_desc_status (tb_de_emissao w')
     = [Some "Erro no cancelamento: CDC inexistente"; None]
  /\ channel w' = [Ack 11].
Proof. vm_compute. repeat split. Qed.

(** ** The dispatcher *)

(** C10. A message that is a JSON object with a non-zero integer
    [id_fatura] and no [acao] key is read as the action "enviar"; when both
    rows of the document are found, what the dispatcher does with it is the
    submit handler, run on those rows. *)
Theorem message_without_acao_is_submitted (E : Env) (tag k : Z)
    (d : list (string * json)) (row : emissao_row) (drow : documento_row) (w : world) :
  assoc "acao" d = None ->
  assoc "id_fatura" d = Some (JInt k) ->
  k <> 0%Z ->
  faults w (tick w) = false ->
  faults w (S (tick w)) = false ->
  Db.newest k (tb_de_emissao w) = Some row ->
  List.find (fun r => (d_id_doc r =? k)%Z) (tb_de_documento w) = Some drow ->
  rbind (dict_get (JDict d) "acao" (JStr "enviar")) json_lower = Ok "enviar"
  /\ on_message_received_try E tag (Json (JDict d)) w
     = handle_enviar E tag (Db.emissao_of_row row) (Db.documento_of_row drow)
         (next_tick (next_tick w))
  /\ on_message_received E tag (Json (JDict d)) w
     = try_except
         (handle_enviar E tag (Db.emissao_of_row row) (Db.documento_of_row drow))
         (fun _ => Channel.basic_nack tag false)
         (next_tick (next_tick w)).
Proof.
  intros Hacao Hid Hk Hf1 Hf2 Hrow Hdoc.
  assert (Htry : on_message_received_try E tag (Json (JDict d)) w
                 = handle_enviar E tag (Db.emissao_of_row row) (Db.documento_of_row drow)
                     (next_tick (next_tick w))).
  { apply Z.eqb_neq in Hk.
    unfold on_message_received_try, bind, lift, json_loads, dict_get.
    rewrite Hid, Hacao. cbn [json_lower json_truthy bind_id]. rewrite Hk.
    cbn [negb Py.lower Py.lower_char].
    unfold Db.get_tb_de_emissao, Db.get_tb_de_documento, bind, io.
    rewrite Hf1. cbn [tick next_tick faults tb_de_emissao tb_de_documento].
    rewrite Hrow. cbn [option_map tick next_tick faults tb_de_emissao tb_de_documento].
    rewrite Hf2. cbn [tick next_tick faults tb_de_emissao tb_de_documento].
    rewrite Hdoc. reflexivity. }
  split; [|split].
  - simpl. now rewrite Hacao.
  - exact Htry.
  - unfold on_message_received, try_except. now rewrite Htry.
Qed.

(** The message [processa_fatura] publishes has this shape. *)
Lemma processa_fatura_message (id_fatura : Z) (w w' : world) :
  Publisher.processa_fatura id_fatura w = (Ok tt, w') ->
  channel w'
  = (channel w
     ++ [Publish "" "faturas_para_processar"
           (Json (JDict [("id_fatura", JInt id_fatura)])) 2])%list.
Proof.
  unfold Publisher.processa_fatura, Publisher.abrir_canal. intros H.
  step H. apply io_Ok in Hstep as [_ ->].
  apply basic_publish_Ok in H. subst. reflexivity.
Qed.

Lemma message_without_acao_is_submitted_witness :
  on_message_received Toy.env_envio 11 (Json (JDict [("id_fatura", JInt 7)])) Toy.w0
  = try_except
      (handle_enviar Toy.env_envio 11 Toy.emissao7 Toy.documento7)
      (fun _ => Channel.basic_nack 11 false)
      (next_tick (next_tick Toy.w0)).
Proof.
  refine (proj2 (proj2
    (message_without_acao_is_submitted Toy.env_envio 11 7 [("id_fatura", JInt 7)]
       Toy.row7 Toy.doc7 Toy.w0 _ _ _ _ _ _ _))).
  - reflexivity.
  - reflexivity.
  - discriminate.
  - reflexivity.
  - reflexivity.
  - reflexivity.
  - reflexivity.
Defined.

(** The whole path on the stand-in: the message of [processa_fatura] ends in
    a scheduled poll and an ack. *)
Example submit_message_exemplo :
  channel (snd (on_message_received Toy.env_envio 11
                  (Json (JDict [("id_fatura", JInt 7)])) Toy.w0))
  = [ Publish "" "faturas_wait_30s"
        (Json (JDict [("id_fatura", JInt 7); ("acao", JStr "consultar");
                      ("tentativas", JInt 1)])) 2;
      Ack 11 ].
Proof. vm_compute. reflexivity. Qed.

(** ** The reason of a cancellation *)

Lemma gerar_evento_ok (E : Env) (cdc m cert_path cert_pass ev : string) :
  gerar_evento_assinado_wsdl E cdc (JStr m) cert_path cert_pass = Ok ev ->
  exists key_pem cert_pem signed_rEve,
    pfx_to_pem E cert_path cert_pass = Ok (key_pem, cert_pem)
    /\ xml_sign E (rEve (now E) cdc (Some m)) key_pem cert_pem "#1" false
       = Ok signed_rEve.
Proof.
  unfold gerar_evento_assinado_wsdl. intros H.
  apply rbind_ok in H as ([key cert] & Hp & H).
  apply rbind_ok in H as (da & Hda & H).
  apply rbind_ok in H as (ct & Hct & H).
  apply rbind_ok in H as (mt & Hmt & H).
  apply rbind_ok in H as (sg & Hsg & _).
  unfold checked_text in Hda, Hct.
  destruct (xml_compatible (now E)); [|discriminate]. injection Hda as <-.
  destruct (xml_compatible cdc); [|discriminate]. injection Hct as <-.
  unfold motivo_text, checked_text in Hmt.
  destruct (xml_compatible m); [|discriminate]. simpl in Hmt. injection Hmt as <-.
  exists key, cert, sg. auto.
Qed.

(** C9, as the code has it. The length of the reason is checked by the
    publisher alone: [processa_cancelamento] raises, with no broker
    activity, for a reason that is missing, empty or shorter than five
    characters. The cancel handler of the worker takes the reason of the
    message as it is (the text "Solicitud de cancelacion" when the field is
    absent), signs an event that carries it and posts that event to SIFEN,
    whatever its length. *)
Theorem cancel_reason_checked_by_publisher_only (E : Env) (tag : Z)
    (emissao : Db.emissao) (dados : json) (w : world) (cdc m ev : string) :
  extrair_cdc_do_xml E (Db.xml_assinado emissao) = Some cdc ->
  cdc <> "" ->
  dict_get dados "motivo" (JStr "Solicitud de cancelacion") = Ok (JStr m) ->
  gerar_evento_assinado_wsdl E cdc (JStr m) (Db.caminho_certificado emissao)
    (Db.senha emissao) = Ok ev ->
  (exists key_pem cert_pem signed_rEve,
     xml_sign E (rEve (now E) cdc (Some m)) key_pem cert_pem "#1" false = Ok signed_rEve)
  /\ (exists out w1,
        enviar_evento_cancelamento E ev "WSDL-GEN" (Db.caminho_certificado emissao)
          (Db.senha emissao) w = (out, w1)
        /\ http_log w1
           = (http_log w
              ++ [(URL_SIFEN_EVENTO E,
                   Py.encode_utf8
                     (envelope_evento (Py.str_of_Z (time_ms E))
                        (Py.strip (Py.replace XML_HEADER "" ev))))])%list
        /\ handle_cancelar_try E tag emissao dados w
           = match out with
             | Ok retorno =>
                 processar_retorno_cancelamento E tag (Db.id_docfis emissao) ev retorno w1
             | Exc _ => Channel.basic_nack tag false w1
             end)
  /\ (forall (id_fatura : Z) (motivo : option string) (wp : world),
        motivo = None \/ (exists s, motivo = Some s /\ String.length s < 5) ->
        Publisher.processa_cancelamento id_fatura motivo wp = (Exc ValueError, wp)).
Proof.
  intros Hcdc Hne Hmot Hev.
  destruct (gerar_evento_ok _ _ _ _ _ _ Hev) as (key & cert & sg & Hp & Hsg).
  split; [eauto|]. split.
  - destruct (enviar_evento_cancelamento E ev "WSDL-GEN" (Db.caminho_certificado emissao)
                (Db.senha emissao) w) as [out w1] eqn:Hsend.
    exists out, w1. split; [reflexivity|]. split.
    + unfold enviar_evento_cancelamento, _make_sifen_request, bind, lift, modify in Hsend.
      rewrite Hp in Hsend. cbv iota beta in Hsend.
      destruct (requests_post E _ _ cert key) as [r|e];
        injection Hsend as _ <-; reflexivity.
    + unfold handle_cancelar_try. rewrite Hcdc.
      destruct cdc; [contradiction|]. cbn [Py.truthy negb].
      unfold bind at 1. unfold lift at 1. rewrite Hmot.
      unfold try_or_return at 1. unfold lift at 1. rewrite Hev.
      unfold try_or_return. rewrite Hsend. now destruct out.
  - intros id_fatura motivo wp [-> | (s & -> & Hlen)]; [reflexivity|].
    unfold Publisher.processa_cancelamento.
    apply Nat.ltb_lt in Hlen. rewrite Hlen, orb_true_r. reflexivity.
Qed.

Lemma cancel_reason_checked_by_publisher_only_witness :
  exists key_pem cert_pem signed_rEve,
    xml_sign Toy.env_cancelado
      (rEve (now Toy.env_cancelado) Cancelamento.cdc (Some "foo"))
      key_pem cert_pem "#1" false = Ok signed_rEve.
Proof.
  refine (proj1
    (cancel_reason_checked_by_publisher_only Toy.env_cancelado 11 Toy.emissao7
       (Cancelamento.cancelar "foo") Toy.w0 Cancelamento.cdc "foo"
       (Cancelamento.evento "foo") _ _ _ _)).
  - vm_compute. reflexivity.
  - discriminate.
  - reflexivity.
  - vm_compute. reflexivity.
Defined.

(** C9, as the specification words it, fails: the worker receives a cancel
    message whose reason "foo" has three characters; it builds the event
    with that reason, posts it to the event endpoint, stores it on the
    emission row, marks the document cancelled and acks. *)
Lemma cancel_short_reason_counterexample :
  let w' := snd (on_message_received Toy.env_cancelado 11
                   (Json (Cancelamento.cancelar "foo")) Toy.w0) in
  String.length "foo" < 5
  /\ Py.contains "<mOtEve>foo</mOtEve>" (Cancelamento.evento "foo") = true
  /\ http_log w'
     = [(Some "https://sifen.test/evento",
         Py.encode_utf8 (envelope_evento "1704190272000" (Cancelamento.evento "foo")))]
  /\ map r_xml_cancelamento_envio (tb_de_emissao w')
     = [Some (Cancelamento.evento "foo"); None]
  /\ map d_cod_status (tb_de_documento w') = [Some 600%Z; Some 260%Z]
  /\ channel w' = [Ack 11].
Proof. vm_compute. repeat split. lia. Qed.

(* ================================================================== *)
(** * Further properties of the worker *)
(* ================================================================== *)

(** ** What runs add to a log *)

Section Appends.

Context {X : Type} (proj : world -> list X) (P : X -> Prop).

Lemma appends_le {A} (n n' : nat) (m : M A) :
  appends proj P n m -> n <= n' -> appends proj P n' m.
Proof.
  intros H Hle w r w' Hrun. destruct (H w r w' Hrun) as (l & H1 & H2 & H3).
  exists l. repeat split; [exact H1 | exact H2 | lia].
Qed.

Lemma appends_ret {A} (a : A) : appends proj P 0 (ret a).
Proof.
  intros w r w' H. injection H as _ <-. exists []. rewrite List.app_nil_r. auto.
Qed.

Lemma appends_raise {A} (e : exn) : appends proj P 0 (@raise A e).
Proof.
  intros w r w' H. injection H as _ <-. exists []. rewrite List.app_nil_r. auto.
Qed.

Lemma appends_lift {A} (x : result A) : appends proj P 0 (lift x).
Proof.
  intros w r w' H. injection H as _ <-. exists []. rewrite List.app_nil_r. auto.
Qed.

Lemma appends_bind {A B} (n1 n2 : nat) (m : M A) (k : A -> M B) :
  appends proj P n1 m -> (forall a, appends proj P n2 (k a)) ->
  appends proj P (n1 + n2) (bind m k).
Proof.
  intros Hm Hk w r w' Hrun. unfold bind in Hrun.
  destruct (m w) as [[a|e] w1] eqn:Hmw.
  - destruct (Hm _ _ _ Hmw) as (l1 & E1 & F1 & L1).
    destruct (Hk a _ _ _ Hrun) as (l2 & E2 & F2 & L2).
    exists (l1 ++ l2)%list. rewrite E2, E1, List.app_assoc, List.length_app.
    repeat split; [apply Forall_app; auto | lia].
  - injection Hrun as <- <-.
    destruct (Hm _ _ _ Hmw) as (l1 & E1 & F1 & L1).
    exists l1. repeat split; [exact E1 | exact F1 | lia].
Qed.

Lemma appends_try_or_return {A B} (n1 n2 n3 : nat) (m : M A) (h : exn -> M B)
    (k : A -> M B) :
  appends proj P n1 m -> (forall e, appends proj P n2 (h e)) ->
  (forall a, appends proj P n3 (k a)) ->
  appends proj P (n1 + Nat.max n2 n3) (try_or_return m h k).
Proof.
  intros Hm Hh Hk w r w' Hrun. unfold try_or_return in Hrun.
  destruct (m w) as [[a|e] w1] eqn:Hmw;
    destruct (Hm _ _ _ Hmw) as (l1 & E1 & F1 & L1).
  - destruct (Hk a _ _ _ Hrun) as (l2 & E2 & F2 & L2).
    exists (l1 ++ l2)%list. rewrite E2, E1, List.app_assoc, List.length_app.
    repeat split; [apply Forall_app; auto | lia].
  - destruct (Hh e _ _ _ Hrun) as (l2 & E2 & F2 & L2).
    exists (l1 ++ l2)%list. rewrite E2, E1, List.app_assoc, List.length_app.
    repeat split; [apply Forall_app; auto | lia].
Qed.

Lemma appends_try_except {A} (n1 n2 : nat) (m : M A) (h : exn -> M A) :
  appends proj P n1 m -> (forall e, appends proj P n2 (h e)) ->
  appends proj P (n1 + n2) (try_except m h).
Proof.
  intros Hm Hh w r w' Hrun. unfold try_except in Hrun.
  destruct (m w) as [[a|e] w1] eqn:Hmw;
    destruct (Hm _ _ _ Hmw) as (l1 & E1 & F1 & L1).
  - injection Hrun as <- <-. exists l1. repeat split; [exact E1 | exact F1 | lia].
  - destruct (Hh e _ _ _ Hrun) as (l2 & E2 & F2 & L2).
    exists (l1 ++ l2)%list. rewrite E2, E1, List.app_assoc, List.length_app.
    repeat split; [apply Forall_app; auto | lia].
Qed.

Lemma appends_if {A} (n1 n2 : nat) (c : bool) (x y : M A) :
  appends proj P n1 x -> appends proj P n2 y ->
  appends proj P (Nat.max n1 n2) (if c then x else y).
Proof.
  intros Hx Hy. destruct c; [apply (appends_le n1) | apply (appends_le n2)]; auto; lia.
Qed.

(** A step that leaves the log alone. *)
Lemma appends_same {A} (m : M A) :
  (forall w r w', m w = (r, w') -> proj w' = proj w) -> appends proj P 0 m.
Proof.
  intros H w r w' Hrun. exists []. rewrite List.app_nil_r, (H _ _ _ Hrun). auto.
Qed.

End Appends.

(** The statements of [database.py] and the requests of [sifen_api.py] leave
    the channel alone; the statements and the channel calls leave the list
    of requests alone. *)
Lemma io_same (e : exn) (w w' : world) (r : result unit) :
  io e w = (r, w') -> w' = next_tick w.
Proof. unfold io. destruct (faults w (tick w)); intros H; now injection H as _ <-. Qed.

Lemma update_tb_de_emissao_same (k : Z) (kwargs : list (Db.campo * option string))
    (w w' : world) (r : result Z) :
  Db.update_tb_de_emissao k kwargs w = (r, w') ->
  channel w' = channel w /\ http_log w' = http_log w
  /\ tb_de_documento w' = tb_de_documento w
  /\ (tb_de_emissao w' = tb_de_emissao w
      \/ tb_de_emissao w' = map (Db.update_row k kwargs) (tb_de_emissao w)).
Proof.
  unfold Db.update_tb_de_emissao. destruct kwargs as [|kv kwargs].
  - intros H. injection H as _ <-. auto.
  - unfold bind, io. destruct (faults w (tick w)); intros H; injection H as _ <-;
      simpl; auto.
Qed.

Lemma update_tb_de_documento_same (k : Z) (cod : option Z) (desc : option string)
    (w w' : world) (r : result Z) :
  Db.update_tb_de_documento k cod desc w = (r, w') ->
  channel w' = channel w /\ http_log w' = http_log w
  /\ tb_de_emissao w' = tb_de_emissao w
  /\ (tb_de_documento w' = tb_de_documento w
      \/ tb_de_documento w' = map (Db.update_doc_row k cod desc) (tb_de_documento w)).
Proof.
  unfold Db.update_tb_de_documento.
  destruct cod as [c|]; [|destruct desc as [s|]];
    try (intros H; injection H as _ <-; now auto);
    unfold bind, io; destruct (faults w (tick w)); intros H; injection H as _ <-;
      simpl; auto.
Qed.

Lemma get_tb_de_emissao_same (k : Z) (w w' : world) (r : result (option Db.emissao)) :
  Db.get_tb_de_emissao k w = (r, w') -> w' = next_tick w.
Proof.
  unfold Db.get_tb_de_emissao, bind, io.
  destruct (faults w (tick w)); intros H; now injection H as _ <-.
Qed.

Lemma get_tb_de_documento_same (k : Z) (w w' : world) (r : result (option Db.documento)) :
  Db.get_tb_de_documento k w = (r, w') -> w' = next_tick w.
Proof.
  unfold Db.get_tb_de_documento, bind, io.
  destruct (faults w (tick w)); intros H; now injection H as _ <-.
Qed.

Lemma channel_call_same (e : chan_event) (w w' : world) (r : result unit) :
  bind (io ChannelError) (fun _ => modify (emit e)) w = (r, w') ->
  http_log w' = http_log w /\ tb_de_emissao w' = tb_de_emissao w
  /\ tb_de_documento w' = tb_de_documento w
  /\ ((exists u, r = Ok u) /\ channel w' = (channel w ++ [e])%list
      \/ (exists x, r = Exc x) /\ channel w' = channel w).
Proof.
  unfold bind, io, modify. destruct (faults w (tick w)); intros H;
    injection H as <- <-; simpl; repeat split; eauto.
Qed.

(** ** Every delivery is answered once *)

Lemma channel_basic_publish (x rk : string) (b : body) (dm : Z) (w w' : world)
    (r : result unit) :
  Channel.basic_publish x rk b dm w = (r, w') ->
  (exists u, r = Ok u) /\ channel w' = (channel w ++ [Publish x rk b dm])%list
  \/ (exists e, r = Exc e) /\ channel w' = channel w.
Proof. intros H. now apply channel_call_same in H as (_ & _ & _ & H). Qed.

Lemma poll_agendar_consulta (id_fatura : Z) (dados : json) :
  appends channel is_poll 1 (agendar_consulta id_fatura dados).
Proof.
  intros w r w' H. unfold agendar_consulta, bind, lift in H.
  destruct (dict_get dados "tentativas" (JInt 1)) as [t|e].
  - apply channel_basic_publish in H as [[_ ->] | [_ ->]].
    + eexists [_]. split; [reflexivity|]. split; [|simpl; lia].
      constructor; [|constructor]. now eexists.
    + exists []. rewrite List.app_nil_r. auto.
  - injection H as _ <-. exists []. rewrite List.app_nil_r. auto.
Qed.

Lemma quiet_update_tb_de_emissao {X} (proj : world -> list X) (P : X -> Prop)
    (k : Z) (kwargs : list (Db.campo * option string)) :
  (forall w t, proj (set_emissao t (next_tick w)) = proj w) ->
  (forall w, proj (next_tick w) = proj w) ->
  appends proj P 0 (Db.update_tb_de_emissao k kwargs).
Proof.
  intros H1 H2. apply appends_same. intros w r w'.
  unfold Db.update_tb_de_emissao. destruct kwargs as [|kv kwargs].
  - intros H. now injection H as _ <-.
  - unfold bind, io. destruct (faults w (tick w)); intros H; injection H as _ <-; auto.
Qed.

Lemma quiet_update_tb_de_documento {X} (proj : world -> list X) (P : X -> Prop)
    (k : Z) (cod : option Z) (desc : option string) :
  (forall w t, proj (set_documento t (next_tick w)) = proj w) ->
  (forall w, proj (next_tick w) = proj w) ->
  appends proj P 0 (Db.update_tb_de_documento k cod desc).
Proof.
  intros H1 H2. apply appends_same. intros w r w'.
  unfold Db.update_tb_de_documento.
  destruct cod as [c|]; [|destruct desc as [s|]];
    try (intros H; now injection H as _ <-);
    unfold bind, io; destruct (faults w (tick w)); intros H; injection H as _ <-; auto.
Qed.

Lemma quiet_get_tb_de_emissao {X} (proj : world -> list X) (P : X -> Prop) (k : Z) :
  (forall w, proj (next_tick w) = proj w) ->
  appends proj P 0 (Db.get_tb_de_emissao k).
Proof.
  intros H2. apply appends_same. intros w r w' H.
  apply get_tb_de_emissao_same in H as ->. apply H2.
Qed.

Lemma quiet_get_tb_de_documento {X} (proj : world -> list X) (P : X -> Prop) (k : Z) :
  (forall w, proj (next_tick w) = proj w) ->
  appends proj P 0 (Db.get_tb_de_documento k).
Proof.
  intros H2. apply appends_same. intros w r w' H.
  apply get_tb_de_documento_same in H as ->. apply H2.
Qed.

Lemma quiet_make_sifen_request (E : Env) (url : option string)
    (data cert_path cert_pass : string) :
  appends channel is_poll 0 (_make_sifen_request E url data cert_path cert_pass).
Proof.
  apply appends_same. intros w r w' H.
  now apply make_sifen_request_frame in H as (_ & _ & H).
Qed.

Lemma settles_le (n n' : nat) (tag : Z) (m : M unit) :
  settles n tag m -> n <= n' -> settles n' tag m.
Proof.
  intros H Hle w r w' Hrun. destruct (H w r w' Hrun) as (l & H1 & H2 & H3).
  exists l. repeat split; [exact H1 | lia | exact H3].
Qed.

Lemma settles_ack (tag : Z) : settles 0 tag (Channel.basic_ack tag).
Proof.
  intros w r w' H. unfold Channel.basic_ack in H.
  apply channel_call_same in H as (_ & _ & _ & [[[u ->] Hc] | [[e ->] Hc]]);
    exists []; (split; [constructor|]); (split; [simpl; lia|]); simpl.
  - exists (Ack tag). split; [now left | exact Hc].
  - now rewrite List.app_nil_r.
Qed.

Lemma settles_nack (tag : Z) : settles 0 tag (Channel.basic_nack tag false).
Proof.
  intros w r w' H. unfold Channel.basic_nack in H.
  apply channel_call_same in H as (_ & _ & _ & [[[u ->] Hc] | [[e ->] Hc]]);
    exists []; (split; [constructor|]); (split; [simpl; lia|]); simpl.
  - exists (Nack tag false). split; [now right | exact Hc].
  - now rewrite List.app_nil_r.
Qed.

Lemma settles_bind {A} (n1 n2 : nat) (tag : Z) (m : M A) (k : A -> M unit) :
  appends channel is_poll n1 m -> (forall a, settles n2 tag (k a)) ->
  settles (n1 + n2) tag (bind m k).
Proof.
  intros Hm Hk w r w' Hrun. unfold bind in Hrun.
  destruct (m w) as [[a|e] w1] eqn:Hmw;
    destruct (Hm _ _ _ Hmw) as (l1 & E1 & F1 & L1).
  - destruct (Hk a _ _ _ Hrun) as (l2 & F2 & L2 & H2).
    exists (l1 ++ l2)%list. split; [apply Forall_app; auto|].
    split; [rewrite List.length_app; lia|].
    destruct r as [u|x].
    + destruct H2 as (s & Hs & ->). exists s. split; [exact Hs|].
      rewrite E1. now repeat rewrite <- List.app_assoc.
    + rewrite H2, E1. now rewrite <- List.app_assoc.
  - injection Hrun as <- <-. exists l1. repeat split; [exact F1 | lia | exact E1].
Qed.

Lemma settles_try_or_return {A} (n1 n2 n3 : nat) (tag : Z) (m : M A)
    (h : exn -> M unit) (k : A -> M unit) :
  appends channel is_poll n1 m -> (forall e, settles n2 tag (h e)) ->
  (forall a, settles n3 tag (k a)) ->
  settles (n1 + Nat.max n2 n3) tag (try_or_return m h k).
Proof.
  intros Hm Hh0 Hk0.
  assert (Hh : forall e, settles (Nat.max n2 n3) tag (h e)).
  { intros e. apply (settles_le n2); [apply Hh0 | lia]. }
  assert (Hk : forall a, settles (Nat.max n2 n3) tag (k a)).
  { intros a. apply (settles_le n3); [apply Hk0 | lia]. }
  clear Hh0 Hk0. remember (Nat.max n2 n3) as n4 eqn:Hn4. clear Hn4 n2 n3.
  rename n4 into n2.
  intros w r w' Hrun. unfold try_or_return in Hrun.
  assert (Hgen : forall (f : M unit) w1 l1,
             settles n2 tag f -> f w1 = (r, w') ->
             channel w1 = (channel w ++ l1)%list -> Forall is_poll l1 ->
             List.length l1 <= n1 ->
             exists pubs, Forall is_poll pubs /\ List.length pubs <= n1 + n2 /\
               match r with
               | Ok _ => exists s, settled tag s
                           /\ channel w' = (channel w ++ pubs ++ [s])%list
               | Exc _ => channel w' = (channel w ++ pubs)%list
               end).
  { intros f w1 l1 Hf Hrun1 E1 F1 L1.
    destruct (Hf _ _ _ Hrun1) as (l2 & F2 & L2 & H2).
    exists (l1 ++ l2)%list. split; [apply Forall_app; auto|].
    split; [rewrite List.length_app; lia|].
    destruct r as [u|x].
    - destruct H2 as (s & Hs & ->). exists s. split; [exact Hs|].
      rewrite E1. now repeat rewrite <- List.app_assoc.
    - rewrite H2, E1. now rewrite <- List.app_assoc. }
  destruct (m w) as [[a|e] w1] eqn:Hmw;
    destruct (Hm _ _ _ Hmw) as (l1 & E1 & F1 & L1).
  - exact (Hgen (k a) w1 l1 (Hk a) Hrun E1 F1 L1).
  - exact (Hgen (h e) w1 l1 (Hh e) Hrun E1 F1 L1).
Qed.

(** [try: m except Exception: basic_nack(tag, requeue=False)] answers once
    when [m] does. *)
Lemma settles_try_except (n : nat) (tag : Z) (m : M unit) :
  settles n tag m ->
  settles n tag (try_except m (fun _ => Channel.basic_nack tag false)).
Proof.
  intros Hm w r w' Hrun. unfold try_except in Hrun.
  destruct (m w) as [[a|e] w1] eqn:Hmw;
    destruct (Hm _ _ _ Hmw) as (l1 & F1 & L1 & H1).
  - injection Hrun as <- <-. exists l1. auto.
  - destruct (settles_nack tag _ _ _ Hrun) as (l2 & F2 & L2 & H2).
    destruct l2; [|simpl in L2; lia]. simpl in H2.
    exists l1. split; [exact F1|]. split; [exact L1|].
    destruct r as [u|x].
    + destruct H2 as (s & Hs & ->). exists s. split; [exact Hs|].
      rewrite H1. now rewrite <- List.app_assoc.
    + rewrite H2, List.app_nil_r. exact H1.
Qed.

Lemma settles_if (n1 n2 : nat) (tag : Z) (c : bool) (x y : M unit) :
  settles n1 tag x -> settles n2 tag y ->
  settles (Nat.max n1 n2) tag (if c then x else y).
Proof.
  intros Hx Hy. destruct c; [apply (settles_le n1) | apply (settles_le n2)]; auto; lia.
Qed.

(** Solving the goals on the polls a block publishes. *)
Ltac chan :=
  cbv zeta;
  lazymatch goal with
  | |- appends _ _ _ (bind _ _) => eapply appends_bind; [chan | intros; chan]
  | |- appends _ _ _ (ret _) => apply appends_ret
  | |- appends _ _ _ (lift _) => apply appends_lift
  | |- appends _ _ _ (raise _) => apply appends_raise
  | |- appends _ _ _ (Db.update_tb_de_emissao _ _) =>
      apply quiet_update_tb_de_emissao; reflexivity
  | |- appends _ _ _ (Db.update_tb_de_documento _ _ _) =>
      apply quiet_update_tb_de_documento; reflexivity
  | |- appends _ _ _ (Db.get_tb_de_emissao _) =>
      apply quiet_get_tb_de_emissao; reflexivity
  | |- appends _ _ _ (Db.get_tb_de_documento _) =>
      apply quiet_get_tb_de_documento; reflexivity
  | |- appends _ _ _ (agendar_consulta _ _) => apply poll_agendar_consulta
  | |- appends _ _ _ (enviar_lote_sifen _ _ _ _) => apply quiet_make_sifen_request
  | |- appends _ _ _ (consultar_lote_sifen _ _ _ _) => apply quiet_make_sifen_request
  | |- appends _ _ _ (enviar_evento_cancelamento _ _ _ _ _) =>
      apply quiet_make_sifen_request
  | |- appends _ _ _ (if _ then _ else _) => eapply appends_if; chan
  end.

Ltac sett :=
  cbv zeta;
  lazymatch goal with
  | |- settles _ _ (bind _ _) => eapply settles_bind; [chan | intros; sett]
  | |- settles _ _ (Channel.basic_ack _) => apply settles_ack
  | |- settles _ _ (Channel.basic_nack _ false) => apply settles_nack
  | |- settles _ _ (try_or_return _ _ _) =>
      eapply settles_try_or_return; [chan | intros; sett | intros; sett]
  | |- settles _ _ (if _ then _ else _) => eapply settles_if; sett
  end.

Lemma settles_handle_enviar (E : Env) (tag : Z) (emissao : Db.emissao)
    (documento : Db.documento) :
  settles 1 tag (handle_enviar E tag emissao documento).
Proof.
  unfold handle_enviar. apply settles_try_except.
  unfold handle_enviar_try. eapply settles_le; [sett | simpl; lia].
Qed.

Lemma settles_handle_consultar (E : Env) (tag : Z) (emissao : Db.emissao)
    (documento : Db.documento) (b : body) :
  settles 1 tag (handle_consultar E tag emissao documento b).
Proof.
  unfold handle_consultar. apply settles_try_except.
  unfold handle_consultar_try. eapply settles_le; [sett | simpl; lia].
Qed.

Lemma settles_processar_retorno_cancelamento (E : Env) (tag id : Z)
    (ev retorno : string) :
  settles 0 tag (processar_retorno_cancelamento E tag id ev retorno).
Proof.
  unfold processar_retorno_cancelamento.
  destruct (ler_retorno_cancelamento E retorno) as [[cod_res msg_res] est_res].
  eapply settles_le; [sett | simpl; lia].
Qed.

Lemma settles_handle_cancelar (E : Env) (tag : Z) (emissao : Db.emissao)
    (documento : Db.documento) (dados : json) :
  settles 0 tag (handle_cancelar E tag emissao documento dados).
Proof.
  unfold handle_cancelar. apply settles_try_except.
  unfold handle_cancelar_try. cbv zeta.
  destruct (extrair_cdc_do_xml E (Db.xml_assinado emissao)) as [cdc|];
    [|apply settles_nack].
  destruct (negb (Py.truthy cdc)); [apply settles_nack|].
  eapply settles_le.
  - eapply settles_bind; [chan | intros motivo].
    eapply settles_try_or_return; [chan | intros; sett | intros ev].
    eapply settles_try_or_return;
      [chan | intros; sett | intros; apply settles_processar_retorno_cancelamento].
  - simpl. lia.
Qed.

Lemma settles_on_message_received (E : Env) (tag : Z) (b : body) :
  settles 1 tag (on_message_received E tag b).
Proof.
  unfold on_message_received. apply settles_try_except.
  unfold on_message_received_try.
  eapply settles_le.
  - eapply settles_bind; [chan | intros dados].
    eapply settles_bind; [chan | intros id_fatura].
    eapply settles_bind; [chan | intros acao_bruta].
    eapply settles_bind; [chan | intros acao].
    eapply settles_if; [sett|].
    eapply settles_bind; [chan | intros k].
    eapply settles_bind; [chan | intros emissao].
    eapply settles_bind; [chan | intros documento].
    instantiate (1 := 1).
    destruct emissao as [emissao|]; [|apply (settles_le 0); [apply settles_ack | lia]].
    destruct documento as [documento|];
      [|apply (settles_le 0); [apply settles_ack | lia]].
    destruct (String.eqb acao "enviar"); [apply settles_handle_enviar|].
    destruct (String.eqb acao "consultar"); [apply settles_handle_consultar|].
    destruct (String.eqb acao "cancelar");
      [apply (settles_le 0); [apply settles_handle_cancelar | lia]|].
    apply (settles_le 0); [apply settles_ack | lia].
  - simpl. lia.
Qed.

(** X1. Whatever the message, the libraries and the faults: a run of the
    dispatcher publishes at most one message, a persistent one for the delay
    queue through the default exchange; when it returns, it has answered the
    delivery exactly once, with an ack or a nack that does not requeue, as
    its last channel call; when it raises (the channel refused the nack) it
    has not answered. *)
Theorem every_delivery_settled_once (E : Env) (tag : Z) (b : body)
    (w w' : world) (r : result unit) :
  on_message_received E tag b w = (r, w') ->
  exists pubs,
    Forall (fun e => exists payload, e = Publish "" "faturas_wait_30s" payload 2) pubs
    /\ List.length pubs <= 1
    /\ match r with
       | Ok _ =>
           channel w' = (channel w ++ pubs ++ [Ack tag])%list
           \/ channel w' = (channel w ++ pubs ++ [Nack tag false])%list
       | Exc _ => channel w' = (channel w ++ pubs)%list
       end.
Proof.
  intros H. destruct (settles_on_message_received E tag b w r w' H)
    as (pubs & F & L & Hr).
  exists pubs. split; [exact F|]. split; [exact L|].
  destruct r as [u|e]; [|exact Hr].
  destruct Hr as (s & [-> | ->] & Hc); auto.
Qed.

Lemma every_delivery_settled_once_witness :
  exists pubs,
    Forall (fun e => exists payload, e = Publish "" "faturas_wait_30s" payload 2) pubs
    /\ List.length pubs <= 1
    /\ (channel (snd (on_message_received Toy.env_0160 11 (Toy.poll 3) Toy.w0))
        = (channel Toy.w0 ++ pubs ++ [Ack 11])%list
        \/ channel (snd (on_message_received Toy.env_0160 11 (Toy.poll 3) Toy.w0))
           = (channel Toy.w0 ++ pubs ++ [Nack 11 false])%list).
Proof.
  refine (every_delivery_settled_once Toy.env_0160 11 (Toy.poll 3) Toy.w0
            (snd (on_message_received Toy.env_0160 11 (Toy.poll 3) Toy.w0)) (Ok tt) _).
  vm_compute. reflexivity.
Defined.

(** ** At most one request to SIFEN for a message *)

Lemma http_channel_call (P : option string * list byte -> Prop) (e : chan_event) :
  appends http_log P 0 (bind (io ChannelError) (fun _ => modify (emit e))).
Proof.
  apply appends_same. intros w r w' H.
  now apply channel_call_same in H as (H & _).
Qed.

Lemma http_agendar_consulta (P : option string * list byte -> Prop)
    (id_fatura : Z) (dados : json) :
  appends http_log P 0 (agendar_consulta id_fatura dados).
Proof.
  unfold agendar_consulta. apply (appends_le _ _ (0 + 0)); [|lia].
  apply appends_bind; [apply appends_lift | intros t; apply http_channel_call].
Qed.

Lemma http_make_sifen_request (E : Env) (P : option string * list byte -> Prop)
    (url : option string) (data cert_path cert_pass : string) :
  (forall d, P (url, d)) ->
  appends http_log P 1 (_make_sifen_request E url data cert_path cert_pass).
Proof.
  intros HP w r w'. unfold _make_sifen_request, bind, lift, modify.
  destruct (pfx_to_pem E cert_path cert_pass) as [[key cert]|e]; simpl.
  - destruct (requests_post E url (Py.encode_utf8 data) cert key) as [resp|e]; simpl;
      intros H; injection H as _ <-; eexists [_];
      (split; [reflexivity|]); (split; [|simpl; lia]); constructor; auto.
  - intros H. injection H as _ <-. exists []. rewrite List.app_nil_r. auto.
Qed.

Ltac htt E :=
  cbv zeta;
  lazymatch goal with
  | |- appends _ _ _ (bind _ _) => eapply appends_bind; [htt E | intros; htt E]
  | |- appends _ _ _ (ret _) => apply appends_ret
  | |- appends _ _ _ (lift _) => apply appends_lift
  | |- appends _ _ _ (raise _) => apply appends_raise
  | |- appends _ _ _ (Db.update_tb_de_emissao _ _) =>
      apply quiet_update_tb_de_emissao; reflexivity
  | |- appends _ _ _ (Db.update_tb_de_documento _ _ _) =>
      apply quiet_update_tb_de_documento; reflexivity
  | |- appends _ _ _ (Db.get_tb_de_emissao _) =>
      apply quiet_get_tb_de_emissao; reflexivity
  | |- appends _ _ _ (Db.get_tb_de_documento _) =>
      apply quiet_get_tb_de_documento; reflexivity
  | |- appends _ _ _ (agendar_consulta _ _) => apply http_agendar_consulta
  | |- appends _ _ _ (Channel.basic_ack _) => apply http_channel_call
  | |- appends _ _ _ (Channel.basic_nack _ _) => apply http_channel_call
  | |- appends _ _ _ (enviar_lote_sifen _ _ _ _) =>
      apply http_make_sifen_request; intros; unfold sifen_request; simpl; auto
  | |- appends _ _ _ (consultar_lote_sifen _ _ _ _) =>
      apply http_make_sifen_request; intros; unfold sifen_request; simpl; auto
  | |- appends _ _ _ (enviar_evento_cancelamento _ _ _ _ _) =>
      apply http_make_sifen_request; intros; unfold sifen_request; simpl; auto
  | |- appends _ _ _ (if _ then _ else _) => eapply appends_if; htt E
  | |- appends _ _ _ (try_except _ _) =>
      eapply appends_try_except; [htt E | intros; htt E]
  | |- appends _ _ _ (try_or_return _ _ _) =>
      eapply appends_try_or_return; [htt E | intros; htt E | intros; htt E]
  end.

Lemma http_handle_enviar (E : Env) (tag : Z) (emissao : Db.emissao)
    (documento : Db.documento) :
  appends http_log (sifen_request E) 1 (handle_enviar E tag emissao documento).
Proof.
  unfold handle_enviar, handle_enviar_try.
  eapply appends_le; [htt E | simpl; lia].
Qed.

Lemma http_handle_consultar (E : Env) (tag : Z) (emissao : Db.emissao)
    (documento : Db.documento) (b : body) :
  appends http_log (sifen_request E) 1 (handle_consultar E tag emissao documento b).
Proof.
  unfold handle_consultar, handle_consultar_try.
  eapply appends_le; [htt E | simpl; lia].
Qed.

Lemma http_processar_retorno_cancelamento (E : Env) (tag id : Z)
    (ev retorno : string) :
  appends http_log (sifen_request E) 0
    (processar_retorno_cancelamento E tag id ev retorno).
Proof.
  unfold processar_retorno_cancelamento.
  destruct (ler_retorno_cancelamento E retorno) as [[cod_res msg_res] est_res].
  eapply appends_le; [htt E | simpl; lia].
Qed.

Lemma http_handle_cancelar (E : Env) (tag : Z) (emissao : Db.emissao)
    (documento : Db.documento) (dados : json) :
  appends http_log (sifen_request E) 1 (handle_cancelar E tag emissao documento dados).
Proof.
  unfold handle_cancelar, handle_cancelar_try. cbv zeta.
  eapply appends_le.
  - eapply appends_try_except; [|intros; htt E].
    destruct (extrair_cdc_do_xml E (Db.xml_assinado emissao)) as [cdc|].
    + eapply appends_if; [htt E|].
      eapply appends_bind; [htt E | intros motivo].
      eapply appends_try_or_return; [htt E | intros; htt E | intros ev].
      eapply appends_try_or_return;
        [htt E | intros; htt E
         | intros; apply http_processar_retorno_cancelamento].
    + apply (appends_le _ _ 0); [htt E | apply Nat.le_0_l].
  - simpl. lia.
Qed.

(** X2. Whatever the message, the libraries and the faults, a run of the
    dispatcher sends at most one HTTP request, and only to one of the three
    SIFEN endpoints of the settings. *)
Theorem at_most_one_sifen_request (E : Env) (tag : Z) (b : body)
    (w w' : world) (r : result unit) :
  on_message_received E tag b w = (r, w') ->
  exists l,
    http_log w' = (http_log w ++ l)%list
    /\ List.length l <= 1
    /\ Forall (fun rq => fst rq = URL_SIFEN_RECEBE_LOTE E
                         \/ fst rq = URL_SIFEN_CONSULTA_LOTE E
                         \/ fst rq = URL_SIFEN_EVENTO E) l.
Proof.
  assert (H : appends http_log (sifen_request E) 1 (on_message_received E tag b)).
  { unfold on_message_received, on_message_received_try.
    eapply appends_le.
    - eapply appends_try_except; [|intros; htt E].
      eapply appends_bind; [htt E | intros dados].
      eapply appends_bind; [htt E | intros id_fatura].
      eapply appends_bind; [htt E | intros acao_bruta].
      eapply appends_bind; [htt E | intros acao].
      eapply appends_if; [htt E|].
      eapply appends_bind; [htt E | intros k].
      eapply appends_bind; [htt E | intros emissao].
      eapply appends_bind; [htt E | intros documento].
      instantiate (1 := 1).
      destruct emissao as [emissao|]; [|apply (appends_le _ _ 0); [htt E | lia]].
      destruct documento as [documento|]; [|apply (appends_le _ _ 0); [htt E | lia]].
      destruct (String.eqb acao "enviar"); [apply http_handle_enviar|].
      destruct (String.eqb acao "consultar"); [apply http_handle_consultar|].
      destruct (String.eqb acao "cancelar"); [apply http_handle_cancelar|].
      apply (appends_le _ _ 0); [htt E | lia].
    - simpl. lia. }
  intros Hrun. destruct (H w r w' Hrun) as (l & H1 & H2 & H3).
  exists l. auto.
Qed.

Lemma at_most_one_sifen_request_witness :
  exists l,
    http_log (snd (on_message_received Toy.env_envio 11
                     (Json (JDict [("id_fatura", JInt 7)])) Toy.w0))
    = (http_log Toy.w0 ++ l)%list
    /\ List.length l <= 1
    /\ Forall (fun rq => fst rq = URL_SIFEN_RECEBE_LOTE Toy.env_envio
                         \/ fst rq = URL_SIFEN_CONSULTA_LOTE Toy.env_envio
                         \/ fst rq = URL_SIFEN_EVENTO Toy.env_envio) l.
Proof.
  refine (at_most_one_sifen_request Toy.env_envio 11
            (Json (JDict [("id_fatura", JInt 7)])) Toy.w0
            (snd (on_message_received Toy.env_envio 11
                    (Json (JDict [("id_fatura", JInt 7)])) Toy.w0)) (Ok tt) _).
  vm_compute. reflexivity.
Defined.

(** ** What a run keeps of the tables *)

Section Preserves.

Context (R : world -> world -> Prop).
Hypothesis R_refl : forall w, R w w.
Hypothesis R_trans : forall a b c, R a b -> R b c -> R a c.

Lemma preserves_ret {A} (a : A) : preserves R (ret a).
Proof. intros w r w' H. injection H as _ <-. apply R_refl. Qed.

Lemma preserves_lift {A} (x : result A) : preserves R (lift x).
Proof. intros w r w' H. injection H as _ <-. apply R_refl. Qed.

Lemma preserves_bind {A B} (m : M A) (k : A -> M B) :
  preserves R m -> (forall a, preserves R (k a)) -> preserves R (bind m k).
Proof.
  intros Hm Hk w r w' Hrun. unfold bind in Hrun.
  destruct (m w) as [[a|e] w1] eqn:Hmw.
  - eapply R_trans; [eapply Hm, Hmw | eapply Hk, Hrun].
  - injection Hrun as _ <-. eapply Hm, Hmw.
Qed.

(** The continuation may rely on what a completed step returned. *)
Lemma preserves_bind_val {A B} (Q : A -> Prop) (m : M A) (k : A -> M B) :
  (forall w a w', m w = (Ok a, w') -> Q a) ->
  preserves R m -> (forall a, Q a -> preserves R (k a)) -> preserves R (bind m k).
Proof.
  intros HQ Hm Hk w r w' Hrun. unfold bind in Hrun.
  destruct (m w) as [[a|e] w1] eqn:Hmw.
  - eapply R_trans; [eapply Hm, Hmw | eapply (Hk a), Hrun]. eapply HQ, Hmw.
  - injection Hrun as _ <-. eapply Hm, Hmw.
Qed.

Lemma preserves_try_except {A} (m : M A) (h : exn -> M A) :
  preserves R m -> (forall e, preserves R (h e)) -> preserves R (try_except m h).
Proof.
  intros Hm Hh w r w' Hrun. unfold try_except in Hrun.
  destruct (m w) as [[a|e] w1] eqn:Hmw.
  - injection Hrun as _ <-. eapply Hm, Hmw.
  - eapply R_trans; [eapply Hm, Hmw | eapply Hh, Hrun].
Qed.

Lemma preserves_try_or_return {A B} (m : M A) (h : exn -> M B) (k : A -> M B) :
  preserves R m -> (forall e, preserves R (h e)) -> (forall a, preserves R (k a)) ->
  preserves R (try_or_return m h k).
Proof.
  intros Hm Hh Hk w r w' Hrun. unfold try_or_return in Hrun.
  destruct (m w) as [[a|e] w1] eqn:Hmw.
  - eapply R_trans; [eapply Hm, Hmw | eapply Hk, Hrun].
  - eapply R_trans; [eapply Hm, Hmw | eapply Hh, Hrun].
Qed.

Lemma preserves_if {A} (c : bool) (x y : M A) :
  preserves R x -> preserves R y -> preserves R (if c then x else y).
Proof. now destruct c. Qed.

End Preserves.

Lemma keeps_tables_refl (j : Z) (w : world) : keeps_tables j w w.
Proof. unfold keeps_tables. auto. Qed.

Lemma keeps_tables_trans (j : Z) (a b c : world) :
  keeps_tables j a b -> keeps_tables j b c -> keeps_tables j a c.
Proof.
  unfold keeps_tables. intros (A1 & A2 & A3 & A4) (B1 & B2 & B3 & B4).
  repeat split; congruence.
Qed.

(** A run that leaves both tables as they are. *)
Lemma keeps_same {A} (j : Z) (m : M A) :
  (forall w r w', m w = (r, w') ->
     tb_de_emissao w' = tb_de_emissao w /\ tb_de_documento w' = tb_de_documento w) ->
  preserves (keeps_tables j) m.
Proof.
  intros H w r w' Hrun. destruct (H _ _ _ Hrun) as [He Hd].
  unfold keeps_tables. now rewrite He, Hd.
Qed.

Lemma frozen_fold (kwargs : list (Db.campo * option string)) (r : emissao_row) :
  frozen (fold_left Db.set_campo kwargs r) = frozen r.
Proof.
  revert r. induction kwargs as [|[c v] kwargs IH]; intros r; [reflexivity|].
  simpl. rewrite IH. reflexivity.
Qed.

Lemma frozen_update_row (k : Z) (kwargs : list (Db.campo * option string))
    (r : emissao_row) :
  frozen (Db.update_row k kwargs r) = frozen r.
Proof.
  unfold Db.update_row. destruct (r_id_docfis r =? k)%Z; [apply frozen_fold | reflexivity].
Qed.

Lemma id_docfis_update_row (k : Z) (kwargs : list (Db.campo * option string))
    (r : emissao_row) :
  r_id_docfis (Db.update_row k kwargs r) = r_id_docfis r.
Proof.
  pose proof (frozen_update_row k kwargs r) as H. unfold frozen in H. congruence.
Qed.

Lemma rows_of_update (j k : Z) (kwargs : list (Db.campo * option string))
    (rows : list emissao_row) :
  j <> k -> rows_of j (map (Db.update_row k kwargs) rows) = rows_of j rows.
Proof.
  intros Hjk. induction rows as [|r rows IH]; [reflexivity|].
  cbn [map rows_of filter]. fold (rows_of j (map (Db.update_row k kwargs) rows)).
  fold (rows_of j rows). rewrite id_docfis_update_row, IH.
  destruct (r_id_docfis r =? j)%Z eqn:Hj; [|reflexivity].
  apply Z.eqb_eq in Hj. unfold Db.update_row.
  replace (r_id_docfis r =? k)%Z with false; [reflexivity|].
  symmetry. apply Z.eqb_neq. congruence.
Qed.

Lemma id_doc_update_doc_row (k : Z) (cod : option Z) (desc : option string)
    (r : documento_row) :
  d_id_doc (Db.update_doc_row k cod desc r) = d_id_doc r.
Proof. unfold Db.update_doc_row. now destruct (d_id_doc r =? k)%Z. Qed.

Lemma docs_of_update (j k : Z) (cod : option Z) (desc : option string)
    (rows : list documento_row) :
  j <> k -> docs_of j (map (Db.update_doc_row k cod desc) rows) = docs_of j rows.
Proof.
  intros Hjk. induction rows as [|r rows IH]; [reflexivity|].
  cbn [map docs_of filter]. fold (docs_of j (map (Db.update_doc_row k cod desc) rows)).
  fold (docs_of j rows). rewrite id_doc_update_doc_row, IH.
  destruct (d_id_doc r =? j)%Z eqn:Hj; [|reflexivity].
  apply Z.eqb_eq in Hj. unfold Db.update_doc_row.
  replace (d_id_doc r =? k)%Z with false; [reflexivity|].
  symmetry. apply Z.eqb_neq. congruence.
Qed.

Lemma ids_update_doc (k : Z) (cod : option Z) (desc : option string)
    (rows : list documento_row) :
  map d_id_doc (map (Db.update_doc_row k cod desc) rows) = map d_id_doc rows.
Proof.
  rewrite map_map. apply map_ext. intros r. unfold Db.update_doc_row.
  now destruct (d_id_doc r =? k)%Z.
Qed.

Lemma keeps_update_tb_de_emissao (j k : Z) (kwargs : list (Db.campo * option string)) :
  j <> k -> preserves (keeps_tables j) (Db.update_tb_de_emissao k kwargs).
Proof.
  intros Hjk w r w' H.
  apply update_tb_de_emissao_same in H as (_ & _ & Hd & [He | He]);
    unfold keeps_tables; rewrite Hd, He; auto.
  repeat split; [|now apply rows_of_update].
  rewrite map_map. apply map_ext, frozen_update_row.
Qed.

Lemma keeps_update_tb_de_documento (j k : Z) (cod : option Z) (desc : option string) :
  j <> k -> preserves (keeps_tables j) (Db.update_tb_de_documento k cod desc).
Proof.
  intros Hjk w r w' H.
  apply update_tb_de_documento_same in H as (_ & _ & He & [Hd | Hd]);
    unfold keeps_tables; rewrite Hd, He; auto.
  repeat split; [apply ids_update_doc | now apply docs_of_update].
Qed.

Lemma keeps_channel_call (j : Z) (e : chan_event) :
  preserves (keeps_tables j) (bind (io ChannelError) (fun _ => modify (emit e))).
Proof.
  apply keeps_same. intros w r w' H.
  now apply channel_call_same in H as (_ & He & Hd & _).
Qed.

Lemma keeps_make_sifen_request (j : Z) (E : Env) (url : option string)
    (data cert_path cert_pass : string) :
  preserves (keeps_tables j) (_make_sifen_request E url data cert_path cert_pass).
Proof.
  apply keeps_same. intros w r w' H.
  now apply make_sifen_request_frame in H as (He & Hd & _).
Qed.

Lemma keeps_agendar_consulta (j id_fatura : Z) (dados : json) :
  preserves (keeps_tables j) (agendar_consulta id_fatura dados).
Proof.
  unfold agendar_consulta.
  apply preserves_bind;
    [apply keeps_tables_trans | apply preserves_lift, keeps_tables_refl
     | intros t; apply keeps_channel_call].
Qed.

Lemma keeps_get_tb_de_emissao (j k : Z) :
  preserves (keeps_tables j) (Db.get_tb_de_emissao k).
Proof.
  apply keeps_same. intros w r w' H. now apply get_tb_de_emissao_same in H as ->.
Qed.

Lemma keeps_get_tb_de_documento (j k : Z) :
  preserves (keeps_tables j) (Db.get_tb_de_documento k).
Proof.
  apply keeps_same. intros w r w' H. now apply get_tb_de_documento_same in H as ->.
Qed.

(** Solving the goals on the tables, [Hj] saying that the document of the
    run is not [j]. *)
Ltac keep Hj :=
  cbv zeta;
  lazymatch goal with
  | |- preserves _ (bind _ _) =>
      apply preserves_bind; [apply keeps_tables_trans | keep Hj | intros; keep Hj]
  | |- preserves _ (ret _) => apply preserves_ret, keeps_tables_refl
  | |- preserves _ (lift _) => apply preserves_lift, keeps_tables_refl
  | |- preserves _ (Db.update_tb_de_emissao _ _) =>
      apply keeps_update_tb_de_emissao; exact Hj
  | |- preserves _ (Db.update_tb_de_documento _ _ _) =>
      apply keeps_update_tb_de_documento; exact Hj
  | |- preserves _ (agendar_consulta _ _) => apply keeps_agendar_consulta
  | |- preserves _ (Channel.basic_ack _) => apply keeps_channel_call
  | |- preserves _ (Channel.basic_nack _ _) => apply keeps_channel_call
  | |- preserves _ (enviar_lote_sifen _ _ _ _) => apply keeps_make_sifen_request
  | |- preserves _ (consultar_lote_sifen _ _ _ _) => apply keeps_make_sifen_request
  | |- preserves _ (enviar_evento_cancelamento _ _ _ _ _) =>
      apply keeps_make_sifen_request
  | |- preserves _ (if _ then _ else _) => apply preserves_if; keep Hj
  | |- preserves _ (try_except _ _) =>
      apply preserves_try_except; [apply keeps_tables_trans | keep Hj | intros; keep Hj]
  | |- preserves _ (try_or_return _ _ _) =>
      apply preserves_try_or_return;
        [apply keeps_tables_trans | keep Hj | intros; keep Hj | intros; keep Hj]
  end.

Lemma keeps_handle_enviar (E : Env) (tag j : Z) (emissao : Db.emissao)
    (documento : Db.documento) :
  j <> Db.id_docfis emissao ->
  preserves (keeps_tables j) (handle_enviar E tag emissao documento).
Proof. intros Hj. unfold handle_enviar, handle_enviar_try. keep Hj. Qed.

Lemma keeps_handle_consultar (E : Env) (tag j : Z) (emissao : Db.emissao)
    (documento : Db.documento) (b : body) :
  j <> Db.id_docfis emissao ->
  preserves (keeps_tables j) (handle_consultar E tag emissao documento b).
Proof. intros Hj. unfold handle_consultar, handle_consultar_try. keep Hj. Qed.

Lemma keeps_handle_cancelar (E : Env) (tag j : Z) (emissao : Db.emissao)
    (documento : Db.documento) (dados : json) :
  j <> Db.id_docfis emissao ->
  preserves (keeps_tables j) (handle_cancelar E tag emissao documento dados).
Proof.
  intros Hj. unfold handle_cancelar, handle_cancelar_try. cbv zeta.
  apply preserves_try_except; [apply keeps_tables_trans | | intros; keep Hj].
  destruct (extrair_cdc_do_xml E (Db.xml_assinado emissao)) as [cdc|]; [|keep Hj].
  apply preserves_if; [keep Hj|].
  apply preserves_bind; [apply keeps_tables_trans | keep Hj | intros motivo].
  apply preserves_try_or_return;
    [apply keeps_tables_trans | keep Hj | intros; keep Hj | intros ev].
  apply preserves_try_or_return;
    [apply keeps_tables_trans | keep Hj | intros; keep Hj | intros retorno].
  unfold processar_retorno_cancelamento.
  destruct (ler_retorno_cancelamento E retorno) as [[cod_res msg_res] est_res].
  keep Hj.
Qed.

Lemma newest_id_docfis (k : Z) (rows : list emissao_row) (r : emissao_row) :
  Db.newest k rows = Some r -> r_id_docfis r = k.
Proof.
  revert r. induction rows as [|x rows IH]; intros r; simpl; [discriminate|].
  destruct (r_id_docfis x =? k)%Z eqn:Hx; [|apply IH].
  apply Z.eqb_eq in Hx. destruct (Db.newest k rows) as [r'|].
  - destruct (r_id x <? r_id r')%Z; intros H; injection H as <-; auto.
  - intros H. now injection H as <-.
Qed.

Lemma get_tb_de_emissao_id (k : Z) (w w' : world) (emissao : Db.emissao) :
  Db.get_tb_de_emissao k w = (Ok (Some emissao), w') -> Db.id_docfis emissao = k.
Proof.
  unfold Db.get_tb_de_emissao, bind, io.
  destruct (faults w (tick w)); [discriminate|]. simpl.
  destruct (Db.newest k (tb_de_emissao w)) as [r|] eqn:Hr; [|discriminate].
  intros H. injection H as <- _. simpl. now apply newest_id_docfis in Hr.
Qed.

Lemma message_id_bind (b : body) (dados id_fatura : json) (k : Z) :
  json_loads b = Ok dados ->
  dict_get dados "id_fatura" JNull = Ok id_fatura ->
  bind_id id_fatura = Ok k ->
  message_id b = Some k.
Proof.
  intros Hl Hg Hb. destruct b as [x|]; [|discriminate]. injection Hl as ->.
  destruct dados; try discriminate. simpl in Hg. injection Hg as <-.
  simpl. destruct (assoc "id_fatura" d) as [[]|]; try discriminate.
  now injection Hb as ->.
Qed.



(** ** The other branches of the submit and poll handlers *)

Lemma update_tb_de_documento_desc_Ok (k : Z) (cod : option Z) (desc : string)
    (w w' : world) (n : Z) :
  Db.update_tb_de_documento k cod (Some desc) w = (Ok n, w') ->
  w' = set_documento (map (Db.update_doc_row k cod (Some desc)) (tb_de_documento w))
         (next_tick w).
Proof.
  unfold Db.update_tb_de_documento. intros H.
  destruct cod as [c|]; apply bind_Ok in H as (? & w1 & H1 & H2);
    apply io_Ok in H1 as [_ ->]; now injection H2 as _ <-.
Qed.

Lemma in_update_doc_row_desc (k : Z) (cod : option Z) (desc : string)
    (rows : list documento_row) (d' : documento_row) :
  In d' (map (Db.update_doc_row k cod (Some desc)) rows) -> d_id_doc d' = k ->
  d_desc_status d' = Some desc
  /\ (forall c, cod = Some c -> d_cod_status d' = Some c)
  /\ (cod = None -> exists d, In d rows /\ d_id_doc d = k
                              /\ d_cod_status d' = d_cod_status d).
Proof.
  intros Hin Hk. apply in_map_iff in Hin as (d & <- & Hd).
  unfold Db.update_doc_row in *.
  destruct (d_id_doc d =? k)%Z eqn:Hdk.
  - simpl. split; [reflexivity|]. split.
    + intros c ->. reflexivity.
    + intros ->. exists d. apply Z.eqb_eq in Hdk. auto.
  - apply Z.eqb_neq in Hdk. contradiction.
Qed.

Lemma protocolo_invalido (p : string) :
  p = "" \/ p = "0" -> negb (Py.truthy p) || String.eqb p "0" = true.
Proof. intros [-> | ->]; reflexivity. Qed.

Lemma int_if_digit_Ok (c : string) (other r : option Z) :
  int_if_digit c other = Ok r ->
  match Py.int_of_digits c with
  | Some z => r = Some z
  | None => r = other
  end.
Proof.
  unfold int_if_digit, Py.isdigit, Py.int_of_digits.
  destruct (Py.truthy c); simpl.
  - destruct (Py.all_chars Py.isdigit_char c) eqn:Hd.
    + destruct (Py.all_chars Py.is_ascii_digit c); intros H; [now injection H | discriminate].
    + assert (Ha : Py.all_chars Py.is_ascii_digit c = false).
      { clear -Hd. induction c as [|x c IH]; [discriminate|]. simpl in *.
        unfold Py.isdigit_char in Hd.
        destruct (Py.is_ascii_digit x); simpl in *; [auto | reflexivity]. }
      rewrite Ha. intros H. now injection H.
  - intros H. now injection H.
Qed.



(** The second scenario of the specification on the stand-in. *)
Example submit_rejection_exemplo :
  let w' := snd (handle_enviar Cenario.env_envio_recusado 11 Toy.emissao7
                   Toy.documento7 Toy.w0) in
  map r_cod_status (tb_de_emissao w') = [Some "160"; Some "0260"]
  /\ map r_desc_status (tb_de_emissao w') = [Some "Falha no envio: bad signature"; None]
  /\ map d_cod_status (tb_de_documento w') = [Some 160%Z; Some 260%Z]
  /\ channel w' = [Ack 11].
Proof. vm_compute. repeat split. Qed.

Lemma consultar_classified_head (E : Env) (tag : Z) (emissao : Db.emissao) (b : body)
    (w w1 w' : world) (retorno : string) (retorno_root : xml) :
  consultar_lote_sifen E (Db.protocolo emissao) (Db.caminho_certificado emissao)
    (Db.senha emissao) w = (Ok retorno, w1) ->
  fromstring E (Py.encode_utf8 retorno) = Ok retorno_root ->
  is_0160 retorno_root = false ->
  handle_consultar_try E tag emissao b w = (Ok tt, w') ->
  exists w2, w' = emit (Ack tag) (next_tick w2)
    /\ (if is_aprovado retorno_root then
          let cod_status :=
            findtext_default (AnyNs "dCodRes") CODIGO_STATUS_APROVADO retorno_root in
          exists cod,
            int_if_digit cod_status (Some 201%Z) = Ok cod
            /\ w2 = set_documento
                      (map (Db.update_doc_row (Db.id_docfis emissao) cod
                              (Some "Aprobado exitosamente."))
                           (tb_de_documento w1))
                      (next_tick
                         (set_emissao
                            (map (Db.update_row (Db.id_docfis emissao)
                                    [(Db.xml_retorno_, Some retorno);
                                     (Db.cod_status_, Some cod_status);
                                     (Db.desc_status_, Some "Aprobado exitosamente.")])
                                 (tb_de_emissao w1))
                            (next_tick w1)))
        else if is_rejeitado retorno_root then
          let codigo_rejeicao :=
            Py.oor_str (cod_chain retorno_root) CODIGO_STATUS_REJEITADO in
          let motivo_rejeicao :=
            Py.or_ (msg_lote retorno_root)
              (Py.or_ (msg_res_consulta retorno_root)
                 (Py.oor_str (Py.oor (findtext (AnyNs "dMsgRes") retorno_root)
                                     (findtext (NoNs "dMsgRes") retorno_root))
                             ("Motivo n" ++ a_til ++ "o especificado."))) in
          exists cod,
            int_if_digit codigo_rejeicao (Some 300%Z) = Ok cod
            /\ w2 = set_documento
                      (map (Db.update_doc_row (Db.id_docfis emissao) cod
                              (Some ("Rejeitado: " ++ motivo_rejeicao)))
                           (tb_de_documento w1))
                      (next_tick
                         (set_emissao
                            (map (Db.update_row (Db.id_docfis emissao)
                                    [(Db.xml_retorno_, Some retorno);
                                     (Db.cod_status_, Some codigo_rejeicao);
                                     (Db.desc_status_,
                                      Some ("Rejeitado: " ++ motivo_rejeicao))])
                                 (tb_de_emissao w1))
                            (next_tick w1)))
        else True).
Proof.
  intros Hsend Hparse H0160 Hrun.
  unfold handle_consultar_try in Hrun.
  step Hrun. rewrite Hsend in Hstep. injection Hstep as <- <-.
  step Hrun. apply lift_Ok in Hstep as [Hr ->]. rewrite Hparse in Hr. injection Hr as <-.
  rewrite H0160 in Hrun.
  step Hrun. apply basic_ack_Ok in Hrun. exists w0. split; [exact Hrun|].
  destruct (is_aprovado retorno_root); [|destruct (is_rejeitado retorno_root)].
  - cbv zeta in *. step Hstep. apply update_tb_de_emissao_Ok in Hstep0.
    step Hstep. apply lift_Ok in Hstep1 as [Hint ->].
    step Hstep. apply update_tb_de_documento_desc_Ok in Hstep1.
    apply ret_Ok in Hstep as [_ ->]. exists a1. split; [exact Hint|]. now subst.
  - cbv zeta in *. step Hstep. apply update_tb_de_emissao_Ok in Hstep0.
    step Hstep. apply lift_Ok in Hstep1 as [Hint ->].
    step Hstep. apply update_tb_de_documento_desc_Ok in Hstep1.
    apply ret_Ok in Hstep as [_ ->]. exists a1. split; [exact Hint|]. now subst.
  - exact I.
Qed.

(** X5. When the poll handler runs to the end of its [try] block on an
    answer whose [dEstRes] is "Aprobado" (and which is not the transient
    0160): every emission row of the document holds the raw answer, the
    text of the first [dCodRes] of the answer, "0201" when there is none,
    and "Aprobado exitosamente."; every header row holds that description
    and the code as an integer, 201 when the code is not written in digits;
    nothing is published and the message is acked. *)
Theorem poll_approved_records_code (E : Env) (tag : Z)
    (emissao : Db.emissao) (b : body)
    (w w1 w' : world) (retorno : string) (retorno_root : xml) :
  consultar_lote_sifen E (Db.protocolo emissao) (Db.caminho_certificado emissao)
    (Db.senha emissao) w = (Ok retorno, w1) ->
  fromstring E (Py.encode_utf8 retorno) = Ok retorno_root ->
  is_0160 retorno_root = false ->
  status_documento retorno_root = "Aprobado" ->
  handle_consultar_try E tag emissao b w = (Ok tt, w') ->
  let cod_status :=
    match findtext (AnyNs "dCodRes") retorno_root with
    | Some c => c
    | None => "0201"
    end in
  (forall r, In r (tb_de_emissao w') -> r_id_docfis r = Db.id_docfis emissao ->
     r_xml_retorno r = Some retorno
     /\ r_cod_status r = Some cod_status
     /\ r_desc_status r = Some "Aprobado exitosamente.")
  /\ (forall d, In d (tb_de_documento w') -> d_id_doc d = Db.id_docfis emissao ->
        d_desc_status d = Some "Aprobado exitosamente."
        /\ d_cod_status d
           = Some (match Py.int_of_digits cod_status with
                   | Some z => z
                   | None => 201%Z
                   end))
  /\ channel w' = (channel w ++ [Ack tag])%list.
Proof.
  intros Hsend Hparse H0160 Hap Hrun cod_status.
  destruct (consultar_classified_head E tag emissao b w w1 w' retorno retorno_root
              Hsend Hparse H0160 Hrun) as (w2 & -> & Hw2).
  unfold is_aprovado in Hw2. rewrite Hap in Hw2. simpl String.eqb in Hw2.
  cbv iota zeta in Hw2. destruct Hw2 as (cod & Hint & ->).
  apply int_if_digit_Ok in Hint.
  assert (Hcs : findtext_default (AnyNs "dCodRes") CODIGO_STATUS_APROVADO retorno_root
                = cod_status).
  { unfold findtext_default, cod_status. now destruct (findtext _ retorno_root). }
  rewrite Hcs in *.
  apply make_sifen_request_frame in Hsend as (He & Hd & Hc).
  cbn [tb_de_emissao tb_de_documento channel emit next_tick set_emissao set_documento].
  split; [|split].
  - intros r Hin Hid. apply in_update_row in Hin as (r0 & _ & _ & ->); [|exact Hid].
    simpl. auto.
  - intros d Hin Hid.
    destruct (in_update_doc_row_desc _ _ _ _ _ Hin Hid) as (H1 & H2 & _).
    split; [exact H1|]. apply H2.
    destruct (Py.int_of_digits cod_status); exact Hint.
  - now rewrite Hc.
Qed.

Lemma poll_approved_records_code_witness :
  channel (snd (handle_consultar_try Cenario.env_aprovado_sem_codigo 11 Toy.emissao7
                  (Toy.poll 2) Toy.w0))
  = [Ack 11].
Proof.
  refine (proj2 (proj2
    (poll_approved_records_code Cenario.env_aprovado_sem_codigo 11 Toy.emissao7
       (Toy.poll 2) Toy.w0 (Corrida.w_consulta Cenario.env_aprovado_sem_codigo)
       (snd (handle_consultar_try Cenario.env_aprovado_sem_codigo 11 Toy.emissao7
               (Toy.poll 2) Toy.w0))
       (text Cenario.resposta_aprovado) Cenario.arvore_aprovado_sem_codigo
       _ _ _ _ _))).
  - vm_compute. reflexivity.
  - vm_compute. reflexivity.
  - vm_compute. reflexivity.
  - vm_compute. reflexivity.
  - vm_compute. reflexivity.
Defined.

(** The first scenario of the specification, second half, and the approval
    without a code, on the stand-in. *)
Example poll_approved_exemplo :
  let w' := snd (handle_consultar Cenario.env_aprovado 11 Toy.emissao7 Toy.documento7
                   (Toy.poll 1) Toy.w0) in
  let w'' := snd (handle_consultar Cenario.env_aprovado_sem_codigo 11 Toy.emissao7
                    Toy.documento7 (Toy.poll 1) Toy.w0) in
  map r_cod_status (tb_de_emissao w') = [Some "0260"; Some "0260"]
  /\ map d_cod_status (tb_de_documento w') = [Some 260%Z; Some 260%Z]
  /\ map r_cod_status (tb_de_emissao w'') = [Some "0201"; Some "0260"]
  /\ map d_cod_status (tb_de_documento w'') = [Some 201%Z; Some 260%Z].
Proof. vm_compute. repeat split. Qed.

(** X6. When the poll handler runs to the end of its [try] block on an
    answer that is neither the transient 0160 nor approved, and whose
    [dEstRes] is "Rechazado" or whose message contains "Cancelado" or
    "Rechazado": every emission row of the document holds the raw answer,
    the code of the answer ("0300" when it has none) and "Rejeitado: "
    followed by the message; every header row holds that description and
    the code as an integer, 300 when it is not written in digits; nothing is
    published and the message is acked. *)
Theorem poll_rejected_records_reason (E : Env) (tag : Z)
    (emissao : Db.emissao) (b : body)
    (w w1 w' : world) (retorno : string) (retorno_root : xml) :
  consultar_lote_sifen E (Db.protocolo emissao) (Db.caminho_certificado emissao)
    (Db.senha emissao) w = (Ok retorno, w1) ->
  fromstring E (Py.encode_utf8 retorno) = Ok retorno_root ->
  is_0160 retorno_root = false ->
  status_documento retorno_root <> "Aprobado" ->
  status_documento retorno_root = "Rechazado"
  \/ (exists a c, msg_lote retorno_root = a ++ "Cancelado" ++ c)
  \/ (exists a c, msg_lote retorno_root = a ++ "Rechazado" ++ c) ->
  handle_consultar_try E tag emissao b w = (Ok tt, w') ->
  let codigo_rejeicao := Py.oor_str (cod_chain retorno_root) "0300" in
  let motivo_rejeicao :=
    Py.or_ (msg_lote retorno_root)
      (Py.or_ (msg_res_consulta retorno_root)
         (Py.oor_str (Py.oor (findtext (AnyNs "dMsgRes") retorno_root)
                             (findtext (NoNs "dMsgRes") retorno_root))
                     ("Motivo n" ++ a_til ++ "o especificado."))) in
  (forall r, In r (tb_de_emissao w') -> r_id_docfis r = Db.id_docfis emissao ->
     r_xml_retorno r = Some retorno
     /\ r_cod_status r = Some codigo_rejeicao
     /\ r_desc_status r = Some ("Rejeitado: " ++ motivo_rejeicao))
  /\ (forall d, In d (tb_de_documento w') -> d_id_doc d = Db.id_docfis emissao ->
        d_desc_status d = Some ("Rejeitado: " ++ motivo_rejeicao)
        /\ d_cod_status d
           = Some (match Py.int_of_digits codigo_rejeicao with
                   | Some z => z
                   | None => 300%Z
                   end))
  /\ channel w' = (channel w ++ [Ack tag])%list.
Proof.
  intros Hsend Hparse H0160 Hnap Hrej Hrun codigo_rejeicao motivo_rejeicao.
  destruct (consultar_classified_head E tag emissao b w w1 w' retorno retorno_root
              Hsend Hparse H0160 Hrun) as (w2 & -> & Hw2).
  assert (Ha : is_aprovado retorno_root = false).
  { unfold is_aprovado. now apply String.eqb_neq. }
  assert (Hr : is_rejeitado retorno_root = true).
  { unfold is_rejeitado. destruct Hrej as [H | [H | H]].
    - rewrite H. reflexivity.
    - apply contains_spec in H. rewrite H. now rewrite orb_true_r.
    - apply contains_spec in H. rewrite H. now rewrite orb_true_r. }
  rewrite Ha, Hr in Hw2. cbv zeta in Hw2. destruct Hw2 as (cod & Hint & ->).
  apply int_if_digit_Ok in Hint.
  fold codigo_rejeicao motivo_rejeicao in Hint |- *.
  apply make_sifen_request_frame in Hsend as (He & Hd & Hc).
  cbn [tb_de_emissao tb_de_documento channel emit next_tick set_emissao set_documento].
  split; [|split].
  - intros r Hin Hid. apply in_update_row in Hin as (r0 & _ & _ & ->); [|exact Hid].
    simpl. auto.
  - intros d Hin Hid.
    destruct (in_update_doc_row_desc _ _ _ _ _ Hin Hid) as (H1 & H2 & _).
    split; [exact H1|]. apply H2.
    change (Py.oor_str (cod_chain retorno_root) CODIGO_STATUS_REJEITADO)
      with codigo_rejeicao in Hint.
    destruct (Py.int_of_digits codigo_rejeicao); exact Hint.
  - now rewrite Hc.
Qed.

Lemma poll_rejected_records_reason_witness :
  channel (snd (handle_consultar_try Cenario.env_rejeitado 11 Toy.emissao7
                  (Toy.poll 2) Toy.w0))
  = [Ack 11].
Proof.
  refine (proj2 (proj2
    (poll_rejected_records_reason Cenario.env_rejeitado 11 Toy.emissao7
       (Toy.poll 2) Toy.w0 (Corrida.w_consulta Cenario.env_rejeitado)
       (snd (handle_consultar_try Cenario.env_rejeitado 11 Toy.emissao7
               (Toy.poll 2) Toy.w0))
       (text Cenario.resposta_rejeitado) Cenario.arvore_rejeitado
       _ _ _ _ _ _))).
  - vm_compute. reflexivity.
  - vm_compute. reflexivity.
  - vm_compute. reflexivity.
  - vm_compute. discriminate.
  - left. vm_compute. reflexivity.
  - vm_compute. reflexivity.
Defined.

Example poll_rejected_exemplo :
  let w' := snd (handle_consultar Cenario.env_rejeitado 11 Toy.emissao7 Toy.documento7
                   (Toy.poll 1) Toy.w0) in
  map r_cod_status (tb_de_emissao w') = [Some "1001"; Some "0260"]
  /\ map r_desc_status (tb_de_emissao w') = [Some "Rejeitado: CDC duplicado"; None]
  /\ map d_cod_status (tb_de_documento w') = [Some 1001%Z; Some 260%Z]
  /\ channel w' = [Ack 11].
Proof. vm_compute. repeat split. Qed.

(** ** Failures before any write *)

Lemma basic_nack_run (tag : Z) (w : world) :
  faults w (tick w) = false ->
  Channel.basic_nack tag false w = (Ok tt, emit (Nack tag false) (next_tick w)).
Proof. intros H. unfold Channel.basic_nack, bind, io, modify. now rewrite H. Qed.

Lemma basic_ack_run (tag : Z) (w : world) :
  faults w (tick w) = false ->
  Channel.basic_ack tag w = (Ok tt, emit (Ack tag) (next_tick w)).
Proof. intros H. unfold Channel.basic_ack, bind, io, modify. now rewrite H. Qed.

(** X7. A document that cannot be signed is not sent: when the signer
    raises, the submit handler sends no request and writes nothing, and
    nacks the message without requeue. *)
Theorem submit_unsigned_document_is_not_sent (E : Env) (tag : Z)
    (emissao : Db.emissao) (documento : Db.documento) (w : world) (e : exn) :
  assinar_e_gerar_qr E (Db.xml_original emissao) (Db.caminho_certificado emissao)
    (Db.senha emissao) (Db.csc emissao) (Db.id_csc emissao) = Exc e ->
  faults w (tick w) = false ->
  handle_enviar E tag emissao documento w
  = (Ok tt, emit (Nack tag false) (next_tick w)).
Proof.
  intros Hass Hf. unfold handle_enviar, try_except, handle_enviar_try.
  unfold bind at 1, lift at 1. rewrite Hass. now apply basic_nack_run.
Qed.

Lemma submit_unsigned_document_is_not_sent_witness :
  handle_enviar Cenario.env_sem_certificado 11 Toy.emissao7 Toy.documento7 Toy.w0
  = (Ok tt, emit (Nack 11 false) (next_tick Toy.w0)).
Proof.
  refine (submit_unsigned_document_is_not_sent Cenario.env_sem_certificado 11
            Toy.emissao7 Toy.documento7 Toy.w0 CertificateError _ _).
  - vm_compute. reflexivity.
  - reflexivity.
Defined.

(** X8. When posting the batch raises, or the answer is not XML, the submit
    handler writes nothing to either table, publishes nothing and nacks the
    message without requeue. *)
Theorem submit_transport_failure_writes_nothing (E : Env) (tag : Z)
    (emissao : Db.emissao) (documento : Db.documento) (w w1 : world)
    (xml_q : string) (r : result string) :
  assinar_e_gerar_qr E (Db.xml_original emissao) (Db.caminho_certificado emissao)
    (Db.senha emissao) (Db.csc emissao) (Db.id_csc emissao) = Ok xml_q ->
  enviar_lote_sifen E (preparar_payload_sifen E (xml_final xml_q))
    (Db.caminho_certificado emissao) (Db.senha emissao) w = (r, w1) ->
  (forall retorno, r = Ok retorno ->
     exists e, fromstring E (Py.encode_utf8 retorno) = Exc e) ->
  faults w (tick w) = false ->
  exists w',
    handle_enviar E tag emissao documento w = (Ok tt, w')
    /\ tb_de_emissao w' = tb_de_emissao w
    /\ tb_de_documento w' = tb_de_documento w
    /\ channel w' = (channel w ++ [Nack tag false])%list.
Proof.
  intros Hass Hsend Hbad Hf.
  assert (Hf1 : faults w1 (tick w1) = false).
  { unfold enviar_lote_sifen, _make_sifen_request, bind, lift, modify in Hsend.
    destruct (pfx_to_pem E _ _) as [[key cert]|x]; simpl in Hsend.
    - destruct (requests_post E _ _ cert key); injection Hsend as _ <-; exact Hf.
    - injection Hsend as _ <-. exact Hf. }
  pose proof (make_sifen_request_frame _ _ _ _ _ _ _ _ Hsend) as (He & Hd & Hc).
  exists (emit (Nack tag false) (next_tick w1)).
  split; [|simpl; rewrite He, Hd, Hc; auto].
  unfold handle_enviar, try_except, handle_enviar_try.
  unfold bind at 1, lift at 1. rewrite Hass.
  unfold bind at 1. rewrite Hsend. destruct r as [retorno|x].
  - destruct (Hbad retorno eq_refl) as [x Hx].
    unfold bind at 1, lift at 1. rewrite Hx. now apply basic_nack_run.
  - now apply basic_nack_run.
Qed.

Lemma submit_transport_failure_writes_nothing_witness :
  exists w',
    handle_enviar (Toy.env Toy.resposta_envio (Exc XMLSyntaxError)) 11 Toy.emissao7
      Toy.documento7 Toy.w0 = (Ok tt, w')
    /\ tb_de_emissao w' = tb_de_emissao Toy.w0
    /\ tb_de_documento w' = tb_de_documento Toy.w0
    /\ channel w' = (channel Toy.w0 ++ [Nack 11 false])%list.
Proof.
  refine (submit_transport_failure_writes_nothing
            (Toy.env Toy.resposta_envio (Exc XMLSyntaxError)) 11 Toy.emissao7
            Toy.documento7 Toy.w0 Corrida.w_envio Corrida.xml_q
            (Ok (text Toy.resposta_envio)) _ _ _ _).
  - vm_compute. reflexivity.
  - vm_compute. reflexivity.
  - intros retorno H. injection H as <-. exists XMLSyntaxError. vm_compute. reflexivity.
  - reflexivity.
Defined.



(** X10. The cancel handler sends nothing and writes nothing, and nacks
    without requeue, when the stored signed XML gives no CDC (it does not
    parse, has no [DE] element, or its [Id] is missing or empty), and when
    the event cannot be built from the reason of the message. *)
Theorem cancel_without_cdc_or_event_is_nacked (E : Env) (tag : Z)
    (emissao : Db.emissao) (documento : Db.documento) (dados : json) (w : world) :
  extrair_cdc_do_xml E (Db.xml_assinado emissao) = None
  \/ extrair_cdc_do_xml E (Db.xml_assinado emissao) = Some ""
  \/ (exists cdc motivo e,
        extrair_cdc_do_xml E (Db.xml_assinado emissao) = Some cdc
        /\ dict_get dados "motivo" (JStr "Solicitud de cancelacion") = Ok motivo
        /\ gerar_evento_assinado_wsdl E cdc motivo (Db.caminho_certificado emissao)
             (Db.senha emissao) = Exc e) ->
  faults w (tick w) = false ->
  handle_cancelar E tag emissao documento dados w
  = (Ok tt, emit (Nack tag false) (next_tick w)).
Proof.
  intros Hcase Hf. unfold handle_cancelar, try_except, handle_cancelar_try. cbv zeta.
  destruct Hcase as [H | [H | (cdc & motivo & e & H & Hm & Hg)]]; rewrite H.
  - now rewrite basic_nack_run.
  - simpl. now rewrite basic_nack_run.
  - destruct (negb (Py.truthy cdc)); [now rewrite basic_nack_run|].
    unfold bind, lift, try_or_return. rewrite Hm, Hg. now rewrite basic_nack_run.
Qed.

Lemma cancel_without_cdc_or_event_is_nacked_witness :
  handle_cancelar Toy.env_cancelado 11 Toy.emissao7 Toy.documento7
    (JDict [("id_fatura", JInt 7); ("acao", JStr "cancelar"); ("motivo", JInt 5)])
    Toy.w0
  = (Ok tt, emit (Nack 11 false) (next_tick Toy.w0)).
Proof.
  refine (cancel_without_cdc_or_event_is_nacked Toy.env_cancelado 11 Toy.emissao7
            Toy.documento7 _ Toy.w0 _ _).
  - right. right. exists Cancelamento.cdc, (JInt 5), TypeError.
    split; [vm_compute; reflexivity|]. split; [reflexivity|]. vm_compute. reflexivity.
  - reflexivity.
Defined.

(** ** The other paths of the dispatcher *)

(** X11. The dispatcher nacks without requeue, and neither reads the tables
    nor calls SIFEN, when the body is not JSON, when it is JSON but not an
    object, and when its [acao] is not a string, even if the message names
    no document. *)
Theorem dispatcher_nacks_malformed_message (E : Env) (tag : Z) (b : body) (w : world) :
  b = Garbage
  \/ (exists j, b = Json j /\ forall d, j <> JDict d)
  \/ (exists d v, b = Json (JDict d) /\ assoc "acao" d = Some v
                  /\ forall s, v <> JStr s) ->
  faults w (tick w) = false ->
  on_message_received E tag b w = (Ok tt, emit (Nack tag false) (next_tick w)).
Proof.
  intros Hcase Hf. unfold on_message_received, try_except, on_message_received_try.
  destruct Hcase as [-> | [(j & -> & Hj) | (d & v & -> & Hv & Hs)]].
  - unfold bind, lift. simpl. now apply basic_nack_run.
  - unfold bind, lift. simpl json_loads. cbv iota.
    destruct j; try (simpl; now apply basic_nack_run). exfalso. now apply (Hj d).
  - unfold bind, lift. simpl json_loads. cbv iota. simpl dict_get. rewrite Hv.
    cbv iota beta. destruct v; try (simpl; now apply basic_nack_run).
    exfalso. now apply (Hs s).
Qed.

Lemma dispatcher_nacks_malformed_message_witness :
  on_message_received Toy.env_envio 11 (Json (JDict [("acao", JInt 1)])) Toy.w0
  = (Ok tt, emit (Nack 11 false) (next_tick Toy.w0)).
Proof.
  refine (dispatcher_nacks_malformed_message Toy.env_envio 11 _ Toy.w0 _ _).
  - right. right. exists [("acao", JInt 1)], (JInt 1).
    split; [reflexivity|]. split; [reflexivity|]. discriminate.
  - reflexivity.
Defined.

Lemma acao_lida (d : list (string * json)) :
  assoc "acao" d = None \/ (exists s, assoc "acao" d = Some (JStr s)) ->
  exists acao,
    rbind (dict_get (JDict d) "acao" (JStr "enviar")) json_lower = Ok acao
    /\ acao = match assoc "acao" d with
              | Some (JStr s) => Py.lower s
              | _ => "enviar"
              end.
Proof.
  intros [H | [s H]]; simpl; rewrite H; simpl; eauto.
Qed.

(** X12. A message whose [id_fatura] is absent, null, zero, false or empty
    is acked and dropped: the dispatcher reads no table, calls no handler,
    and the ack is its only effect. *)
Theorem dispatcher_drops_message_without_id (E : Env) (tag : Z)
    (d : list (string * json)) (w : world) :
  assoc "acao" d = None \/ (exists s, assoc "acao" d = Some (JStr s)) ->
  match assoc "id_fatura" d with
  | Some v => json_truthy v = false
  | None => True
  end ->
  faults w (tick w) = false ->
  on_message_received E tag (Json (JDict d)) w
  = (Ok tt, emit (Ack tag) (next_tick w)).
Proof.
  intros Hacao Hid Hf. unfold on_message_received, try_except, on_message_received_try.
  unfold bind, lift. simpl json_loads. cbv iota. simpl dict_get.
  assert (Ht : json_truthy (match assoc "id_fatura" d with
                            | Some v => v
                            | None => JNull
                            end) = false).
  { destruct (assoc "id_fatura" d); [exact Hid | reflexivity]. }
  destruct Hacao as [H | [s H]]; rewrite H; cbn [json_lower]; cbv iota beta;
    rewrite Ht; cbn [negb]; rewrite (basic_ack_run tag w Hf); reflexivity.
Qed.

Lemma dispatcher_drops_message_without_id_witness :
  on_message_received Toy.env_envio 11
    (Json (JDict [("id_fatura", JInt 0); ("acao", JStr "enviar")])) Toy.w0
  = (Ok tt, emit (Ack 11) (next_tick Toy.w0)).
Proof.
  refine (dispatcher_drops_message_without_id Toy.env_envio 11 _ Toy.w0 _ _ _).
  - right. now exists "enviar".
  - reflexivity.
  - reflexivity.
Defined.

Lemma dispatcher_reads (E : Env) (tag k : Z) (d : list (string * json)) (w : world)
    (acao : string) :
  rbind (dict_get (JDict d) "acao" (JStr "enviar")) json_lower = Ok acao ->
  assoc "id_fatura" d = Some (JInt k) ->
  k <> 0%Z ->
  faults w (tick w) = false ->
  faults w (S (tick w)) = false ->
  on_message_received_try E tag (Json (JDict d)) w
  = match option_map Db.emissao_of_row (Db.newest k (tb_de_emissao w)),
          option_map Db.documento_of_row
            (List.find (fun r => (d_id_doc r =? k)%Z) (tb_de_documento w)) with
    | Some emissao, Some documento =>
        if String.eqb acao "enviar" then handle_enviar E tag emissao documento
        else if String.eqb acao "consultar" then
          handle_consultar E tag emissao documento (Json (JDict d))
        else if String.eqb acao "cancelar" then
          handle_cancelar E tag emissao documento (JDict d)
        else Channel.basic_ack tag
    | _, _ => Channel.basic_ack tag
    end (next_tick (next_tick w)).
Proof.
  intros Hacao Hid Hk Hf1 Hf2. apply Z.eqb_neq in Hk.
  unfold on_message_received_try, bind, lift, json_loads.
  unfold rbind in Hacao.
  destruct (dict_get (JDict d) "acao" (JStr "enviar")) as [v|]; [|discriminate].
  simpl dict_get. rewrite Hid. cbv iota beta. rewrite Hacao.
  cbn [json_truthy bind_id]. rewrite Hk. cbn [negb].
  unfold Db.get_tb_de_emissao, Db.get_tb_de_documento, bind, io.
  rewrite Hf1. cbn [tick next_tick faults tb_de_emissao tb_de_documento].
  rewrite Hf2. cbn [tick next_tick faults tb_de_emissao tb_de_documento].
  reflexivity.
Qed.

(** X13. When a row of the document is missing in either table, the
    dispatcher acks and drops the message after its two reads, whatever the
    action. *)
Theorem dispatcher_drops_missing_document (E : Env) (tag k : Z)
    (d : list (string * json)) (w : world) :
  assoc "acao" d = None \/ (exists s, assoc "acao" d = Some (JStr s)) ->
  assoc "id_fatura" d = Some (JInt k) ->
  k <> 0%Z ->
  faults w (tick w) = false ->
  faults w (S (tick w)) = false ->
  faults w (S (S (tick w))) = false ->
  Db.newest k (tb_de_emissao w) = None
  \/ List.find (fun r => (d_id_doc r =? k)%Z) (tb_de_documento w) = None ->
  on_message_received E tag (Json (JDict d)) w
  = (Ok tt, emit (Ack tag) (next_tick (next_tick (next_tick w)))).
Proof.
  intros Hacao Hid Hk Hf1 Hf2 Hf3 Hmiss.
  destruct (acao_lida d Hacao) as (acao & Ha & _).
  unfold on_message_received, try_except.
  rewrite (dispatcher_reads E tag k d w acao Ha Hid Hk Hf1 Hf2).
  assert (Hack : Channel.basic_ack tag (next_tick (next_tick w))
                 = (Ok tt, emit (Ack tag) (next_tick (next_tick (next_tick w))))).
  { apply basic_ack_run. exact Hf3. }
  destruct Hmiss as [H | H]; rewrite H; cbn [option_map].
  - now rewrite Hack.
  - destruct (Db.newest k (tb_de_emissao w)); cbn [option_map]; now rewrite Hack.
Qed.

Lemma dispatcher_drops_missing_document_witness :
  on_message_received Toy.env_envio 11
    (Json (JDict [("id_fatura", JInt 99); ("acao", JStr "consultar")])) Toy.w0
  = (Ok tt, emit (Ack 11) (next_tick (next_tick (next_tick Toy.w0)))).
Proof.
  refine (dispatcher_drops_missing_document Toy.env_envio 11 99 _ Toy.w0 _ _ _ _ _ _ _).
  - right. now exists "consultar".
  - reflexivity.
  - discriminate.
  - reflexivity.
  - reflexivity.
  - reflexivity.
  - left. reflexivity.
Defined.

(** X14. Routing ignores the case of [acao]: with both rows found, an action
    whose lowercase form is "enviar", "consultar" or "cancelar" runs the
    submit, poll or cancel handler on those rows (the poll handler with the
    body, the cancel handler with the parsed object); any other action is
    acked and dropped after the two reads. *)
Theorem dispatcher_routes_by_lowercase_action (E : Env) (tag k : Z)
    (d : list (string * json)) (s : string) (row : emissao_row)
    (drow : documento_row) (w : world) :
  assoc "acao" d = Some (JStr s) ->
  assoc "id_fatura" d = Some (JInt k) ->
  k <> 0%Z ->
  faults w (tick w) = false ->
  faults w (S (tick w)) = false ->
  Db.newest k (tb_de_emissao w) = Some row ->
  List.find (fun r => (d_id_doc r =? k)%Z) (tb_de_documento w) = Some drow ->
  let emissao := Db.emissao_of_row row in
  let documento := Db.documento_of_row drow in
  let w2 := next_tick (next_tick w) in
  let run := on_message_received_try E tag (Json (JDict d)) w in
  (Py.lower s = "enviar" -> run = handle_enviar E tag emissao documento w2)
  /\ (Py.lower s = "consultar" ->
        run = handle_consultar E tag emissao documento (Json (JDict d)) w2)
  /\ (Py.lower s = "cancelar" ->
        run = handle_cancelar E tag emissao documento (JDict d) w2)
  /\ (Py.lower s <> "enviar" -> Py.lower s <> "consultar" ->
      Py.lower s <> "cancelar" -> run = Channel.basic_ack tag w2).
Proof.
  intros Hacao Hid Hk Hf1 Hf2 Hrow Hdoc emissao documento w2 run.
  assert (Ha : rbind (dict_get (JDict d) "acao" (JStr "enviar")) json_lower
               = Ok (Py.lower s)).
  { simpl. now rewrite Hacao. }
  assert (Hrun : run = (if String.eqb (Py.lower s) "enviar"
                        then handle_enviar E tag emissao documento
                        else if String.eqb (Py.lower s) "consultar"
                        then handle_consultar E tag emissao documento (Json (JDict d))
                        else if String.eqb (Py.lower s) "cancelar"
                        then handle_cancelar E tag emissao documento (JDict d)
                        else Channel.basic_ack tag) w2).
  { unfold run. rewrite (dispatcher_reads E tag k d w _ Ha Hid Hk Hf1 Hf2).
    now rewrite Hrow, Hdoc. }
  rewrite Hrun. repeat split.
  - intros ->. reflexivity.
  - intros ->. reflexivity.
  - intros ->. reflexivity.
  - intros H1 H2 H3. apply String.eqb_neq in H1, H2, H3. now rewrite H1, H2, H3.
Qed.

Lemma dispatcher_routes_by_lowercase_action_witness :
  on_message_received_try Toy.env_pendente 11
    (Json (JDict [("id_fatura", JInt 7); ("acao", JStr "CONSULTAR")])) Toy.w0
  = handle_consultar Toy.env_pendente 11 Toy.emissao7 Toy.documento7
      (Json (JDict [("id_fatura", JInt 7); ("acao", JStr "CONSULTAR")]))
      (next_tick (next_tick Toy.w0)).
Proof.
  refine (proj1 (proj2
    (dispatcher_routes_by_lowercase_action Toy.env_pendente 11 7
       [("id_fatura", JInt 7); ("acao", JStr "CONSULTAR")] "CONSULTAR"
       Toy.row7 Toy.doc7 Toy.w0 _ _ _ _ _ _ _)) _).
  - reflexivity.
  - reflexivity.
  - discriminate.
  - reflexivity.
  - reflexivity.
  - reflexivity.
  - reflexivity.
  - reflexivity.
Defined.

(** ** The publisher and the worker together *)

Lemma processa_consulta_message (id_fatura : Z) (w w' : world) :
  Publisher.processa_consulta id_fatura w = (Ok tt, w') ->
  channel w'
  = (channel w
     ++ [Publish "" "faturas_para_processar"
           (Json (JDict [("id_fatura", JInt id_fatura); ("acao", JStr "consultar");
                         ("tentativas", JInt 1)])) 2])%list.
Proof.
  unfold Publisher.processa_consulta, Publisher.abrir_canal. intros H.
  step H. apply io_Ok in Hstep as [_ ->].
  apply basic_publish_Ok in H. subst. reflexivity.
Qed.

Lemma processa_cancelamento_message (id_fatura : Z) (m : string) (w w' : world) :
  Publisher.processa_cancelamento id_fatura (Some m) w = (Ok tt, w') ->
  5 <= String.length m
  /\ channel w'
     = (channel w
        ++ [Publish "" "faturas_para_processar"
              (Json (JDict [("id_fatura", JInt id_fatura); ("acao", JStr "cancelar");
                            ("motivo", JStr m)])) 2])%list.
Proof.
  unfold Publisher.processa_cancelamento, Publisher.abrir_canal. intros H.
  destruct (negb (Py.truthy m) || (String.length m <? 5)%nat) eqn:Hm; [discriminate|].
  apply orb_false_iff in Hm as [_ Hm]. apply Nat.ltb_ge in Hm. split; [exact Hm|].
  step H. apply io_Ok in Hstep as [_ ->].
  apply basic_publish_Ok in H. subst. reflexivity.
Qed.

Lemma consultar_pendente_forward (E : Env) (tag : Z) (emissao : Db.emissao)
    (documento : Db.documento) (b : body) (w w1 : world) (retorno : string)
    (retorno_root : xml) (dados t : json) (n : Z) :
  consultar_lote_sifen E (Db.protocolo emissao) (Db.caminho_certificado emissao)
    (Db.senha emissao) w = (Ok retorno, w1) ->
  fromstring E (Py.encode_utf8 retorno) = Ok retorno_root ->
  is_0160 retorno_root = false ->
  is_aprovado retorno_root = false ->
  is_rejeitado retorno_root = false ->
  json_loads b = Ok dados ->
  dict_get dados "tentativas" (JInt 1) = Ok t ->
  as_int t = Some n ->
  (n < 10)%Z ->
  faults w1 (tick w1) = false ->
  faults w1 (S (tick w1)) = false ->
  handle_consultar E tag emissao documento b w
  = (Ok tt, emit (Ack tag)
              (next_tick (emit (poll_message (Db.id_docfis emissao) (n + 1))
                            (next_tick w1)))).
Proof.
  intros Hsend Hparse H0 Ha Hr Hloads Hget Hn Hlt Hg1 Hg2.
  destruct dados as [| | | | |d]; try discriminate Hget.
  assert (Hpub : agendar_consulta (Db.id_docfis emissao)
                   (JDict (assoc_set "tentativas" (JInt (n + 1)) d)) w1
                 = (Ok tt, emit (poll_message (Db.id_docfis emissao) (n + 1))
                             (next_tick w1))).
  { unfold agendar_consulta, bind, lift, dict_get. rewrite assoc_set_get.
    unfold Channel.basic_publish, bind, io, modify. rewrite Hg1. reflexivity. }
  unfold handle_consultar, try_except, handle_consultar_try.
  unfold bind at 1. rewrite Hsend.
  unfold bind at 1, lift at 1. rewrite Hparse. rewrite H0, Ha, Hr.
  unfold bind at 1.
  unfold bind at 1, lift at 1. rewrite Hloads.
  unfold bind at 1, lift at 1. rewrite Hget.
  unfold bind at 1, lift at 1. unfold lt_int. rewrite Hn.
  apply Z.ltb_lt in Hlt. unfold MAX_TENTATIVAS_CONSULTA. rewrite Hlt.
  unfold bind at 1, lift at 1. unfold add_one. rewrite Hn.
  unfold bind at 1, lift at 1. cbn [dict_set]. rewrite Hpub.
  unfold Channel.basic_ack, bind, io, modify.
  cbn [tick next_tick faults emit]. rewrite Hg2. reflexivity.
Qed.

(** X15. A poll requested through [processa_consulta] starts a fresh count:
    the publisher puts one persistent message on the main queue; the
    dispatcher, finding both rows, hands it to the poll handler; and on an
    answer that is neither 0160, nor approved, nor rejected, with the two
    channel calls going through, the worker parks a poll carrying
    [tentativas = 2] on the delay queue and acks, writing to no table. *)
Theorem requested_poll_starts_a_fresh_count (E : Env) (tag j : Z)
    (row : emissao_row) (drow : documento_row) (wp wp' w w1 : world)
    (retorno : string) (retorno_root : xml) :
  let b := Json (JDict [("id_fatura", JInt j); ("acao", JStr "consultar");
                        ("tentativas", JInt 1)]) in
  let emissao := Db.emissao_of_row row in
  Publisher.processa_consulta j wp = (Ok tt, wp') ->
  j <> 0%Z ->
  faults w (tick w) = false ->
  faults w (S (tick w)) = false ->
  Db.newest j (tb_de_emissao w) = Some row ->
  List.find (fun r => (d_id_doc r =? j)%Z) (tb_de_documento w) = Some drow ->
  consultar_lote_sifen E (Db.protocolo emissao) (Db.caminho_certificado emissao)
    (Db.senha emissao) (next_tick (next_tick w)) = (Ok retorno, w1) ->
  fromstring E (Py.encode_utf8 retorno) = Ok retorno_root ->
  is_0160 retorno_root = false ->
  is_aprovado retorno_root = false ->
  is_rejeitado retorno_root = false ->
  faults w1 (tick w1) = false ->
  faults w1 (S (tick w1)) = false ->
  channel wp' = (channel wp ++ [Publish "" "faturas_para_processar" b 2])%list
  /\ on_message_received E tag b w
     = (Ok tt, emit (Ack tag) (next_tick (emit (poll_message j 2) (next_tick w1)))).
Proof.
  intros b emissao Hpub Hj Hf1 Hf2 Hrow Hdoc Hsend Hparse H0 Ha Hr Hg1 Hg2.
  subst b.
  split; [now apply processa_consulta_message|].
  assert (Hid : Db.id_docfis emissao = j).
  { unfold emissao. simpl. now apply newest_id_docfis in Hrow. }
  unfold on_message_received, try_except.
  rewrite (dispatcher_reads E tag j
             [("id_fatura", JInt j); ("acao", JStr "consultar"); ("tentativas", JInt 1)]
             w "consultar" eq_refl eq_refl Hj Hf1 Hf2).
  rewrite Hrow, Hdoc. cbn [option_map]. fold emissao.
  change (String.eqb "consultar" "enviar") with false.
  change (String.eqb "consultar" "consultar") with true. cbv iota.
  rewrite (consultar_pendente_forward E tag emissao (Db.documento_of_row drow)
             (Json (JDict [("id_fatura", JInt j); ("acao", JStr "consultar");
                           ("tentativas", JInt 1)]))
             (next_tick (next_tick w)) w1 retorno retorno_root
             (JDict [("id_fatura", JInt j); ("acao", JStr "consultar");
                     ("tentativas", JInt 1)])
             (JInt 1) 1 Hsend Hparse H0 Ha Hr eq_refl eq_refl eq_refl eq_refl Hg1 Hg2).
  rewrite Hid. reflexivity.
Qed.

Lemma requested_poll_starts_a_fresh_count_witness :
  channel (snd (Publisher.processa_consulta 7 Toy.w0))
  = [Publish "" "faturas_para_processar"
       (Json (JDict [("id_fatura", JInt 7); ("acao", JStr "consultar");
                     ("tentativas", JInt 1)])) 2]
  /\ channel (snd (on_message_received Toy.env_pendente 11
                     (Json (JDict [("id_fatura", JInt 7); ("acao", JStr "consultar");
                                   ("tentativas", JInt 1)])) Toy.w0))
     = [poll_message 7 2; Ack 11].
Proof.
  pose proof (requested_poll_starts_a_fresh_count Toy.env_pendente 11 7 Toy.row7
                Toy.doc7 Toy.w0 (snd (Publisher.processa_consulta 7 Toy.w0)) Toy.w0
                (snd (consultar_lote_sifen Toy.env_pendente
                        (Db.protocolo Toy.emissao7)
                        (Db.caminho_certificado Toy.emissao7)
                        (Db.senha Toy.emissao7) (next_tick (next_tick Toy.w0))))
                (text Toy.resposta_pendente) Toy.arvore_pendente) as H.
  cbv zeta in H.
  destruct H as [H1 H2]; try (vm_compute; reflexivity); try discriminate.
  split.
  - rewrite H1. reflexivity.
  - rewrite H2. reflexivity.
Defined.

(** X16. A cancellation requested through [processa_cancelamento] reaches
    the cancel handler with its reason: the publisher puts one persistent
    message on the main queue only for a reason of five characters or more;
    the dispatcher, finding both rows, runs the cancel handler on it; and
    the reason the handler reads from the message is the string the
    publisher was given. *)
Theorem requested_cancel_carries_its_reason (E : Env) (tag j : Z) (m : string)
    (row : emissao_row) (drow : documento_row) (wp wp' w : world) :
  let dados := JDict [("id_fatura", JInt j); ("acao", JStr "cancelar");
                      ("motivo", JStr m)] in
  Publisher.processa_cancelamento j (Some m) wp = (Ok tt, wp') ->
  j <> 0%Z ->
  faults w (tick w) = false ->
  faults w (S (tick w)) = false ->
  Db.newest j (tb_de_emissao w) = Some row ->
  List.find (fun r => (d_id_doc r =? j)%Z) (tb_de_documento w) = Some drow ->
  5 <= String.length m
  /\ channel wp' = (channel wp ++ [Publish "" "faturas_para_processar" (Json dados) 2])%list
  /\ on_message_received_try E tag (Json dados) w
     = handle_cancelar E tag (Db.emissao_of_row row) (Db.documento_of_row drow) dados
         (next_tick (next_tick w))
  /\ dict_get dados "motivo" (JStr "Solicitud de cancelacion") = Ok (JStr m).
Proof.
  intros dados Hpub Hj Hf1 Hf2 Hrow Hdoc. subst dados.
  destruct (processa_cancelamento_message _ _ _ _ Hpub) as [Hlen Hch].
  split; [exact Hlen|]. split; [exact Hch|]. split; [|reflexivity].
  rewrite (dispatcher_reads E tag j
             [("id_fatura", JInt j); ("acao", JStr "cancelar"); ("motivo", JStr m)]
             w "cancelar" eq_refl eq_refl Hj Hf1 Hf2).
  now rewrite Hrow, Hdoc.
Qed.

Lemma requested_cancel_carries_its_reason_witness :
  5 <= String.length "Error de carga"
  /\ channel (snd (Publisher.processa_cancelamento 7 (Some "Error de carga") Toy.w0))
     = (channel Toy.w0
        ++ [Publish "" "faturas_para_processar"
              (Json (Cancelamento.cancelar "Error de carga")) 2])%list
  /\ on_message_received_try Toy.env_cancelado 11
       (Json (Cancelamento.cancelar "Error de carga")) Toy.w0
     = handle_cancelar Toy.env_cancelado 11 Toy.emissao7 Toy.documento7
         (Cancelamento.cancelar "Error de carga") (next_tick (next_tick Toy.w0))
  /\ dict_get (Cancelamento.cancelar "Error de carga") "motivo"
       (JStr "Solicitud de cancelacion") = Ok (JStr "Error de carga").
Proof.
  refine (requested_cancel_carries_its_reason Toy.env_cancelado 11 7 "Error de carga"
            Toy.row7 Toy.doc7 Toy.w0
            (snd (Publisher.processa_cancelamento 7 (Some "Error de carga") Toy.w0))
            Toy.w0 _ _ _ _ _ _).
  - reflexivity.
  - discriminate.
  - reflexivity.
  - reflexivity.
  - reflexivity.
  - reflexivity.
Defined.



(** ** database.py: what a read returns, before and after an update *)

Lemma newest_spec (k : Z) (rows : list emissao_row) (r : emissao_row) :
  Db.newest k rows = Some r ->
  In r rows /\ r_id_docfis r = k
  /\ forall r', In r' rows -> r_id_docfis r' = k -> (r_id r' <= r_id r)%Z.
Proof.
  revert r. induction rows as [|x rows IH]; intros r; simpl; [discriminate|].
  destruct (r_id_docfis x =? k)%Z eqn:Hx.
  - apply Z.eqb_eq in Hx. destruct (Db.newest k rows) as [r0|] eqn:Hn.
    + destruct (IH r0 eq_refl) as (Hin & Hk & Hmax).
      destruct (r_id x <? r_id r0)%Z eqn:Hlt; intros H; injection H as <-.
      * apply Z.ltb_lt in Hlt. repeat split; auto.
        intros r' [<- | Hr'] Hk'; [lia | auto].
      * apply Z.ltb_ge in Hlt. repeat split; auto.
        intros r' [<- | Hr'] Hk'; [lia|]. specialize (Hmax r' Hr' Hk'). lia.
    + intros H. injection H as <-. repeat split; auto.
      intros r' [<- | Hr'] Hk'; [lia|].
      exfalso. clear IH. induction rows as [|y rows IHr]; [destruct Hr'|].
      simpl in Hn. destruct (r_id_docfis y =? k)%Z eqn:Hy.
      * destruct (Db.newest k rows) as [z|]; [destruct (r_id y <? r_id z)%Z|];
          discriminate.
      * destruct Hr' as [<- | Hr']; [apply Z.eqb_neq in Hy; contradiction|auto].
  - intros H. destruct (IH r H) as (Hin & Hk & Hmax). repeat split; auto.
    intros r' [<- | Hr'] Hk'; [apply Z.eqb_neq in Hx; contradiction | auto].
Qed.

Lemma newest_None (k : Z) (rows : list emissao_row) :
  Db.newest k rows = None <-> forall r, In r rows -> r_id_docfis r <> k.
Proof.
  induction rows as [|x rows IH]; simpl.
  - split; [intros _ r [] | reflexivity].
  - destruct (r_id_docfis x =? k)%Z eqn:Hx.
    + apply Z.eqb_eq in Hx. split.
      * destruct (Db.newest k rows) as [z|]; [destruct (r_id x <? r_id z)%Z|];
          discriminate.
      * intros H. exfalso. apply (H x); auto.
    + apply Z.eqb_neq in Hx. rewrite IH. split.
      * intros H r [<- | Hr]; auto.
      * intros H r Hr. apply H. auto.
Qed.

(** X18. [get_tb_de_emissao] reads the latest emission of the document: a
    successful read changes no table and returns either a row of the
    table with the requested [id_docfis] whose [id] is the largest among
    the rows of that document, or nothing when the document has no row. *)
Theorem read_returns_latest_emission (k : Z) (w w' : world)
    (o : option Db.emissao) :
  Db.get_tb_de_emissao k w = (Ok o, w') ->
  w' = next_tick w
  /\ match o with
     | Some e =>
         exists r, In r (tb_de_emissao w) /\ e = Db.emissao_of_row r
                   /\ r_id_docfis r = k
                   /\ forall r', In r' (tb_de_emissao w) -> r_id_docfis r' = k ->
                                 (r_id r' <= r_id r)%Z
     | None => forall r, In r (tb_de_emissao w) -> r_id_docfis r <> k
     end.
Proof.
  unfold Db.get_tb_de_emissao, bind, io. destruct (faults w (tick w)); [discriminate|].
  cbn [tb_de_emissao next_tick]. intros H. injection H as <- <-. split; [reflexivity|].
  destruct (Db.newest k (tb_de_emissao w)) as [r|] eqn:Hn; cbn [option_map].
  - exists r. destruct (newest_spec _ _ _ Hn) as (H1 & H2 & H3). auto.
  - now apply newest_None.
Qed.

Lemma read_returns_latest_emission_witness :
  next_tick Toy.w0 = next_tick Toy.w0
  /\ exists r, In r (tb_de_emissao Toy.w0) /\ Toy.emissao7 = Db.emissao_of_row r
               /\ r_id_docfis r = 7%Z
               /\ forall r', In r' (tb_de_emissao Toy.w0) -> r_id_docfis r' = 7%Z ->
                             (r_id r' <= r_id r)%Z.
Proof.
  refine (read_returns_latest_emission 7 Toy.w0 (next_tick Toy.w0)
            (Some Toy.emissao7) _).
  reflexivity.
Defined.

Lemma id_update_row (k : Z) (kwargs : list (Db.campo * option string))
    (r : emissao_row) :
  r_id (Db.update_row k kwargs r) = r_id r.
Proof.
  pose proof (frozen_update_row k kwargs r) as H. unfold frozen in H. congruence.
Qed.

Lemma newest_update (j k : Z) (kwargs : list (Db.campo * option string))
    (rows : list emissao_row) :
  Db.newest j (map (Db.update_row k kwargs) rows)
  = option_map (Db.update_row k kwargs) (Db.newest j rows).
Proof.
  induction rows as [|x rows IH]; [reflexivity|].
  cbn [map Db.newest]. rewrite id_docfis_update_row, IH.
  destruct (r_id_docfis x =? j)%Z; [|reflexivity].
  destruct (Db.newest j rows) as [z|]; cbn [option_map]; [|reflexivity].
  rewrite !id_update_row. now destruct (r_id x <? r_id z)%Z.
Qed.

Lemma rowcount_zero (k : Z) (rows : list emissao_row) :
  Db.rowcount_emissao k rows = 0%Z <-> Db.newest k rows = None.
Proof.
  rewrite newest_None. unfold Db.rowcount_emissao.
  induction rows as [|x rows IH]; simpl.
  - split; [intros _ r [] | reflexivity].
  - destruct (r_id_docfis x =? k)%Z eqn:Hx.
    + apply Z.eqb_eq in Hx. split; [intros H; simpl in H; lia|].
      intros H. exfalso. apply (H x); auto.
    + apply Z.eqb_neq in Hx. rewrite IH. split.
      * intros H r [<- | Hr]; auto.
      * intros H r Hr. apply H. auto.
Qed.



Lemma coluna_set_campo (c : Db.campo) (kv : Db.campo * option string)
    (r : emissao_row) :
  coluna c (Db.set_campo r kv)
  = if campo_eqb (fst kv) c then snd kv else coluna c r.
Proof. destruct kv as [c' v]. destruct c, c'; reflexivity. Qed.

Lemma campo_eqb_eq (a b : Db.campo) : campo_eqb a b = true <-> a = b.
Proof. destruct a, b; simpl; split; congruence. Qed.

Lemma coluna_fold_other (c : Db.campo) (kwargs : list (Db.campo * option string))
    (r : emissao_row) :
  ~ In c (map fst kwargs) -> coluna c (fold_left Db.set_campo kwargs r) = coluna c r.
Proof.
  revert r. induction kwargs as [|kv kwargs IH]; intros r Hc; [reflexivity|].
  simpl. rewrite IH by (intros H; apply Hc; now right).
  rewrite coluna_set_campo. destruct (campo_eqb (fst kv) c) eqn:He; [|reflexivity].
  apply campo_eqb_eq in He. exfalso. apply Hc. now left.
Qed.



Lemma find_update_doc (j k : Z) (cod : option Z) (desc : option string)
    (rows : list documento_row) :
  List.find (fun r => (d_id_doc r =? j)%Z) (map (Db.update_doc_row k cod desc) rows)
  = option_map (Db.update_doc_row k cod desc)
      (List.find (fun r => (d_id_doc r =? j)%Z) rows).
Proof.
  induction rows as [|x rows IH]; [reflexivity|].
  cbn [map List.find]. rewrite id_doc_update_doc_row, IH.
  now destruct (d_id_doc x =? j)%Z.
Qed.

(** X21. The header table, read after an update of the same document: a
    value that was given is the value read; a value that was not given
    ([None]) leaves the column as it was; and with neither given the update
    issues no statement at all. *)
Theorem header_read_after_update (k : Z) (cod : option Z) (desc : option string)
    (w w1 w2 : world) (n : Z) (d : Db.documento) :
  Db.update_tb_de_documento k cod desc w = (Ok n, w1) ->
  Db.get_tb_de_documento k w1 = (Ok (Some d), w2) ->
  exists d0,
    List.find (fun r => (d_id_doc r =? k)%Z) (tb_de_documento w) = Some d0
    /\ Db.id_doc d = k
    /\ Db.doc_cod_status d = match cod with Some c => Some c | None => d_cod_status d0 end
    /\ Db.doc_desc_status d
       = match desc with Some s => Some s | None => d_desc_status d0 end
    /\ (cod = None -> desc = None -> w1 = w).
Proof.
  intros Hup Hget.
  assert (Htab : tb_de_documento w1
                 = map (Db.update_doc_row k cod desc) (tb_de_documento w)
                 /\ (cod = None -> desc = None -> w1 = w)).
  { unfold Db.update_tb_de_documento in Hup.
    destruct cod as [c|], desc as [s|];
      try (unfold bind, io in Hup; destruct (faults w (tick w)); [discriminate|];
           injection Hup as _ <-; split; [reflexivity | discriminate]).
    unfold ret in Hup. injection Hup as _ <-. split; [|reflexivity].
    rewrite <- (map_id (tb_de_documento w)) at 1. apply map_ext.
    intros [a b c]. unfold Db.update_doc_row. simpl. now destruct (a =? k)%Z. }
  destruct Htab as [Htab Hnoop].
  unfold Db.get_tb_de_documento, bind, io in Hget.
  destruct (faults w1 (tick w1)); [discriminate|].
  cbn [tb_de_documento next_tick] in Hget. rewrite Htab, find_update_doc in Hget.
  destruct (List.find (fun r => (d_id_doc r =? k)%Z) (tb_de_documento w))
    as [d0|] eqn:Hd0; [|discriminate].
  injection Hget as <- _. exists d0. split; [reflexivity|].
  apply find_some in Hd0 as [_ Hk]. apply Z.eqb_eq in Hk.
  unfold Db.update_doc_row. apply Z.eqb_eq in Hk. rewrite Hk. simpl.
  apply Z.eqb_eq in Hk. auto.
Qed.

Lemma header_read_after_update_witness :
  let w1 := snd (Db.update_tb_de_documento 7 (Some 600%Z) None Toy.w0) in
  let d := {| Db.id_doc := 7; Db.doc_cod_status := Some 600%Z;
              Db.doc_desc_status := d_desc_status Toy.doc7 |} in
  Db.get_tb_de_documento 7 w1 = (Ok (Some d), next_tick w1)
  /\ exists d0,
       List.find (fun r => (d_id_doc r =? 7)%Z) (tb_de_documento Toy.w0) = Some d0
       /\ Db.id_doc d = 7%Z
       /\ Db.doc_cod_status d = Some 600%Z
       /\ Db.doc_desc_status d = d_desc_status d0
       /\ (Some 600%Z = None -> @None string = None -> w1 = Toy.w0).
Proof.
  cbv zeta. split; [reflexivity|].
  refine (header_read_after_update 7 (Some 600%Z) None Toy.w0
            (snd (Db.update_tb_de_documento 7 (Some 600%Z) None Toy.w0))
            (next_tick (snd (Db.update_tb_de_documento 7 (Some 600%Z) None Toy.w0)))
            1
            {| Db.id_doc := 7; Db.doc_cod_status := Some 600%Z;
               Db.doc_desc_status := d_desc_status Toy.doc7 |} _ _).
  - reflexivity.
  - reflexivity.
Defined.

(** ** sifen_api.py: the certificate comes first *)

(** X22. Without a loadable certificate nothing is sent: when the PKCS#12
    file cannot be read, each of the three SIFEN calls raises that error
    and leaves the world, its request log included, as it was. *)
Theorem no_request_without_certificate (E : Env) (cert_path cert_pass : string)
    (e : exn) (w : world) :
  pfx_to_pem E cert_path cert_pass = Exc e ->
  (forall payload, enviar_lote_sifen E payload cert_path cert_pass w = (Exc e, w))
  /\ (forall protocolo,
        consultar_lote_sifen E protocolo cert_path cert_pass w = (Exc e, w))
  /\ (forall ev id_evento,
        enviar_evento_cancelamento E ev id_evento cert_path cert_pass w = (Exc e, w)).
Proof.
  intros H.
  assert (Hm : forall url data,
             _make_sifen_request E url data cert_path cert_pass w = (Exc e, w)).
  { intros url data. unfold _make_sifen_request, bind, lift. now rewrite H. }
  repeat split; intros; apply Hm.
Qed.

Lemma no_request_without_certificate_witness :
  consultar_lote_sifen Cenario.env_sem_certificado "4711" "/certs/a.pfx" "segredo"
    Toy.w0 = (Exc CertificateError, Toy.w0).
Proof.
  refine (proj1 (proj2 (no_request_without_certificate Cenario.env_sem_certificado
                          "/certs/a.pfx" "segredo" CertificateError Toy.w0 _)) "4711").
  reflexivity.
Defined.

(** ** sifen_xml.py: the text of the QR token *)

Lemma lstrip_pad (a s : string) :
  Py.all_chars Py.isspace a = true -> Py.lstrip (a ++ s) = Py.lstrip s.
Proof.
  induction a as [|c a IH]; simpl; [reflexivity|].
  intros H. apply andb_true_iff in H as [Hc Ha]. rewrite Hc. auto.
Qed.

Lemma rstrip_space (b : string) :
  Py.all_chars Py.isspace b = true -> Py.rstrip b = "".
Proof.
  induction b as [|c b IH]; simpl; [reflexivity|].
  intros H. apply andb_true_iff in H as [Hc Hb]. now rewrite (IH Hb), Hc.
Qed.

Lemma rstrip_pad (s b : string) :
  Py.all_chars Py.isspace b = true -> Py.rstrip (s ++ b) = Py.rstrip s.
Proof.
  intros Hb. induction s as [|c s IH]; simpl; [now apply rstrip_space|].
  now rewrite IH.
Qed.

Lemma lstrip_append (s b : string) :
  Py.all_chars Py.isspace b = true ->
  Py.lstrip (s ++ b) = match Py.lstrip s with
                       | EmptyString => ""
                       | x => x ++ b
                       end.
Proof.
  intros Hb. induction s as [|c s IH]; simpl.
  - clear -Hb. induction b as [|c b IH]; simpl; [reflexivity|].
    simpl in Hb. apply andb_true_iff in Hb as [Hc Hb]. rewrite Hc. auto.
  - destruct (Py.isspace c); [exact IH | reflexivity].
Qed.

Lemma strip_pad (a s b : string) :
  Py.all_chars Py.isspace a = true ->
  Py.all_chars Py.isspace b = true ->
  Py.strip (a ++ s ++ b) = Py.strip s.
Proof.
  intros Ha Hb. unfold Py.strip. rewrite (lstrip_pad _ _ Ha), (lstrip_append _ _ Hb).
  destruct (Py.lstrip s) as [|c x] eqn:Hs; [reflexivity|].
  change (String c x ++ b) with ((String c x) ++ b). now apply rstrip_pad.
Qed.

(** X23. White space around the CSC stored with the emission does not
    change the QR: padding the CSC on either side with white space gives the
    same seal, the same URL, and the same output of the signer. *)
Theorem qr_ignores_space_around_csc (E : Env)
    (xml_original cert_pfx_path cert_pass a csc b csc_id : string)
    (signed_root : xml) (base : string) :
  Py.all_chars Py.isspace a = true ->
  Py.all_chars Py.isspace b = true ->
  Qr.cHashQR base (a ++ csc ++ b) = Qr.cHashQR base csc
  /\ Qr.url_final_qr (URL_SIFEN_QR E) signed_root (a ++ csc ++ b) csc_id
     = Qr.url_final_qr (URL_SIFEN_QR E) signed_root csc csc_id
  /\ assinar_e_gerar_qr E xml_original cert_pfx_path cert_pass (a ++ csc ++ b) csc_id
     = assinar_e_gerar_qr E xml_original cert_pfx_path cert_pass csc csc_id.
Proof.
  intros Ha Hb.
  assert (Hh : forall x, Qr.cHashQR x (a ++ csc ++ b) = Qr.cHashQR x csc).
  { intros x. unfold Qr.cHashQR. now rewrite strip_pad. }
  assert (Hu : forall r, Qr.url_final_qr (URL_SIFEN_QR E) r (a ++ csc ++ b) csc_id
                         = Qr.url_final_qr (URL_SIFEN_QR E) r csc csc_id).
  { intros r. unfold Qr.url_final_qr, rbind.
    destruct (Qr.url_base_qr r csc_id); [now rewrite Hh | reflexivity]. }
  split; [apply Hh|]. split; [apply Hu|].
  unfold assinar_e_gerar_qr, rbind.
  destruct (pfx_to_pem E cert_pfx_path cert_pass) as [[key cert]|]; [|reflexivity].
  destruct (fromstring_clean E _) as [root|]; [|reflexivity].
  destruct (match find (InNs SIFEN_NS "dFecFirma") root with
            | Some _ => _
            | None => _
            end) as [root1|]; [|reflexivity].
  destruct (match find (InNs SIFEN_NS "DE") root1 with
            | Some _ => _
            | None => _
            end) as [de_id|]; [|reflexivity].
  destruct (xml_sign E root1 key cert _ true) as [sr|]; [|reflexivity].
  now rewrite Hu.
Qed.

Lemma qr_ignores_space_around_csc_witness :
  Qr.cHashQR "nVersion=150" (" " ++ "ABCD0000" ++ nl) = Qr.cHashQR "nVersion=150" "ABCD0000"
  /\ Qr.url_final_qr (URL_SIFEN_QR Toy.env_envio)
       (Toy.sign Toy.documento_original "#x") (" " ++ "ABCD0000" ++ nl) "0001"
     = Qr.url_final_qr (URL_SIFEN_QR Toy.env_envio)
         (Toy.sign Toy.documento_original "#x") "ABCD0000" "0001"
  /\ assinar_e_gerar_qr Toy.env_envio "<x/>" "/certs/a.pfx" "segredo"
       (" " ++ "ABCD0000" ++ nl) "0001"
     = assinar_e_gerar_qr Toy.env_envio "<x/>" "/certs/a.pfx" "segredo" "ABCD0000" "0001".
Proof.
  refine (qr_ignores_space_around_csc Toy.env_envio "<x/>" "/certs/a.pfx" "segredo"
            " " "ABCD0000" nl "0001" (Toy.sign Toy.documento_original "#x")
            "nVersion=150" _ _).
  - reflexivity.
  - reflexivity.
Defined.

Lemma hex_digit_lower (n : N) : (n < 16)%N -> is_hex_lower (Py.hex_digit n) = true.
Proof.
  intros H. assert (Hc : In n [0; 1; 2; 3; 4; 5; 6; 7; 8; 9; 10; 11; 12; 13; 14; 15]%N).
  { simpl. lia. }
  simpl in Hc. repeat (destruct Hc as [<- | Hc]; [reflexivity|]). destruct Hc.
Qed.

Lemma hex_lower (bs : list byte) : Py.all_chars is_hex_lower (Py.hex bs) = true.
Proof.
  induction bs as [|b bs IH]; [reflexivity|].
  cbn [Py.hex Py.all_chars]. rewrite IH.
  assert (Hb : (Byte.to_N b < 256)%N) by (pose proof (Byte.to_N_bounded b); lia).
  rewrite !hex_digit_lower; [reflexivity| |].
  - change 15%N with (N.ones 4). rewrite N.land_ones. apply N.mod_lt. discriminate.
  - rewrite N.shiftr_div_pow2. change (2 ^ 4)%N with 16%N.
    apply N.Div0.div_lt_upper_bound. simpl. lia.
Qed.

(** X24. The three computed fields of the QR are lowercase hexadecimal:
    [dFeEmiDE] and [DigestValue] hold two digits for each byte of the UTF-8
    form of the text they encode, and the seal [cHashQR] holds exactly 64
    digits, whatever the document and the CSC. *)
Theorem qr_hex_fields_are_lowercase_hex (signed_root : xml) (d base csc : string) :
  Py.all_chars is_hex_lower (Qr.dFeEmiDE_hex signed_root) = true
  /\ String.length (Qr.dFeEmiDE_hex signed_root)
     = 2 * List.length (Py.encode_utf8 (Qr.get_xml_text signed_root "dFeEmiDE"))
  /\ Py.all_chars is_hex_lower (Qr.digest_value_hex d) = true
  /\ String.length (Qr.digest_value_hex d)
     = 2 * List.length (Py.encode_utf8 (Py.strip d))
  /\ Py.all_chars is_hex_lower (Qr.cHashQR base csc) = true
  /\ String.length (Qr.cHashQR base csc) = 64.
Proof.
  unfold Qr.dFeEmiDE_hex, Qr.digest_value_hex, Qr.cHashQR, Sha256.hexdigest.
  repeat split; try apply hex_lower; apply length_hex.
Qed.

(** ** sifen_xml.py: where the QR element and the signature end up *)

Lemma xml_induction (P : xml -> Prop) :
  (forall ns n m a t cs, Forall P cs -> P (Element ns n m a t cs)) ->
  forall e, P e.
Proof.
  intros H. fix IH 1. intros [ns n m a t cs]. apply H.
  induction cs as [|c r IHr]; constructor; [apply IH | exact IHr].
Qed.

Lemma outline_eq (d : nat) (ns n : string) (m a : list (string * string))
    (t : option string) (cs : list xml) :
  outline d (Element ns n m a t cs)
  = (d, Element ns n m a t []) :: flat_map (outline (S d)) cs.
Proof. reflexivity. Qed.

Lemma descendants_eq (ns n : string) (m a : list (string * string))
    (t : option string) (cs : list xml) :
  descendants (Element ns n m a t cs) = below cs.
Proof.
  unfold below. cbn [descendants]. induction cs as [|c r IH]; [reflexivity|].
  cbn [flat_map]. rewrite <- IH. reflexivity.
Qed.

Lemma insert_after_first_eq (p : xml -> bool) (new : xml) (ns n : string)
    (m a : list (string * string)) (t : option string) (cs : list xml) :
  insert_after_first p new (Element ns n m a t cs)
  = option_map (Element ns n m a t) (insert_in p new cs).
Proof.
  cbn [insert_after_first].
  assert (H : (fix walk (l : list xml) : option (list xml) :=
                 match l with
                 | [] => None
                 | c :: r =>
                     if p c then Some (c :: new :: r)
                     else match insert_after_first p new c with
                          | Some c' => Some (c' :: r)
                          | None => match walk r with
                                    | Some r' => Some (c :: r')
                                    | None => None
                                    end
                          end
                 end) cs = insert_in p new cs).
  { induction cs as [|c r IH]; [reflexivity|]. cbn [insert_in]. now rewrite IH. }
  rewrite H. now destruct (insert_in p new cs).
Qed.

Lemma find_append {A} (p : A -> bool) (l1 l2 : list A) :
  List.find p (l1 ++ l2)
  = match List.find p l1 with Some x => Some x | None => List.find p l2 end.
Proof.
  induction l1 as [|x l1 IH]; [reflexivity|]. simpl. now destruct (p x).
Qed.

Section Insertion.

Variable p : xml -> bool.
Variable new : xml.
Hypothesis Hp : forall x, p (shallow x) = p x.

Lemma insert_in_step (cs : list xml) :
  Forall (tree_spec p new) cs -> list_spec p new cs.
Proof.
  induction 1 as [|c r Hc Hr IHr]; intros k.
  - split; [constructor | reflexivity].
  - cbn [insert_in]. destruct (p c) eqn:Hpc.
    + exists [], c, (flat_map (outline k) r), k. cbn [flat_map below app].
      repeat split; auto. cbn [List.find]. now rewrite Hpc.
    + specialize (Hc k). destruct (insert_after_first p new c) as [c'|].
      * destruct Hc as (Hsh & l1 & s & l2 & j & H1 & H2 & H3 & H4 & H5).
        destruct c as [ns' n' m' a' t' cs0], c' as [ns2 n2 m2 a2 t2 cs2].
        cbn [el_children shallow] in *. injection Hsh as -> -> -> -> ->.
        exists ((k, Element ns' n' m' a' t' []) :: l1), s,
               (l2 ++ flat_map (outline k) r)%list, j.
        cbn [flat_map]. rewrite !outline_eq, H1, H5.
        repeat split; auto.
        -- cbn [app]. f_equal. now rewrite <- !app_assoc.
        -- constructor; [|exact H2]. cbn [snd].
           rewrite <- Hpc. apply (Hp (Element ns' n' m' a' t' cs0)).
        -- unfold below in *. cbn [flat_map app List.find]. rewrite Hpc.
           rewrite descendants_eq. unfold below. rewrite find_append, H4. reflexivity.
        -- cbn [app]. f_equal. now rewrite <- !app_assoc.
      * destruct Hc as [Hc1 Hc2]. specialize (IHr k).
        assert (Hhead : Forall (fun x => p (snd x) = false) (outline k c)).
        { destruct c as [ns' n' m' a' t' cs0]. rewrite outline_eq.
          constructor; [|exact Hc1]. cbn [snd]. rewrite <- Hpc.
          apply (Hp (Element ns' n' m' a' t' cs0)). }
        assert (Hfind : forall l, List.find p ((c :: descendants c) ++ l)
                                  = List.find p l).
        { intros l. cbn [app List.find]. rewrite Hpc.
          rewrite find_append. destruct c as [ns' n' m' a' t' cs0].
          rewrite descendants_eq. cbn [el_children] in Hc2. now rewrite Hc2. }
        destruct (insert_in p new r) as [r'|].
        -- destruct IHr as (l1 & s & l2 & j & H1 & H2 & H3 & H4 & H5).
           exists (outline k c ++ l1)%list, s, l2, j. cbn [flat_map].
           rewrite H1, H5. repeat split; auto.
           ++ now rewrite <- app_assoc.
           ++ apply Forall_app. auto.
           ++ unfold below in *. cbn [flat_map]. now rewrite Hfind.
           ++ now rewrite <- app_assoc.
        -- destruct IHr as [H1 H2]. split.
           ++ cbn [flat_map]. apply Forall_app. auto.
           ++ unfold below in *. cbn [flat_map]. now rewrite Hfind.
Qed.

Lemma insert_after_first_spec (e : xml) (d : nat) :
  match insert_after_first p new e with
  | Some e' => shallow e' = shallow e
               /\ inserted p new (S d) (el_children e) (el_children e')
  | None => unmatched p (S d) (el_children e)
  end.
Proof.
  revert d. change (tree_spec p new e).
  induction e as [ns n m a t cs IH] using xml_induction. intros d.
  rewrite insert_after_first_eq. cbn [el_children].
  pose proof (insert_in_step cs IH (S d)) as Hl.
  destruct (insert_in p new cs) as [cs'|]; cbn [option_map el_children shallow]; auto.
Qed.

End Insertion.

Lemma tag_matches_shallow (t : tag) (x : xml) :
  tag_matches t (shallow x) = tag_matches t x.
Proof. now destruct x. Qed.


Example qr_element_follows_first_signature_exemplo :
  let root := Toy.sign Toy.documento_original "#x" in
  exists t, Qr.inserir_qr root "https://qr/?Id=1" = Ok t
            /\ List.length (outline 0 t) = 2 + List.length (outline 0 root)
            /\ findtext (NoNs "dCarQR") t = Some "https://qr/?Id=1".
Proof. eexists. vm_compute. repeat split. Qed.

(** The children of the signed event among which [detach] looks for the
    signature. *)
Lemma detach_spec (p : xml -> bool) (cs : list xml) :
  match detach p cs with
  | Ok (Some (s, rest)) =>
      exists l1 l2, cs = (l1 ++ s :: l2)%list /\ rest = (l1 ++ l2)%list
                    /\ p s = true /\ List.find p (below cs) = Some s
                    /\ List.find p (below l1) = None
  | Ok None => List.find p (below cs) = None
  | Exc e =>
      e = ValueError
      /\ exists c s, In c cs /\ p c = false /\ In s (descendants c) /\ p s = true
                     /\ List.find p (below cs) = Some s
  end.
Proof.
  induction cs as [|c r IH]; [reflexivity|].
  cbn [detach]. unfold below in *. cbn [flat_map app List.find].
  destruct (p c) eqn:Hpc.
  - exists [], r. auto.
  - rewrite find_append.
    destruct (existsb p (descendants c)) eqn:Hex.
    + split; [reflexivity|]. destruct (List.find p (descendants c)) as [s|] eqn:Hs.
      * apply find_some in Hs as [Hin Hps]. exists c, s. simpl. auto.
      * apply existsb_exists in Hex as (s & Hin & Hps).
        apply (find_none _ _ Hs) in Hin. congruence.
    + assert (Hs : List.find p (descendants c) = None).
      { destruct (List.find p (descendants c)) as [s|] eqn:Hs; [|reflexivity].
        apply find_some in Hs as [Hin Hps].
        assert (existsb p (descendants c) = true) by (apply existsb_exists; eauto).
        congruence. }
      rewrite Hs. destruct (detach p r) as [[[s rest]|]|e].
      * destruct IH as (l1 & l2 & -> & -> & H3 & H4 & H5).
        exists (c :: l1), l2. repeat split; auto.
        cbn [flat_map app List.find]. now rewrite Hpc, find_append, Hs.
      * exact IH.
      * destruct IH as (-> & c0 & s & H1 & H2 & H3 & H4 & H5).
        split; [reflexivity|]. exists c0, s. simpl. auto.
Qed.

(** X26. The signature of a cancellation event is the sibling of the signed
    [rEve]. When [gerar_evento_assinado_wsdl] returns, the signer produced
    a tree; if that tree has a [Signature], it is a child of the root, the
    first one in document order, and the output serializes
    [gGroupGesEve/rGesEve] with exactly two children: the signed [rEve]
    without that child, then the signature; if it has none, [rGesEve]
    holds the signed tree alone. *)
Theorem cancel_event_signature_is_sibling (E : Env) (cdc_nota : string)
    (motivo : json) (cert_path cert_pass ev : string) :
  gerar_evento_assinado_wsdl E cdc_nota motivo cert_path cert_pass = Ok ev ->
  exists key_pem cert_pem motivo_t ns n m a t cs,
    pfx_to_pem E cert_path cert_pass = Ok (key_pem, cert_pem)
    /\ motivo_text motivo = Ok motivo_t
    /\ xml_sign E (rEve (now E) cdc_nota motivo_t) key_pem cert_pem "#1" false
       = Ok (Element ns n m a t cs)
    /\ let wrap children :=
         tostring E false
           (Element "" "gGroupGesEve" nsmap_full [(schema_loc_attr, schema_loc_val)] None
              [Element "" "rGesEve" nsmap_full [(schema_loc_attr, schema_loc_val)] None
                 children]) in
       match find (InNs DS_NS "Signature") (Element ns n m a t cs) with
       | Some sig =>
           exists l1 l2,
             cs = (l1 ++ sig :: l2)%list
             /\ List.find (tag_matches (InNs DS_NS "Signature")) (below l1) = None
             /\ ev = wrap [Element ns n m a t (l1 ++ l2); sig]
       | None => ev = wrap [Element ns n m a t cs]
       end.
Proof.
  unfold gerar_evento_assinado_wsdl. intros H.
  apply rbind_ok in H as ([key cert] & Hp & H).
  apply rbind_ok in H as (da & Hda & H).
  apply rbind_ok in H as (ct & Hct & H).
  apply rbind_ok in H as (mt & Hmt & H).
  apply rbind_ok in H as ([ns n m a t cs] & Hsg & H).
  apply rbind_ok in H as (found & Hdet & H).
  unfold checked_text in Hda, Hct.
  destruct (xml_compatible (now E)); [|discriminate]. injection Hda as <-.
  destruct (xml_compatible cdc_nota); [|discriminate]. injection Hct as <-.
  exists key, cert, mt, ns, n, m, a, t, cs.
  split; [exact Hp|]. split; [exact Hmt|]. split; [exact Hsg|]. cbv zeta.
  unfold find. rewrite descendants_eq.
  pose proof (detach_spec (tag_matches (InNs DS_NS "Signature")) cs) as Hd.
  rewrite Hdet in Hd. destruct found as [[s rest]|].
  - destruct Hd as (l1 & l2 & -> & -> & _ & Hfind & Hl1). rewrite Hfind.
    exists l1, l2. injection H as <-. auto.
  - rewrite Hd. now injection H as <-.
Qed.

Lemma cancel_event_signature_is_sibling_witness :
  exists key_pem cert_pem motivo_t ns n m a t cs,
    pfx_to_pem Toy.env_cancelado (Db.caminho_certificado Toy.emissao7)
      (Db.senha Toy.emissao7) = Ok (key_pem, cert_pem)
    /\ motivo_text (JStr "Error de carga") = Ok motivo_t
    /\ xml_sign Toy.env_cancelado (rEve (now Toy.env_cancelado) Cancelamento.cdc motivo_t)
         key_pem cert_pem "#1" false = Ok (Element ns n m a t cs)
    /\ let wrap children :=
         tostring Toy.env_cancelado false
           (Element "" "gGroupGesEve" nsmap_full [(schema_loc_attr, schema_loc_val)] None
              [Element "" "rGesEve" nsmap_full [(schema_loc_attr, schema_loc_val)] None
                 children]) in
       match find (InNs DS_NS "Signature") (Element ns n m a t cs) with
       | Some sig =>
           exists l1 l2,
             cs = (l1 ++ sig :: l2)%list
             /\ List.find (tag_matches (InNs DS_NS "Signature")) (below l1) = None
             /\ Cancelamento.evento "Error de carga"
                = wrap [Element ns n m a t (l1 ++ l2); sig]
       | None => Cancelamento.evento "Error de carga" = wrap [Element ns n m a t cs]
       end.
Proof.
  refine (cancel_event_signature_is_sibling Toy.env_cancelado Cancelamento.cdc
            (JStr "Error de carga") (Db.caminho_certificado Toy.emissao7)
            (Db.senha Toy.emissao7) (Cancelamento.evento "Error de carga") _).
  vm_compute. reflexivity.
Defined.

(** ** config.py and database.py: settings and connection *)

(** X27. [validar_configuracoes] passes exactly when the settings are
    complete: a connection string or the three Oracle components, both
    RabbitMQ credentials, and the four SIFEN URLs, each set and not empty;
    otherwise it raises [ValueError], and the URL entry of the error names
    the missing URLs in the order of their declaration. *)
Theorem validation_passes_iff_settings_complete (c : Config.settings) (E : Env) :
  (Config.validar_configuracoes c E = Ok tt
   <-> (Config.truthy_opt (Config.ORACLE_CONNECTION_STRING c) = true
        \/ (Config.truthy_opt (Config.ORACLE_USER c) = true
            /\ Config.truthy_opt (Config.ORACLE_PASSWORD c) = true
            /\ Config.truthy_opt (Config.ORACLE_DSN c) = true))
       /\ Config.truthy_opt (Config.RABBITMQ_USER c) = true
       /\ Config.truthy_opt (Config.RABBITMQ_PASS c) = true
       /\ Config.truthy_opt (URL_SIFEN_CONSULTA_LOTE E) = true
       /\ Config.truthy_opt (URL_SIFEN_RECEBE_LOTE E) = true
       /\ Config.truthy_opt (URL_SIFEN_QR E) = true
       /\ Config.truthy_opt (URL_SIFEN_EVENTO E) = true)
  /\ (Config.validar_configuracoes c E <> Ok tt ->
      Config.validar_configuracoes c E = Exc ValueError)
  /\ (forall l, In (Config.ErroUrls l) (Config.erros c E) ->
      l = Config.urls_faltando E /\ l <> []
      /\ forall name, In name l <->
           exists url, In (name, url) (Config.urls_obrigatorias E)
                       /\ Config.truthy_opt url = false).
Proof.
  split; [|split].
  - assert (Hv : Config.validar_configuracoes c E = Ok tt <-> Config.erros c E = []).
    { unfold Config.validar_configuracoes.
      destruct (Config.erros c E); split; congruence. }
    rewrite Hv. unfold Config.erros.
    assert (Happ : forall (x y z : list Config.erro),
               (x ++ y ++ z = [] <-> x = [] /\ y = [] /\ z = [])%list).
    { intros [|] [|] [|]; simpl; intuition discriminate. }
    rewrite Happ.
    assert (Ha : (if negb (Config.truthy_opt (Config.ORACLE_CONNECTION_STRING c))
                     && negb (forallb Config.truthy_opt
                                [Config.ORACLE_USER c; Config.ORACLE_PASSWORD c;
                                 Config.ORACLE_DSN c])
                  then [Config.ErroOracle] else []) = []
                 <-> (Config.truthy_opt (Config.ORACLE_CONNECTION_STRING c) = true
                      \/ (Config.truthy_opt (Config.ORACLE_USER c) = true
                          /\ Config.truthy_opt (Config.ORACLE_PASSWORD c) = true
                          /\ Config.truthy_opt (Config.ORACLE_DSN c) = true))).
    { cbn [forallb].
      destruct (Config.truthy_opt (Config.ORACLE_CONNECTION_STRING c)),
        (Config.truthy_opt (Config.ORACLE_USER c)),
        (Config.truthy_opt (Config.ORACLE_PASSWORD c)),
        (Config.truthy_opt (Config.ORACLE_DSN c)); cbn; intuition discriminate. }
    assert (Hb : (if negb (Config.truthy_opt (Config.RABBITMQ_USER c))
                     || negb (Config.truthy_opt (Config.RABBITMQ_PASS c))
                  then [Config.ErroRabbitMQ] else []) = []
                 <-> (Config.truthy_opt (Config.RABBITMQ_USER c) = true
                      /\ Config.truthy_opt (Config.RABBITMQ_PASS c) = true)).
    { destruct (Config.truthy_opt (Config.RABBITMQ_USER c)),
        (Config.truthy_opt (Config.RABBITMQ_PASS c)); cbn; intuition discriminate. }
    assert (Hc : match Config.urls_faltando E with
                 | [] => []
                 | x :: l => [Config.ErroUrls (x :: l)]
                 end = []
                 <-> (Config.truthy_opt (URL_SIFEN_CONSULTA_LOTE E) = true
                      /\ Config.truthy_opt (URL_SIFEN_RECEBE_LOTE E) = true
                      /\ Config.truthy_opt (URL_SIFEN_QR E) = true
                      /\ Config.truthy_opt (URL_SIFEN_EVENTO E) = true)).
    { unfold Config.urls_faltando, Config.urls_obrigatorias. cbn [filter map fst snd].
      destruct (Config.truthy_opt (URL_SIFEN_CONSULTA_LOTE E)),
        (Config.truthy_opt (URL_SIFEN_RECEBE_LOTE E)),
        (Config.truthy_opt (URL_SIFEN_QR E)),
        (Config.truthy_opt (URL_SIFEN_EVENTO E)); cbn; intuition discriminate. }
    rewrite Ha, Hb, Hc. tauto.
  - unfold Config.validar_configuracoes. destruct (Config.erros c E); [congruence|auto].
  - intros l Hin. unfold Config.erros in Hin.
    assert (Hl : l = Config.urls_faltando E /\ l <> []).
    { apply in_app_or in Hin as [Hin | Hin].
      - destruct (_ && _); simpl in Hin; intuition discriminate.
      - apply in_app_or in Hin as [Hin | Hin].
        + destruct (_ || _); simpl in Hin; intuition discriminate.
        + destruct (Config.urls_faltando E) as [|x f] eqn:Hf; [destruct Hin|].
          destruct Hin as [Hin | []]. injection Hin as <-. split; [reflexivity|discriminate]. }
    destruct Hl as [-> Hne]. split; [reflexivity|]. split; [exact Hne|].
    intros name. unfold Config.urls_faltando. rewrite in_map_iff. split.
    + intros ([n u] & <- & Hf). apply filter_In in Hf as [Hi Hu]. exists u.
      split; [exact Hi|]. simpl in Hu. now apply negb_true_iff in Hu.
    + intros (u & Hi & Hu). exists (name, u). split; [reflexivity|].
      apply filter_In. split; [exact Hi|]. simpl. now rewrite Hu.
Qed.

Lemma split_char_append (sep : ascii) (a b : string) :
  Config.split_char sep (a ++ String sep b)
  = (Config.split_char sep a ++ Config.split_char sep b)%list.
Proof.
  induction a as [|c a IH]; cbn [append Config.split_char].
  - now rewrite Ascii.eqb_refl.
  - rewrite IH. destruct (Ascii.eqb c sep); [reflexivity|].
    destruct (Config.split_char sep a) as [|h t] eqn:Ha; [|reflexivity].
    destruct a; cbn [Config.split_char] in Ha; [discriminate|].
    destruct (Ascii.eqb _ sep); discriminate.
Qed.

Lemma contains_char (sep : ascii) (s : string) :
  Py.contains (String sep "") s = true <-> exists a b, s = a ++ String sep b.
Proof.
  induction s as [|c s IH].
  - simpl. split; [discriminate|]. intros (a & b & H). destruct a; discriminate.
  - cbn [Py.contains Py.startswith]. rewrite orb_true_iff, IH.
    rewrite andb_true_r.
    split.
    + intros [H | (a & b & ->)].
      * apply Ascii.eqb_eq in H. subst c. now exists "", s.
      * now exists (String c a), b.
    + intros (a & b & H). destruct a as [|x a]; simpl in H; injection H as -> ->.
      * left. apply Ascii.eqb_refl.
      * right. eauto.
Qed.

Lemma split_char_none (sep : ascii) (s : string) :
  Py.contains (String sep "") s = false -> Config.split_char sep s = [s].
Proof.
  induction s as [|c s IH]; [reflexivity|].
  cbn [Py.contains Py.startswith Config.split_char]. intros H.
  apply orb_false_iff in H as [Hc Hs]. rewrite (IH Hs). cbn [hd tl].
  rewrite andb_true_r in Hc.
  rewrite Ascii.eqb_sym, Hc. reflexivity.
Qed.

Lemma split_char_head (sep : ascii) (a b : string) :
  Py.contains (String sep "") a = false ->
  hd "" (Config.split_char sep (a ++ b)) = a ++ hd "" (Config.split_char sep b).
Proof.
  induction a as [|c a IH]; [reflexivity|].
  cbn [Py.contains Py.startswith append Config.split_char]. intros H.
  apply orb_false_iff in H as [Hc Hs].
  rewrite andb_true_r in Hc.
  rewrite Ascii.eqb_sym, Hc. cbn [hd]. now rewrite (IH Hs).
Qed.

Lemma digits_have_no (sep : ascii) (s : string) :
  Py.is_ascii_digit sep = false ->
  Py.all_chars Py.is_ascii_digit s = true ->
  Py.contains (String sep "") s = false.
Proof.
  intros Hsep. induction s as [|c s IH]; [reflexivity|].
  cbn [Py.all_chars Py.contains Py.startswith]. intros H.
  apply andb_true_iff in H as [Hc Hs]. rewrite (IH Hs), orb_false_r, andb_true_r.
  destruct (Ascii.eqb sep c) eqn:He; [|reflexivity].
  apply Ascii.eqb_eq in He. subst c. congruence.
Qed.

Lemma isdigit_ascii (s : string) :
  Py.all_chars Py.is_ascii_digit s = true -> Py.all_chars Py.isdigit_char s = true.
Proof.
  induction s as [|c s IH]; [reflexivity|]. cbn [Py.all_chars]. intros H.
  apply andb_true_iff in H as [Hc Hs]. rewrite (IH Hs). unfold Py.isdigit_char.
  now rewrite Hc.
Qed.

(** X28. A DSN of the documented form [host:port/service_name] is taken
    apart as written: with no connection string set, a host without a colon,
    a port of decimal digits and a service name without a slash,
    [connect] asks for exactly that host, that port as a number and that
    service name, with the configured user and password. *)
Theorem dsn_is_taken_apart_as_written (c : Config.settings)
    (user password host port service : string) :
  Config.truthy_opt (Config.ORACLE_CONNECTION_STRING c) = false ->
  Config.ORACLE_USER c = Some user -> user <> "" ->
  Config.ORACLE_PASSWORD c = Some password -> password <> "" ->
  Config.ORACLE_DSN c = Some (host ++ ":" ++ port ++ "/" ++ service) ->
  Py.contains ":" host = false ->
  port <> "" -> Py.all_chars Py.is_ascii_digit port = true ->
  Py.contains "/" service = false ->
  Config.connect c
  = Ok (Config.ConnectDsn user password host (Py.digits_value 0 port) service).
Proof.
  intros Hcs Hu Hune Hp Hpne Hd Hhost Hpne' Hport Hsvc.
  assert (Ht : forall s, s <> "" -> Py.truthy s = true).
  { intros [|? ?] H; [congruence | reflexivity]. }
  unfold Config.connect. rewrite Hcs, Hu, Hp, Hd.
  cbn [Config.truthy_opt Py.fmt_opt]. rewrite (Ht _ Hune), (Ht _ Hpne).
  set (dsn := host ++ ":" ++ port ++ "/" ++ service).
  assert (Htd : Py.truthy dsn = true).
  { unfold dsn. destruct host; reflexivity. }
  assert (Hc1 : Py.contains ":" dsn = true).
  { apply (contains_char Config.colon). now exists host, (port ++ "/" ++ service). }
  assert (Hc2 : Py.contains "/" dsn = true).
  { apply (contains_char Config.slash). exists (host ++ ":" ++ port), service.
    unfold dsn. rewrite append_assoc. reflexivity. }
  rewrite Htd, Hc1, Hc2. cbn [andb].
  assert (Hsplit : Config.split_char Config.colon dsn
                   = (host :: Config.split_char Config.colon (port ++ "/" ++ service))).
  { unfold dsn. change (":" ++ port ++ "/" ++ service)
      with (String Config.colon (port ++ "/" ++ service)).
    rewrite split_char_append, (split_char_none Config.colon host Hhost). reflexivity. }
  assert (Hseg : nth 1 (Config.split_char Config.colon dsn) ""
                 = port ++ hd "" (Config.split_char Config.colon ("/" ++ service))).
  { rewrite Hsplit. cbn [nth].
    rewrite <- (split_char_head Config.colon port ("/" ++ service)).
    - now destruct (Config.split_char Config.colon (port ++ "/" ++ service)).
    - apply digits_have_no; [reflexivity | exact Hport]. }
  assert (Hps : nth 0 (Config.split_char Config.slash
                         (nth 1 (Config.split_char Config.colon dsn) "")) "" = port).
  { rewrite Hseg.
    assert (Hh : exists x, hd "" (Config.split_char Config.colon ("/" ++ service))
                           = String Config.slash x).
    { cbn [append Config.split_char]. change (Ascii.eqb "/" Config.colon) with false.
      cbv iota. cbn [hd]. eauto. }
    destruct Hh as [x ->]. rewrite split_char_append.
    rewrite (split_char_none Config.slash port); [reflexivity|].
    apply digits_have_no; [reflexivity | exact Hport]. }
  assert (Hlast : last (Config.split_char Config.slash dsn) "" = service).
  { unfold dsn.
    change (host ++ ":" ++ port ++ "/" ++ service)
      with (host ++ (":" ++ port) ++ String Config.slash service).
    rewrite <- append_assoc.
    rewrite split_char_append, (split_char_none Config.slash service Hsvc).
    now rewrite last_last. }
  rewrite Hsplit in *. cbn [nth] in *. rewrite Hps, Hlast.
  unfold Py.isdigit, Py.int_of_digits.
  rewrite (Ht _ Hpne'), (isdigit_ascii _ Hport), Hport. reflexivity.
Qed.

Lemma dsn_is_taken_apart_as_written_witness :
  Config.connect configuracao_dsn
  = Ok (Config.ConnectDsn "sifen" "segredo" "db.local" 1522 "XEPDB1").
Proof.
  refine (dsn_is_taken_apart_as_written configuracao_dsn
            "sifen" "segredo" "db.local" "1522" "XEPDB1" _ _ _ _ _ _ _ _ _ _);
    solve [reflexivity | discriminate].
Defined.

Lemma validation_ok_oracle (c : Config.settings) (E : Env) :
  Config.validar_configuracoes c E = Ok tt ->
  Config.truthy_opt (Config.ORACLE_CONNECTION_STRING c) = true
  \/ (Config.truthy_opt (Config.ORACLE_USER c) = true
      /\ Config.truthy_opt (Config.ORACLE_PASSWORD c) = true
      /\ Config.truthy_opt (Config.ORACLE_DSN c) = true).
Proof.
  unfold Config.validar_configuracoes, Config.erros. cbn [forallb].
  destruct (Config.truthy_opt (Config.ORACLE_CONNECTION_STRING c)); [auto|].
  destruct (Config.truthy_opt (Config.ORACLE_USER c)),
    (Config.truthy_opt (Config.ORACLE_PASSWORD c)),
    (Config.truthy_opt (Config.ORACLE_DSN c)); cbn; auto; discriminate.
Qed.

(** X29. After a validation that passed, [connect] never takes its last
    branch: it connects with the connection string when one is set, even if
    the three components are set too, and with the components otherwise;
    the only error left is a port, read between the first colon of the DSN
    and the slash after it, written with digits that [int] refuses. *)
Theorem connect_after_validation (c : Config.settings) (E : Env) :
  Config.validar_configuracoes c E = Ok tt ->
  match Config.connect c with
  | Ok (Config.ConnectString s) => Config.ORACLE_CONNECTION_STRING c = Some s /\ s <> ""
  | Ok (Config.ConnectDsn user password _ _ _) =>
      Config.truthy_opt (Config.ORACLE_CONNECTION_STRING c) = false
      /\ Config.ORACLE_USER c = Some user /\ Config.ORACLE_PASSWORD c = Some password
  | Exc e =>
      e = ValueError
      /\ Config.truthy_opt (Config.ORACLE_CONNECTION_STRING c) = false
      /\ exists dsn,
           Config.ORACLE_DSN c = Some dsn
           /\ Py.contains ":" dsn = true
           /\ let port_str :=
                nth 0 (Config.split_char Config.slash
                         (nth 1 (Config.split_char Config.colon dsn) "")) "" in
              Py.isdigit port_str = true /\ Py.int_of_digits port_str = None
  end.
Proof.
  intros H. apply validation_ok_oracle in H. unfold Config.connect.
  destruct (Config.ORACLE_CONNECTION_STRING c) as [[|x s]|] eqn:Hcs;
    cbn [Config.truthy_opt Py.truthy Py.fmt_opt] in *;
    try (split; [reflexivity | discriminate]).
  all: destruct H as [H | (Hu & Hp & Hd)]; [discriminate|].
  all: rewrite Hu, Hp, Hd; cbn [andb].
  all: destruct (Config.ORACLE_USER c) as [u|]; [|discriminate].
  all: destruct (Config.ORACLE_PASSWORD c) as [p|]; [|discriminate].
  all: destruct (Config.ORACLE_DSN c) as [dsn|]; [|discriminate].
  all: cbn [Py.fmt_opt].
  all: destruct (Py.contains ":" dsn) eqn:Hc; [|cbn; auto].
  all: match goal with
       | |- context [Py.isdigit ?ps] =>
           destruct (Py.isdigit ps) eqn:Hdig;
             [destruct (Py.int_of_digits ps) eqn:Hint|]; cbn [rbind]; auto
       end.
  all: split; [reflexivity|]; split; [reflexivity|]; exists dsn; auto.
Qed.

Lemma connect_after_validation_witness :
  Config.validar_configuracoes configuracao_dsn Toy.env_envio = Ok tt
  /\ match Config.connect configuracao_dsn with
     | Ok (Config.ConnectString s) =>
         Config.ORACLE_CONNECTION_STRING configuracao_dsn = Some s /\ s <> ""
     | Ok (Config.ConnectDsn user password _ _ _) =>
         Config.truthy_opt (Config.ORACLE_CONNECTION_STRING configuracao_dsn) = false
         /\ Config.ORACLE_USER configuracao_dsn = Some user
         /\ Config.ORACLE_PASSWORD configuracao_dsn = Some password
     | Exc e =>
         e = ValueError
         /\ Config.truthy_opt (Config.ORACLE_CONNECTION_STRING configuracao_dsn) = false
         /\ exists dsn,
              Config.ORACLE_DSN configuracao_dsn = Some dsn
              /\ Py.contains ":" dsn = true
              /\ let port_str :=
                   nth 0 (Config.split_char Config.slash
                            (nth 1 (Config.split_char Config.colon dsn) "")) "" in
                 Py.isdigit port_str = true /\ Py.int_of_digits port_str = None
     end.
Proof.
  split; [vm_compute; reflexivity|].
  apply (connect_after_validation configuracao_dsn Toy.env_envio).
  vm_compute. reflexivity.
Defined.

(** ** The polling of a document ends *)

Lemma skipn_length_append {A} (l1 l2 : list A) :
  skipn (List.length l1) (l1 ++ l2) = l2.
Proof. induction l1 as [|x l1 IH]; [reflexivity | exact IH]. Qed.

Lemma calm_next_tick (w : world) : calm w -> calm (next_tick w).
Proof. intros H t. apply H. Qed.

Lemma calm_emit (e : chan_event) (w : world) : calm w -> calm (emit e w).
Proof. intros H t. apply H. Qed.

Lemma calm_log_http (url : option string) (d : list byte) (w : world) :
  calm w -> calm (log_http url d w).
Proof. intros H t. apply H. Qed.

Lemma calm_set_emissao (l : list emissao_row) (w : world) :
  calm w -> calm (set_emissao l w).
Proof. intros H t. apply H. Qed.

Lemma calm_set_documento (l : list documento_row) (w : world) :
  calm w -> calm (set_documento l w).
Proof. intros H t. apply H. Qed.

Lemma update_tb_de_emissao_run (k : Z) (kv : Db.campo * option string)
    (kwargs : list (Db.campo * option string)) (w : world) :
  calm w ->
  Db.update_tb_de_emissao k (kv :: kwargs) w
  = (Ok (Db.rowcount_emissao k (tb_de_emissao w)),
     set_emissao (map (Db.update_row k (kv :: kwargs)) (tb_de_emissao w)) (next_tick w)).
Proof.
  intros H. unfold Db.update_tb_de_emissao, bind, io. now rewrite H.
Qed.

Lemma update_tb_de_documento_run (k c : Z) (desc : option string) (w : world) :
  calm w ->
  exists n,
    Db.update_tb_de_documento k (Some c) desc w
    = (Ok n, set_documento (map (Db.update_doc_row k (Some c) desc) (tb_de_documento w))
               (next_tick w)).
Proof.
  intros H. unfold Db.update_tb_de_documento, bind, io. rewrite H. eexists. reflexivity.
Qed.

Section Polling.

Variable E : Env.
Variables (j : Z) (row : emissao_row) (drow : documento_row).
Variables (key_pem cert_pem retorno : string) (resp : response) (retorno_root : xml).

Hypothesis Hj : j <> 0%Z.
Hypothesis Hpem :
  pfx_to_pem E (Db.caminho_certificado (Db.emissao_of_row row))
    (Db.senha (Db.emissao_of_row row))
  = Ok (key_pem, cert_pem).
Hypothesis Hpost :
  requests_post E (URL_SIFEN_CONSULTA_LOTE E)
    (pedido_consulta E (Db.emissao_of_row row))
    cert_pem key_pem = Ok resp.
Hypothesis Hresp : tratar_resposta resp = Ok retorno.
Hypothesis Hparse : fromstring E (Py.encode_utf8 retorno) = Ok retorno_root.
Hypothesis H0160 : is_0160 retorno_root = false.
Hypothesis Hapr : is_aprovado retorno_root = false.
Hypothesis Hrej : is_rejeitado retorno_root = false.

Lemma consulta_run (w : world) :
  consultar_lote_sifen E (Db.protocolo (Db.emissao_of_row row))
    (Db.caminho_certificado (Db.emissao_of_row row))
    (Db.senha (Db.emissao_of_row row)) w
  = (Ok retorno,
     log_http (URL_SIFEN_CONSULTA_LOTE E)
       (pedido_consulta E (Db.emissao_of_row row)) w).
Proof.
  unfold consultar_lote_sifen. unfold pedido_consulta in *.
  rewrite (make_sifen_request_run E _ _ _ _ key_pem cert_pem resp w Hpem Hpost).
  now rewrite Hresp.
Qed.

(** One delivery below the limit: a request, a parked poll, an ack. *)
Lemma poll_round_parks (tag n : Z) (w : world) :
  calm w ->
  Db.newest j (tb_de_emissao w) = Some row ->
  List.find (fun r => (d_id_doc r =? j)%Z) (tb_de_documento w) = Some drow ->
  (n < 10)%Z ->
  on_message_received E tag (poll_body j n) w
  = (Ok tt,
     emit (Ack tag)
       (next_tick
          (emit (poll_message j (n + 1))
             (next_tick
                (log_http (URL_SIFEN_CONSULTA_LOTE E)
                   (pedido_consulta E (Db.emissao_of_row row))
                   (next_tick (next_tick w))))))).
Proof.
  intros Hcalm Hrow Hdoc Hlt.
  assert (Hid : Db.id_docfis (Db.emissao_of_row row) = j).
  { simpl. now apply newest_id_docfis in Hrow. }
  unfold on_message_received, try_except, poll_body.
  rewrite (dispatcher_reads E tag j
             [("id_fatura", JInt j); ("acao", JStr "consultar"); ("tentativas", JInt n)]
             w "consultar" eq_refl eq_refl Hj (Hcalm _) (Hcalm _)).
  rewrite Hrow, Hdoc. cbn [option_map].
  change (String.eqb "consultar" "enviar") with false.
  change (String.eqb "consultar" "consultar") with true. cbv iota.
  rewrite (consultar_pendente_forward E tag (Db.emissao_of_row row)
             (Db.documento_of_row drow)
             (Json (JDict [("id_fatura", JInt j); ("acao", JStr "consultar");
                           ("tentativas", JInt n)]))
             (next_tick (next_tick w)) _ retorno retorno_root
             (JDict [("id_fatura", JInt j); ("acao", JStr "consultar");
                     ("tentativas", JInt n)])
             (JInt n) n (consulta_run _) Hparse H0160 Hapr Hrej eq_refl eq_refl
             eq_refl Hlt (Hcalm _) (Hcalm _)).
  rewrite Hid. reflexivity.
Qed.

(** The delivery at the limit: a request, the code 998 in both tables, an
    ack, and nothing parked. *)
Lemma poll_round_last (tag n : Z) (w : world) :
  calm w ->
  Db.newest j (tb_de_emissao w) = Some row ->
  List.find (fun r => (d_id_doc r =? j)%Z) (tb_de_documento w) = Some drow ->
  (10 <= n)%Z ->
  on_message_received E tag (poll_body j n) w
  = (Ok tt,
     emit (Ack tag)
       (next_tick
          (set_documento
             (map (Db.update_doc_row j (Some 998%Z) (Some DESC_EXCEDEU))
                (tb_de_documento w))
             (next_tick
                (set_emissao
                   (map (Db.update_row j
                           [(Db.xml_retorno_, Some retorno);
                            (Db.cod_status_, Some "998");
                            (Db.desc_status_, Some DESC_EXCEDEU)])
                      (tb_de_emissao w))
                   (next_tick
                      (log_http (URL_SIFEN_CONSULTA_LOTE E)
                         (pedido_consulta E (Db.emissao_of_row row))
                         (next_tick (next_tick w))))))))).
Proof.
  intros Hcalm Hrow Hdoc Hge.
  assert (Hid : Db.id_docfis (Db.emissao_of_row row) = j).
  { simpl. now apply newest_id_docfis in Hrow. }
  unfold on_message_received, try_except, poll_body.
  rewrite (dispatcher_reads E tag j
             [("id_fatura", JInt j); ("acao", JStr "consultar"); ("tentativas", JInt n)]
             w "consultar" eq_refl eq_refl Hj (Hcalm _) (Hcalm _)).
  rewrite Hrow, Hdoc. cbn [option_map].
  change (String.eqb "consultar" "enviar") with false.
  change (String.eqb "consultar" "consultar") with true. cbv iota.
  unfold handle_consultar, try_except, handle_consultar_try.
  unfold bind at 1. rewrite consulta_run.
  unfold bind at 1, lift at 1. rewrite Hparse. rewrite H0160, Hapr, Hrej.
  unfold bind at 1.
  unfold bind at 1, lift at 1. cbn [json_loads].
  unfold bind at 1, lift at 1.
  change (dict_get (JDict [("id_fatura", JInt j); ("acao", JStr "consultar");
                           ("tentativas", JInt n)]) "tentativas" (JInt 1))
    with (@Ok json (JInt n)). cbv iota.
  unfold bind at 1, lift at 1. unfold lt_int. cbn [as_int].
  apply Z.ltb_ge in Hge. unfold MAX_TENTATIVAS_CONSULTA. rewrite Hge. cbv iota.
  rewrite Hid.
  assert (Hc1 : calm (log_http (URL_SIFEN_CONSULTA_LOTE E)
                        (pedido_consulta E (Db.emissao_of_row row))
                        (next_tick (next_tick w)))).
  { now apply calm_log_http, calm_next_tick, calm_next_tick. }
  set (w1 := log_http (URL_SIFEN_CONSULTA_LOTE E)
               (pedido_consulta E (Db.emissao_of_row row))
               (next_tick (next_tick w))) in *.
  unfold bind. rewrite (update_tb_de_emissao_run j _ _ w1 Hc1).
  set (w2 := set_emissao _ (next_tick w1)).
  assert (Hc2 : calm w2) by now apply calm_set_emissao, calm_next_tick.
  destruct (update_tb_de_documento_run j (int_const CODIGO_STATUS_EXCEDEU_TENTATIVAS)
              (Some DESC_EXCEDEU) w2 Hc2) as [cnt Hdocu].
  rewrite Hdocu. unfold ret.
  rewrite basic_ack_run; [reflexivity|].
  apply calm_set_documento, calm_next_tick, Hc2.
Qed.

End Polling.

Lemma parked_poll (w w' : world) (j n tag : Z) :
  channel w' = (channel w ++ [poll_message j n; Ack tag])%list ->
  parked w w' = Some (poll_body j n).
Proof. intros H. unfold parked. now rewrite H, skipn_length_append. Qed.

Lemma parked_nothing (w w' : world) (tag : Z) :
  channel w' = (channel w ++ [Ack tag])%list -> parked w w' = None.
Proof. intros H. unfold parked. now rewrite H, skipn_length_append. Qed.

(** X30. The polling of a document ends. Let SIFEN answer every status
    query of the document with an answer that is neither 0160, nor
    approved, nor rejected, and let no database statement or channel call
    fail. A poll at attempt [n] (at most 10), redelivered each time the
    worker parks it, is delivered [11 - n] times in all and then parks
    nothing: the worker sent [11 - n] queries, parked [10 - n] polls, acked
    every delivery, and left the code 998 on every emission row of the
    document. *)
Theorem polling_stops_at_the_limit (E : Env) (j : Z) (row : emissao_row)
    (drow : documento_row) (key_pem cert_pem retorno : string) (resp : response)
    (retorno_root : xml) (n tag : Z) (fuel : nat) (w : world) :
  let emissao := Db.emissao_of_row row in
  j <> 0%Z ->
  pfx_to_pem E (Db.caminho_certificado emissao) (Db.senha emissao)
  = Ok (key_pem, cert_pem) ->
  requests_post E (URL_SIFEN_CONSULTA_LOTE E) (pedido_consulta E emissao)
    cert_pem key_pem = Ok resp ->
  tratar_resposta resp = Ok retorno ->
  fromstring E (Py.encode_utf8 retorno) = Ok retorno_root ->
  is_0160 retorno_root = false ->
  is_aprovado retorno_root = false ->
  is_rejeitado retorno_root = false ->
  calm w ->
  Db.newest j (tb_de_emissao w) = Some row ->
  List.find (fun r => (d_id_doc r =? j)%Z) (tb_de_documento w) = Some drow ->
  (n <= 10)%Z ->
  Z.to_nat (11 - n) <= fuel ->
  let run := deliveries E fuel tag (poll_body j n) w in
  fst run = Z.to_nat (11 - n)
  /\ List.length (http_log (snd run)) = List.length (http_log w) + Z.to_nat (11 - n)
  /\ List.length (channel (snd run))
     = List.length (channel w) + 2 * Z.to_nat (10 - n) + 1
  /\ forall r, In r (tb_de_emissao (snd run)) -> r_id_docfis r = j ->
               r_cod_status r = Some "998".
Proof.
  intros emissao Hj Hpem Hpost Hresp Hparse H0160 Hapr Hrej.
  remember (Z.to_nat (10 - n)) as k eqn:Hk.
  revert n tag fuel w Hk. induction k as [|k IH];
    intros n tag fuel w Hk Hcalm Hrow Hdoc Hn Hfuel run.
  - assert (n = 10%Z) by lia. subst n.
    destruct fuel as [|fuel]; [simpl in Hfuel; lia|].
    subst run. cbn [deliveries].
    rewrite (poll_round_last E j row drow key_pem cert_pem retorno resp retorno_root
               Hj Hpem Hpost Hresp Hparse H0160 Hapr Hrej tag 10 w Hcalm Hrow Hdoc)
      by lia.
    cbn [snd]. rewrite (parked_nothing _ _ tag) by reflexivity.
    cbn [fst snd]. split; [reflexivity|]. split.
    { cbn [http_log emit next_tick set_documento set_emissao log_http].
      rewrite length_app. reflexivity. }
    split.
    { cbn [channel emit next_tick set_documento set_emissao log_http].
      rewrite length_app. simpl. lia. }
    intros r Hin Hr.
    cbn [tb_de_emissao emit next_tick set_documento set_emissao log_http] in Hin.
    apply in_update_row in Hin as (r0 & _ & _ & ->); [reflexivity | exact Hr].
  - assert (Hlt : (n < 10)%Z) by lia.
    destruct fuel as [|fuel]; [lia|].
    subst run. cbn [deliveries].
    rewrite (poll_round_parks E j row drow key_pem cert_pem retorno resp retorno_root
               Hj Hpem Hpost Hresp Hparse H0160 Hapr Hrej tag n w Hcalm Hrow Hdoc Hlt).
    cbn [snd]. rewrite (parked_poll _ _ j (n + 1) tag);
      [|cbn [channel emit next_tick log_http]; now rewrite <- app_assoc].
    set (w' := emit (Ack tag) _).
    assert (Hcalm' : calm w') by (intros t; apply Hcalm).
    specialize (IH (n + 1)%Z (tag + 1)%Z fuel w' ltac:(lia) Hcalm' Hrow Hdoc
                  ltac:(lia) ltac:(lia)).
    cbv zeta in IH. destruct (deliveries E fuel (tag + 1) (poll_body j (n + 1)) w')
      as [cnt wf] eqn:Hrun.
    cbn [fst snd] in *. destruct IH as (H1 & H2 & H3 & H4).
    assert (Hhttp : List.length (http_log w') = List.length (http_log w) + 1).
    { unfold w'. cbn [http_log emit next_tick log_http]. now rewrite length_app. }
    assert (Hchan : List.length (channel w') = List.length (channel w) + 2).
    { unfold w'. cbn [channel emit next_tick log_http]. rewrite !length_app. simpl. lia. }
    split; [lia|]. split; [lia|]. split; [lia|]. exact H4.
Qed.

Lemma polling_stops_at_the_limit_witness :
  let run := deliveries Toy.env_pendente 5 11 (poll_body 7 8) Toy.w0 in
  fst run = 3
  /\ List.length (http_log (snd run)) = List.length (http_log Toy.w0) + 3
  /\ List.length (channel (snd run)) = List.length (channel Toy.w0) + 2 * 2 + 1
  /\ forall r, In r (tb_de_emissao (snd run)) -> r_id_docfis r = 7%Z ->
               r_cod_status r = Some "998".
Proof.
  refine (polling_stops_at_the_limit Toy.env_pendente 7 Toy.row7 Toy.doc7
            "KEY" "CERT" (text Toy.resposta_pendente) Toy.resposta_pendente
            Toy.arvore_pendente 8 11 5 Toy.w0 _ _ _ _ _ _ _ _ _ _ _ _ _).
  - discriminate.
  - reflexivity.
  - reflexivity.
  - reflexivity.
  - vm_compute. reflexivity.
  - reflexivity.
  - reflexivity.
  - reflexivity.
  - intros t. reflexivity.
  - reflexivity.
  - reflexivity.
  - discriminate.
  - simpl. lia.
Defined.

Example polling_from_the_publisher :
  let run := deliveries Toy.env_pendente 20 1 (poll_body 7 1) Toy.w0 in
  fst run = 10
  /\ List.length (http_log (snd run)) = 10
  /\ List.length (filter (fun e => match e with Ack _ => true | _ => false end)
                    (channel (snd run))) = 10
  /\ List.length (filter (fun e => match e with Publish _ _ _ _ => true | _ => false end)
                    (channel (snd run))) = 9
  /\ first_parked (skipn 16 (channel (snd run))) = Some (poll_body 7 10)
  /\ option_map r_cod_status (Db.newest 7 (tb_de_emissao (snd run))) = Some (Some "998").
Proof. vm_compute. repeat split. Qed.
